(** * Conversor de Monedas y Criptomonedas: a shallow embedding of [script.js]

    The [CurrencyConverter] class is embedded function by function.  The
    mutable fields of the class and the parts of the page it reads and writes
    form one explicit state record; the network, the clock, the locale and
    the random generator are the host, a record of functions the program is
    parametric in.  Numbers are kept abstract behind the interface [Number],
    with two instances: IEEE 754 binary64 (what the script runs on) and exact
    rational arithmetic extended with infinities and NaN. *)

From Stdlib Require Import Floats QArith ZArith Lia Lqa Ascii String.
From Stdlib Require OrderedTypeEx.
From stdpp Require Import gmap strings list pretty sorting.

Local Open Scope string_scope.
Local Open Scope list_scope.

(** ** Numbers *)

Declare Scope num_scope.
Delimit Scope num_scope with num.

(** The operations of the host language on its number type that the script
    uses.  [lit q] is the value of the numeric literal whose mathematical
    value is [q]. *)
Class Number (num : Type) : Type := {
  lit : Q -> num;
  NaN : num;
  Infinity : num;
  n_neg : num -> num;
  n_add : num -> num -> num;
  n_sub : num -> num -> num;
  n_mul : num -> num -> num;
  n_div : num -> num -> num;
  n_isNaN : num -> bool;
  n_isZero : num -> bool;
  n_leb : num -> num -> bool;
}.

Infix "+" := n_add : num_scope.
Infix "-" := n_sub : num_scope.
Infix "*" := n_mul : num_scope.
Infix "/" := n_div : num_scope.
Infix "<=?" := n_leb : num_scope.

(** *** binary64 *)

(** The binary64 value nearest to the rational [q]: the quotient of two exact
    integers, rounded once (to nearest, ties to even). *)
Definition float_of_Q (q : Q) : float :=
  match Qnum q with
  | Z0 => PrimFloat.zero
  | Zpos n =>
      SF2Prim (SFdiv prec emax (S754_finite false n 0) (S754_finite false (Qden q) 0))
  | Zneg n =>
      SF2Prim (SFdiv prec emax (S754_finite true n 0) (S754_finite false (Qden q) 0))
  end.

#[export] Instance float_Number : Number float := {|
  lit := float_of_Q;
  NaN := PrimFloat.nan;
  Infinity := PrimFloat.infinity;
  n_neg := PrimFloat.opp;
  n_add := PrimFloat.add;
  n_sub := PrimFloat.sub;
  n_mul := PrimFloat.mul;
  n_div := PrimFloat.div;
  n_isNaN := PrimFloat.is_nan;
  n_isZero := PrimFloat.is_zero;
  n_leb := PrimFloat.leb;
|}.

(** *** Exact arithmetic *)

(** Rationals with the two infinities and NaN, following the IEEE rules for
    the special values but without rounding (and without a negative zero). *)
Inductive exact : Type :=
| ENaN
| EInf (negative : bool)
| EFin (q : Q).

Definition Qnegative (q : Q) : bool := (Qnum q <? 0)%Z.

Definition e_neg (x : exact) : exact :=
  match x with
  | ENaN => ENaN
  | EInf s => EInf (negb s)
  | EFin q => EFin (- q)
  end.

Definition e_add (x y : exact) : exact :=
  match x, y with
  | ENaN, _ | _, ENaN => ENaN
  | EInf s, EInf t => if Bool.eqb s t then EInf s else ENaN
  | EInf s, EFin _ | EFin _, EInf s => EInf s
  | EFin a, EFin b => EFin (a + b)
  end.

Definition e_sub (x y : exact) : exact := e_add x (e_neg y).

Definition e_mul (x y : exact) : exact :=
  match x, y with
  | ENaN, _ | _, ENaN => ENaN
  | EInf s, EInf t => EInf (xorb s t)
  | EInf s, EFin q | EFin q, EInf s =>
      if Qeq_bool q 0 then ENaN else EInf (xorb s (Qnegative q))
  | EFin a, EFin b => EFin (a * b)
  end.

Definition e_div (x y : exact) : exact :=
  match x, y with
  | ENaN, _ | _, ENaN => ENaN
  | EInf _, EInf _ => ENaN
  | EInf s, EFin q => EInf (xorb s (Qnegative q))
  | EFin _, EInf _ => EFin 0
  | EFin a, EFin b =>
      if Qeq_bool b 0
      then (if Qeq_bool a 0 then ENaN else EInf (Qnegative a))
      else EFin (a / b)
  end.

Definition e_isNaN (x : exact) : bool :=
  match x with ENaN => true | _ => false end.

Definition e_isZero (x : exact) : bool :=
  match x with EFin q => Qeq_bool q 0 | _ => false end.

Definition e_leb (x y : exact) : bool :=
  match x, y with
  | ENaN, _ | _, ENaN => false
  | EInf s, EInf t => s || negb t
  | EInf s, EFin _ => s
  | EFin _, EInf t => negb t
  | EFin a, EFin b => Qle_bool a b
  end.

#[export] Instance exact_Number : Number exact := {|
  lit := EFin;
  NaN := ENaN;
  Infinity := EInf false;
  n_neg := e_neg;
  n_add := e_add;
  n_sub := e_sub;
  n_mul := e_mul;
  n_div := e_div;
  n_isNaN := e_isNaN;
  n_isZero := e_isZero;
  n_leb := e_leb;
|}.

(** ** Strings

    Strings are sequences of bytes; case conversion and white space are those
    of the ASCII range, which is where currency codes and ticker symbols
    live. *)

Definition upperChar (c : ascii) : ascii :=
  let n := nat_of_ascii c in
  if (97 <=? n)%nat && (n <=? 122)%nat then ascii_of_nat (n - 32) else c.

Definition lowerChar (c : ascii) : ascii :=
  let n := nat_of_ascii c in
  if (65 <=? n)%nat && (n <=? 90)%nat then ascii_of_nat (n + 32) else c.

Fixpoint toUpperCase (s : string) : string :=
  match s with
  | EmptyString => EmptyString
  | String c s' => String (upperChar c) (toUpperCase s')
  end.

Fixpoint toLowerCase (s : string) : string :=
  match s with
  | EmptyString => EmptyString
  | String c s' => String (lowerChar c) (toLowerCase s')
  end.

(** [s.includes(t)] *)
Fixpoint includes (s t : string) : bool :=
  String.prefix t s ||
  match s with
  | EmptyString => false
  | String _ s' => includes s' t
  end.

(** TAB, LF, VT, FF, CR and SP. *)
Definition isWhiteSpace (c : ascii) : bool :=
  let n := nat_of_ascii c in
  ((9 <=? n)%nat && (n <=? 13)%nat) || (n =? 32)%nat.

Fixpoint trimStart (s : string) : string :=
  match s with
  | EmptyString => EmptyString
  | String c s' => if isWhiteSpace c then trimStart s' else s
  end.

(** *** [parseFloat] *)

Definition digitValue (c : ascii) : option Z :=
  let n := nat_of_ascii c in
  if (48 <=? n)%nat && (n <=? 57)%nat then Some (Z.of_nat (n - 48)) else None.

(** Reads the longest run of decimal digits at the head of [s], continuing
    the number [acc]; returns the number read, how many digits it had and the
    rest of the string. *)
Fixpoint readDigits (s : string) (acc : Z) (count : nat) : Z * nat * string :=
  match s with
  | EmptyString => (acc, count, s)
  | String c s' =>
      match digitValue c with
      | Some d => readDigits s' (10 * acc + d)%Z (S count)
      | None => (acc, count, s)
      end
  end.

(** An optional sign: whether it was a minus, and the rest. *)
Definition readSign (s : string) : bool * string :=
  match s with
  | String "-" s' => (true, s')
  | String "+" s' => (false, s')
  | _ => (false, s)
  end.

(** The exponent part, when one follows: [e] or [E], an optional sign and at
    least one digit.  Otherwise the exponent is 0 and nothing is consumed. *)
Definition readExponent (s : string) : Z :=
  match s with
  | String c s' =>
      if Ascii.eqb c "e" || Ascii.eqb c "E" then
        let '(minus, s'') := readSign s' in
        let '(e, n, _) := readDigits s'' 0%Z 0%nat in
        match n with
        | O => 0%Z
        | S _ => if minus then (- e)%Z else e
        end
      else 0%Z
  | EmptyString => 0%Z
  end.

(** The mathematical value [m * 10 ^ e] of a decimal literal. *)
Definition decimalValue (m e : Z) : Q :=
  match e with
  | Zneg p => Qmake m (Z.to_pos (10 ^ Zpos p))
  | _ => Qmake (m * 10 ^ e) 1
  end.

Section ParseFloat.
Context {num : Type} `{Number num}.

(** The value of the longest prefix of [s] that is an unsigned decimal
    literal, NaN when there is none. *)
Definition parseUnsigned (s : string) : num :=
  if String.prefix "Infinity" s then Infinity
  else
    let '(ip, ni, s1) := readDigits s 0%Z 0%nat in
    match s1 with
    | String "." s2 =>
        let '(m, n, s3) := readDigits s2 ip ni in
        match n with
        | O => NaN
        | S _ => lit (decimalValue m (readExponent s3 - Z.of_nat (n - ni)))
        end
    | _ =>
        match ni with
        | O => NaN
        | S _ => lit (decimalValue ip (readExponent s1))
        end
    end.

Definition parseFloat (s : string) : num :=
  let '(minus, s') := readSign (trimStart s) in
  let x := parseUnsigned s' in
  if minus then n_neg x else x.

End ParseFloat.

(** ** Values and provider data *)

(** What a property read can produce where the script expects a number. *)
Inductive jsval (num : Type) : Type :=
| VUndefined
| VNumber (x : num).
Arguments VUndefined {num}.
Arguments VNumber {num} x.

(** An entry of the catalogue, [{ code, name, type, id }]; [id] is present on
    crypto entries only. *)
Record Currency : Type := {
  code : string;
  name : string;
  type : string;
  cid : option string;
}.

(** An entry of the bundled list of fallback cryptocurrencies,
    [{ code, name, type, id }]. *)
Record FallbackCrypto : Type := {
  fb_code : string;
  fb_name : string;
  fb_type : string;
  fb_id : string;
}.

(** An element of the ranking provider's array. *)
Record Coin : Type := {
  coin_id : string;
  symbol : string;
  coin_name : string;
}.

(** The parsed body of a response, as far as the script reads it: an object
    with or without [rates]; an object keyed by asset id whose entries may
    lack [usd]; the ranking array; an object with or without [prices].  A
    body of one shape has none of the properties of the others. *)
Inductive Body (num : Type) : Type :=
| RatesBody (rates : option (gmap string num))
| PricesBody (entries : gmap string (option num))
| MarketsBody (coins : list Coin)
| ChartBody (prices : option (list (num * num))).
Arguments RatesBody {num} rates.
Arguments PricesBody {num} entries.
Arguments MarketsBody {num} coins.
Arguments ChartBody {num} prices.

(** A response: its status and its body, [None] when the body is not JSON. *)
Record Response (num : Type) : Type := {
  status : Z;
  json : option (Body num);
}.
Arguments status {num} r.
Arguments json {num} r.

Definition ok {num : Type} (r : Response num) : bool :=
  (200 <=? status r)%Z && (status r <=? 299)%Z.

Inductive FetchOutcome (num : Type) : Type :=
| NetworkFailure
| Responded (r : Response num).
Arguments NetworkFailure {num}.
Arguments Responded {num} r.

Inductive exn : Type :=
| TypeError
| SyntaxError
| Error (message : string).

(** ** The page *)

(** A currency input with its [dataset]. *)
Record InputEl : Type := {
  value : string;
  placeholder : string;
  disabled : bool;
  selectedCode : option string;
  selectedType : option string;
  selectedId : option string;
}.

(** An autocomplete item: its [dataset] and the text of its name span. *)
Record Item : Type := {
  item_code : string;
  item_type : string;
  item_id : option string;
  item_name : string;
}.

Inductive Node : Type :=
| GroupHeader (text : string)
| AutocompleteItem (item : Item)
| NoResults (query : string).

(** An autocomplete list: its children and whether it has the class [show]. *)
Record ListEl : Type := {
  children : list Node;
  show : bool;
}.

Record SwalOptions : Type := {
  icon : string;
  title : string;
  text : string;
  toast : bool;
}.

(** The chart region: [#chart-container], its heading, the canvas and the
    two markers that are created on first use. *)
Record ChartContainer : Type := {
  container_shown : bool;
  heading : string;
  canvas_shown : bool;
  chart_loading : option bool;
  chart_error : option (string * bool);
}.

Section Program.
Context {num : Type} `{Number num}.

Definition toNumber (v : jsval num) : num :=
  match v with
  | VUndefined => NaN
  | VNumber x => x
  end.

(** [{ labels, data }] *)
Record Series : Type := {
  labels : list string;
  data : list num;
}.

(** The content of [#result].  Numbers are kept as numbers: their
    formatting by [Intl.NumberFormat] belongs to the host. *)
Inductive ResultContent : Type :=
| NoContent
| LoadingSpinner
| ConversionResult (originalAmount : num) (fromCurrency : string)
    (convertedAmount : num) (toCurrency : string)
    (exchangeRate : jsval num) (dataSources : string)
| ErrorSpan (message : string).

Record ResultDiv : Type := {
  innerHTML : ResultContent;
  className : string;
}.

(** The fields of the [CurrencyConverter] instance, the page, and a record
    of the requests sent and of the random numbers drawn so far. *)
Record State : Type := {
  allCurrencies : list Currency;
  cryptoIdMap : gmap string string;
  priceChart : option Series;
  currencyNames : gmap string string;
  popularCurrencyCodes : list string;
  fallbackCryptoCurrencies : list FallbackCrypto;
  from_currency : InputEl;
  to_currency : InputEl;
  amount : string;
  convert_btn_disabled : bool;
  result : ResultDiv;
  chart_container : ChartContainer;
  swal : option SwalOptions;
  requests : list string;
  draws : nat;
}.

(** What the script is run against. *)
Record Host : Type := {
  (** the answer of the network to a GET of the URL *)
  respond : string -> FetchOutcome num;
  (** [a.localeCompare(b)] *)
  localeCompare : string -> string -> Z;
  (** today, as a day number, and the label
      [toLocaleDateString("es-ES", { month: "short", day: "numeric" })]
      of a day and of the day of a timestamp *)
  today : Z;
  dayLabel : Z -> string;
  timestampLabel : num -> string;
  (** the successive results of [Math.random()] *)
  random : nat -> num;
  (** [typeof Swal !== "undefined"] *)
  hasSwal : bool;
}.

(** *** Computations: a state that survives exceptions *)

Inductive Outcome (A : Type) : Type :=
| Returned (a : A)
| Thrown (e : exn).
Arguments Returned {A} a.
Arguments Thrown {A} e.

Definition M (A : Type) : Type := State -> Outcome A * State.

Definition ret {A} (a : A) : M A := fun s => (Returned a, s).

Definition bind {A B} (m : M A) (k : A -> M B) : M B :=
  fun s =>
    match m s with
    | (Returned a, s') => k a s'
    | (Thrown e, s') => (Thrown e, s')
    end.

Definition throw {A} (e : exn) : M A := fun s => (Thrown e, s).

(** [try { m } catch (error) { handler }] *)
Definition try_catch {A} (m : M A) (handler : exn -> M A) : M A :=
  fun s =>
    match m s with
    | (Returned a, s') => (Returned a, s')
    | (Thrown e, s') => handler e s'
    end.

Definition get : M State := fun s => (Returned s, s).
Definition modify (f : State -> State) : M unit := fun s => (Returned tt, f s).

End Program.

Arguments Series num : clear implicits.
Arguments ResultContent num : clear implicits.
Arguments ResultDiv num : clear implicits.
Arguments State num : clear implicits.
Arguments Host num : clear implicits.
Arguments M num : clear implicits.
Arguments Returned {A} a.
Arguments Thrown {A} e.

Declare Scope js_scope.
Delimit Scope js_scope with js.
Notation "x <- m ;; k" := (bind m (fun x => k))
  (at level 100, m at next level, right associativity) : js_scope.
Notation "m ;; k" := (bind m (fun _ => k))
  (at level 100, right associativity) : js_scope.
Local Open Scope js_scope.

(** ** The program *)

Section Converter.
Context {num : Type} `{Number num}.

(** *** Field updates *)

Definition set_allCurrencies (v : list Currency) (s : State num) : State num :=
  {| allCurrencies := v; cryptoIdMap := cryptoIdMap s;
     priceChart := priceChart s; currencyNames := currencyNames s;
     popularCurrencyCodes := popularCurrencyCodes s;
     fallbackCryptoCurrencies := fallbackCryptoCurrencies s;
     from_currency := from_currency s; to_currency := to_currency s;
     amount := amount s; convert_btn_disabled := convert_btn_disabled s;
     result := result s; chart_container := chart_container s;
     swal := swal s; requests := requests s; draws := draws s |}.

Definition set_cryptoIdMap (v : gmap string string) (s : State num) : State num :=
  {| allCurrencies := allCurrencies s; cryptoIdMap := v;
     priceChart := priceChart s; currencyNames := currencyNames s;
     popularCurrencyCodes := popularCurrencyCodes s;
     fallbackCryptoCurrencies := fallbackCryptoCurrencies s;
     from_currency := from_currency s; to_currency := to_currency s;
     amount := amount s; convert_btn_disabled := convert_btn_disabled s;
     result := result s; chart_container := chart_container s;
     swal := swal s; requests := requests s; draws := draws s |}.

Definition set_priceChart (v : option (Series num)) (s : State num) : State num :=
  {| allCurrencies := allCurrencies s; cryptoIdMap := cryptoIdMap s;
     priceChart := v; currencyNames := currencyNames s;
     popularCurrencyCodes := popularCurrencyCodes s;
     fallbackCryptoCurrencies := fallbackCryptoCurrencies s;
     from_currency := from_currency s; to_currency := to_currency s;
     amount := amount s; convert_btn_disabled := convert_btn_disabled s;
     result := result s; chart_container := chart_container s;
     swal := swal s; requests := requests s; draws := draws s |}.

Definition set_from_currency (v : InputEl) (s : State num) : State num :=
  {| allCurrencies := allCurrencies s; cryptoIdMap := cryptoIdMap s;
     priceChart := priceChart s; currencyNames := currencyNames s;
     popularCurrencyCodes := popularCurrencyCodes s;
     fallbackCryptoCurrencies := fallbackCryptoCurrencies s;
     from_currency := v; to_currency := to_currency s;
     amount := amount s; convert_btn_disabled := convert_btn_disabled s;
     result := result s; chart_container := chart_container s;
     swal := swal s; requests := requests s; draws := draws s |}.

Definition set_to_currency (v : InputEl) (s : State num) : State num :=
  {| allCurrencies := allCurrencies s; cryptoIdMap := cryptoIdMap s;
     priceChart := priceChart s; currencyNames := currencyNames s;
     popularCurrencyCodes := popularCurrencyCodes s;
     fallbackCryptoCurrencies := fallbackCryptoCurrencies s;
     from_currency := from_currency s; to_currency := v;
     amount := amount s; convert_btn_disabled := convert_btn_disabled s;
     result := result s; chart_container := chart_container s;
     swal := swal s; requests := requests s; draws := draws s |}.

Definition set_convert_btn_disabled (v : bool) (s : State num) : State num :=
  {| allCurrencies := allCurrencies s; cryptoIdMap := cryptoIdMap s;
     priceChart := priceChart s; currencyNames := currencyNames s;
     popularCurrencyCodes := popularCurrencyCodes s;
     fallbackCryptoCurrencies := fallbackCryptoCurrencies s;
     from_currency := from_currency s; to_currency := to_currency s;
     amount := amount s; convert_btn_disabled := v;
     result := result s; chart_container := chart_container s;
     swal := swal s; requests := requests s; draws := draws s |}.

Definition set_result (v : ResultDiv num) (s : State num) : State num :=
  {| allCurrencies := allCurrencies s; cryptoIdMap := cryptoIdMap s;
     priceChart := priceChart s; currencyNames := currencyNames s;
     popularCurrencyCodes := popularCurrencyCodes s;
     fallbackCryptoCurrencies := fallbackCryptoCurrencies s;
     from_currency := from_currency s; to_currency := to_currency s;
     amount := amount s; convert_btn_disabled := convert_btn_disabled s;
     result := v; chart_container := chart_container s;
     swal := swal s; requests := requests s; draws := draws s |}.

Definition set_chart_container (v : ChartContainer) (s : State num) : State num :=
  {| allCurrencies := allCurrencies s; cryptoIdMap := cryptoIdMap s;
     priceChart := priceChart s; currencyNames := currencyNames s;
     popularCurrencyCodes := popularCurrencyCodes s;
     fallbackCryptoCurrencies := fallbackCryptoCurrencies s;
     from_currency := from_currency s; to_currency := to_currency s;
     amount := amount s; convert_btn_disabled := convert_btn_disabled s;
     result := result s; chart_container := v;
     swal := swal s; requests := requests s; draws := draws s |}.

Definition set_swal (v : option SwalOptions) (s : State num) : State num :=
  {| allCurrencies := allCurrencies s; cryptoIdMap := cryptoIdMap s;
     priceChart := priceChart s; currencyNames := currencyNames s;
     popularCurrencyCodes := popularCurrencyCodes s;
     fallbackCryptoCurrencies := fallbackCryptoCurrencies s;
     from_currency := from_currency s; to_currency := to_currency s;
     amount := amount s; convert_btn_disabled := convert_btn_disabled s;
     result := result s; chart_container := chart_container s;
     swal := v; requests := requests s; draws := draws s |}.

Definition set_requests (v : list string) (s : State num) : State num :=
  {| allCurrencies := allCurrencies s; cryptoIdMap := cryptoIdMap s;
     priceChart := priceChart s; currencyNames := currencyNames s;
     popularCurrencyCodes := popularCurrencyCodes s;
     fallbackCryptoCurrencies := fallbackCryptoCurrencies s;
     from_currency := from_currency s; to_currency := to_currency s;
     amount := amount s; convert_btn_disabled := convert_btn_disabled s;
     result := result s; chart_container := chart_container s;
     swal := swal s; requests := v; draws := draws s |}.

Definition set_draws (v : nat) (s : State num) : State num :=
  {| allCurrencies := allCurrencies s; cryptoIdMap := cryptoIdMap s;
     priceChart := priceChart s; currencyNames := currencyNames s;
     popularCurrencyCodes := popularCurrencyCodes s;
     fallbackCryptoCurrencies := fallbackCryptoCurrencies s;
     from_currency := from_currency s; to_currency := to_currency s;
     amount := amount s; convert_btn_disabled := convert_btn_disabled s;
     result := result s; chart_container := chart_container s;
     swal := swal s; requests := requests s; draws := v |}.

Variable host : Host num.

(** *** Primitives of the host *)

(** [await fetch(url)]: the request is recorded, and a network failure
    rejects (with a [TypeError]). *)
Definition fetch (url : string) : M num (Response num) :=
  fun s =>
    let s' := set_requests (requests s ++ [url]) s in
    match respond host url with
    | NetworkFailure => (Thrown TypeError, s')
    | Responded r => (Returned r, s')
    end.

(** [await response.json()] *)
Definition response_json (response : Response num) : M num (Body num) :=
  match json response with
  | Some data => ret data
  | None => throw SyntaxError
  end.

(** [Math.random()] *)
Definition Math_random : M num num :=
  fun s => (Returned (random host (draws s)), set_draws (S (draws s)) s).

(** Truthiness of a string that may be undefined. *)
Definition truthy (o : option string) : bool :=
  match o with
  | Some s => negb (String.eqb s "")
  | None => false
  end.

(** [a || b] on such strings. *)
Definition or_else (a b : option string) : option string :=
  if truthy a then a else b.

(** An optional string inside a template literal or used as a key. *)
Definition toString (o : option string) : string :=
  match o with
  | Some s => s
  | None => "undefined"
  end.

(** [o === t] for a string literal [t]. *)
Definition str_is (o : option string) (t : string) : bool :=
  match o with
  | Some s => String.eqb s t
  | None => false
  end.

(** [!x] on a number: NaN and the zeros are falsy. *)
Definition falsy (x : num) : bool := n_isNaN x || n_isZero x.

(** [table[key]] on a table of numbers *)
Definition entry (table : gmap string num) (key : string) : jsval num :=
  match table !! key with
  | Some x => VNumber x
  | None => VUndefined
  end.

(** [data.rates[key]] *)
Definition rates_at (data : Body num) (key : string) : M num (jsval num) :=
  match data with
  | RatesBody (Some rates) => ret (entry rates key)
  | _ => throw TypeError
  end.

(** [data[id].usd] *)
Definition usd_of (data : Body num) (id : string) : M num (jsval num) :=
  match data with
  | PricesBody entries =>
      match entries !! id with
      | Some (Some x) => ret (VNumber x)
      | Some None => ret VUndefined
      | None => throw TypeError
      end
  | _ => throw TypeError
  end.

(** *** Configuration *)

Definition exchangeRateAPI : string := "https://api.exchangerate-api.com/v4/latest/".
Definition coinGeckoAPI : string := "https://api.coingecko.com/api/v3/simple/price".

Definition getCryptoId (currencyCode : string) : M num (option string) :=
  s <- get ;;
  ret (cryptoIdMap s !! toUpperCase currencyCode).


(** *** Rate resolution *)

Definition getFiatToFiatExchangeRate (fromCurrency toCurrency : string)
  : M num (jsval num) :=
  response <- fetch (exchangeRateAPI +:+ fromCurrency) ;;
  data <- response_json response ;;
  if negb (ok response) then
    throw (Error "Error al obtener cotización de monedas")
  else
    rates_at data toCurrency.

Definition getCryptoToCryptoExchangeRate (fromCrypto toCrypto : string)
  : M num (jsval num) :=
  s <- get ;;
  fromCryptoId' <- getCryptoId fromCrypto ;;
  let fromCryptoId := toString (or_else (selectedId (from_currency s)) fromCryptoId') in
  toCryptoId' <- getCryptoId toCrypto ;;
  let toCryptoId := toString (or_else (selectedId (to_currency s)) toCryptoId') in
  response <- fetch (coinGeckoAPI +:+ "?ids=" +:+ fromCryptoId +:+ "," +:+ toCryptoId
                     +:+ "&vs_currencies=usd") ;;
  data <- response_json response ;;
  if negb (ok response) then
    throw (Error "Error al obtener cotización de criptomonedas")
  else
    fromPriceInUsd <- usd_of data fromCryptoId ;;
    toPriceInUsd <- usd_of data toCryptoId ;;
    ret (VNumber (toNumber fromPriceInUsd / toNumber toPriceInUsd)%num).

Definition getFiatToCryptoExchangeRate (fromFiat toCrypto : string)
  : M num (jsval num) :=
  s <- get ;;
  cryptoId' <- getCryptoId toCrypto ;;
  let cryptoId := toString (or_else (selectedId (to_currency s)) cryptoId') in
  cryptoResponse <- fetch (coinGeckoAPI +:+ "?ids=" +:+ cryptoId +:+ "&vs_currencies=usd") ;;
  cryptoData <- response_json cryptoResponse ;;
  if String.eqb fromFiat "USD" then
    price <- usd_of cryptoData cryptoId ;;
    ret (VNumber (lit 1 / toNumber price)%num)
  else
    fiatResponse <- fetch (exchangeRateAPI +:+ fromFiat) ;;
    fiatData <- response_json fiatResponse ;;
    usdExchangeRate <- rates_at fiatData "USD" ;;
    cryptoPriceInUsd <- usd_of cryptoData cryptoId ;;
    ret (VNumber (toNumber usdExchangeRate / toNumber cryptoPriceInUsd)%num).

Definition getCryptoToFiatExchangeRate (fromCrypto toFiat : string)
  : M num (jsval num) :=
  s <- get ;;
  cryptoId' <- getCryptoId fromCrypto ;;
  let cryptoId := toString (or_else (selectedId (from_currency s)) cryptoId') in
  cryptoResponse <- fetch (coinGeckoAPI +:+ "?ids=" +:+ cryptoId +:+ "&vs_currencies=usd") ;;
  cryptoData <- response_json cryptoResponse ;;
  cryptoPriceInUsd <- usd_of cryptoData cryptoId ;;
  if String.eqb toFiat "USD" then
    ret cryptoPriceInUsd
  else
    fiatResponse <- fetch (exchangeRateAPI +:+ "USD") ;;
    fiatData <- response_json fiatResponse ;;
    rate <- rates_at fiatData toFiat ;;
    ret (VNumber (toNumber cryptoPriceInUsd * toNumber rate)%num).

(** *** Messages and indicators *)

(** [Swal.fire(options)] and [Swal.close()]: one popup at a time. *)
Definition Swal_fire (options : SwalOptions) : M num unit :=
  modify (set_swal (Some options)).
Definition Swal_close : M num unit := modify (set_swal None).

Definition showError (message : string) : M num unit :=
  modify (set_convert_btn_disabled false) ;;
  if hasSwal host then
    Swal_fire {| icon := "error"; title := "Error"; text := message; toast := false |}
  else
    modify (set_result {| innerHTML := ErrorSpan message; className := "result-section" |}).

Definition showLoadingIndicator : M num unit :=
  modify (set_convert_btn_disabled true) ;;
  if hasSwal host then
    Swal_fire {| icon := ""; title := "Obteniendo cotización...";
                 text := "Por favor espera un momento"; toast := false |}
  else
    modify (set_result {| innerHTML := LoadingSpinner;
                          className := "result-section loading" |}).

(** The description of the sources, each named by the text of its link. *)
Definition getDataSourcesDescription (fromCurrency toCurrency : string)
  : M num string :=
  s <- get ;;
  let fromCurrencyType := or_else (selectedType (from_currency s)) (Some "fiat") in
  let toCurrencyType := or_else (selectedType (to_currency s)) (Some "fiat") in
  let apiSources :=
    (if str_is fromCurrencyType "crypto" || str_is toCurrencyType "crypto"
     then ["CoinGecko API"] else [])
    ++ (if str_is fromCurrencyType "fiat" || str_is toCurrencyType "fiat"
        then ["ExchangeRate-API"] else []) in
  ret (match apiSources with
       | [a] => "Datos proporcionados por " +:+ a
       | [a; b] => "Datos proporcionados por " +:+ a +:+ " y " +:+ b
       | _ => "Datos de fuentes financieras confiables"
       end).

(** *** Historical series *)

Definition set_canvas_shown (v : bool) (c : ChartContainer) : ChartContainer :=
  {| container_shown := container_shown c; heading := heading c;
     canvas_shown := v; chart_loading := chart_loading c;
     chart_error := chart_error c |}.

Definition showChartLoadingIndicator : M num unit :=
  modify (fun s =>
    let c := chart_container s in
    set_chart_container
      {| container_shown := container_shown c; heading := heading c;
         canvas_shown := false; chart_loading := Some true;
         chart_error := chart_error c |} s).

Definition hideChartLoadingIndicator : M num unit :=
  modify (fun s =>
    let c := chart_container s in
    set_chart_container
      {| container_shown := container_shown c; heading := heading c;
         canvas_shown := true;
         chart_loading := match chart_loading c with
                          | Some _ => Some false
                          | None => None
                          end;
         chart_error := chart_error c |} s).

Definition showChartError (errorMessage : string) : M num unit :=
  modify (fun s =>
    let c := chart_container s in
    set_chart_container
      {| container_shown := container_shown c; heading := heading c;
         canvas_shown := false;
         chart_loading := match chart_loading c with
                          | Some _ => Some false
                          | None => None
                          end;
         chart_error := Some (errorMessage, true) |} s).

(** Any previous chart is destroyed and replaced. *)
Definition createPriceChart (chartData : Series num) (chartTitle : string)
  : M num unit :=
  modify (set_priceChart (Some chartData)).

Definition getCryptocurrencyHistoricalData
    (cryptoCurrency targetCurrency : string) (isInverse : bool)
  : M num (Series num) :=
  try_catch
    (cryptoId <- getCryptoId cryptoCurrency ;;
     if negb (truthy cryptoId) then
       throw (Error ("ID de criptomoneda no encontrado para " +:+ cryptoCurrency))
     else
       let apiUrl := "https://api.coingecko.com/api/v3/coins/" +:+ toString cryptoId
                     +:+ "/market_chart?vs_currency=usd&days=30&interval=daily" in
       response <- fetch apiUrl ;;
       if negb (ok response) then
         throw (Error ("Error HTTP: " +:+ pretty (status response)
                       +:+ " al obtener datos históricos"))
       else
         historicalData <- response_json response ;;
         match historicalData with
         | ChartBody (Some priceData) =>
             let processedPrices :=
               if isInverse
               then map (fun pricePoint => (pricePoint.1, (lit 1 / pricePoint.2)%num))
                        priceData
               else priceData in
             ret {| labels := map (fun pricePoint => timestampLabel host pricePoint.1)
                                  processedPrices;
                    data := map (fun pricePoint => pricePoint.2) processedPrices |}
         | _ => throw (Error "Formato de datos inválido de CoinGecko")
         end)
    (fun error => throw error).

(** [for (let dayOffset = n - 1; dayOffset >= 0; dayOffset--) body] *)
Fixpoint for_days {A : Type} (n : nat) (body : nat -> A -> M num A) (acc : A)
  : M num A :=
  match n with
  | O => ret acc
  | S dayOffset => acc' <- body dayOffset acc ;; for_days dayOffset body acc'
  end.

(** The label of the day [dayOffset] days before today. *)
Definition labelOf (dayOffset : nat) : string :=
  dayLabel host (today host - Z.of_nat dayOffset).

Definition generateFallbackChartData : M num (Series num) :=
  arrays <-
    for_days 30
      (fun dayOffset '(dateLabels, priceData) =>
         r <- Math_random ;;
         ret (dateLabels ++ [labelOf dayOffset],
              priceData ++ [(lit 1 + (r - lit 0.5) * lit 0.02)%num]))
      ([], []) ;;
  ret {| labels := arrays.1; data := arrays.2 |}.

Definition getFiatCurrencyHistoricalData (fromCurrency toCurrency : string)
  : M num (Series num) :=
  try_catch
    (currentExchangeRate <- getFiatToFiatExchangeRate fromCurrency toCurrency ;;
     arrays <-
       for_days 30
         (fun dayOffset '(dateLabels, chartData) =>
            r <- Math_random ;;
            let randomVariation := ((r - lit 0.5) * lit 0.04)%num in
            ret (dateLabels ++ [labelOf dayOffset],
                 chartData ++ [(toNumber currentExchangeRate
                                * (lit 1 + randomVariation))%num]))
         ([], []) ;;
     ret {| labels := arrays.1; data := arrays.2 |})
    (fun error => generateFallbackChartData).

(** The choice of the source of the series in [displayPriceChart], by the
    kinds of the two currencies. *)
Definition buildSeries (fromCurrencyType toCurrencyType : option string)
    (fromCurrency toCurrency : string) : M num (Series num) :=
  if str_is fromCurrencyType "crypto" then
    getCryptocurrencyHistoricalData fromCurrency toCurrency false
  else if str_is toCurrencyType "crypto" then
    getCryptocurrencyHistoricalData toCurrency fromCurrency true
  else
    getFiatCurrencyHistoricalData fromCurrency toCurrency.

Definition displayPriceChart (fromCurrency toCurrency : string) : M num unit :=
  try_catch
    (modify (fun s =>
       let c := chart_container s in
       set_chart_container
         {| container_shown := true; heading := heading c;
            canvas_shown := canvas_shown c; chart_loading := chart_loading c;
            chart_error := chart_error c |} s) ;;
     showChartLoadingIndicator ;;
     s <- get ;;
     let fromCurrencyType := or_else (selectedType (from_currency s)) (Some "fiat") in
     let toCurrencyType := or_else (selectedType (to_currency s)) (Some "fiat") in
     let chartTitle := fromCurrency +:+ " → " +:+ toCurrency in
     historicalData <-
       buildSeries fromCurrencyType toCurrencyType fromCurrency toCurrency ;;
     modify (fun s =>
       let c := chart_container s in
       set_chart_container
         {| container_shown := container_shown c;
            heading := "📈 Tendencia: " +:+ chartTitle +:+ " (últimos 30 días)";
            canvas_shown := canvas_shown c; chart_loading := chart_loading c;
            chart_error := chart_error c |} s) ;;
     hideChartLoadingIndicator ;;
     createPriceChart historicalData chartTitle)
    (fun error =>
       hideChartLoadingIndicator ;;
       showChartError "No se pudieron cargar los datos históricos").

(** *** Conversion *)

Definition displayConversionResult
    (originalAmount : num) (fromCurrency : string)
    (convertedAmount : num) (toCurrency : string) (exchangeRate : jsval num)
  : M num unit :=
  (if hasSwal host then Swal_close else ret tt) ;;
  dataSources <- getDataSourcesDescription fromCurrency toCurrency ;;
  modify (set_result
    {| innerHTML := ConversionResult originalAmount fromCurrency
                      convertedAmount toCurrency exchangeRate dataSources;
       className := "result-section show-result" |}) ;;
  modify (set_convert_btn_disabled false) ;;
  (if hasSwal host then
     Swal_fire {| icon := "success"; title := "Conversión realizada con éxito";
                  text := ""; toast := true |}
   else ret tt) ;;
  displayPriceChart fromCurrency toCurrency.

(** The choice of the strategy in [convertCurrency], by the kinds of the two
    currencies. *)
Definition resolve (fromCurrencyType toCurrencyType : option string)
    (fromCurrencyCode toCurrencyCode : string) : M num (jsval num) :=
  if str_is fromCurrencyType "fiat" && str_is toCurrencyType "fiat" then
    getFiatToFiatExchangeRate fromCurrencyCode toCurrencyCode
  else if str_is fromCurrencyType "crypto" && str_is toCurrencyType "crypto" then
    getCryptoToCryptoExchangeRate fromCurrencyCode toCurrencyCode
  else if str_is fromCurrencyType "fiat" && str_is toCurrencyType "crypto" then
    getFiatToCryptoExchangeRate fromCurrencyCode toCurrencyCode
  else
    getCryptoToFiatExchangeRate fromCurrencyCode toCurrencyCode.

Definition convertCurrency : M num unit :=
  s <- get ;;
  let amount := parseFloat (amount s) in
  let fromCurrencyCode := selectedCode (from_currency s) in
  let toCurrencyCode := selectedCode (to_currency s) in
  if negb (truthy fromCurrencyCode) || negb (truthy toCurrencyCode) then
    showError "Por favor selecciona ambas monedas de la lista"
  else if falsy amount || (amount <=? lit 0)%num then
    showError "Por favor ingresa un monto válido"
  else if String.eqb (toString fromCurrencyCode) (toString toCurrencyCode) then
    showError "⚠️ No puedes convertir una moneda a sí misma. Por favor selecciona monedas diferentes."
  else
    try_catch
      (showLoadingIndicator ;;
       let fromCurrencyType := selectedType (from_currency s) in
       let toCurrencyType := selectedType (to_currency s) in
       exchangeRate <-
         resolve fromCurrencyType toCurrencyType
           (toString fromCurrencyCode) (toString toCurrencyCode) ;;
       let convertedAmount := (amount * toNumber exchangeRate)%num in
       displayConversionResult amount (toString fromCurrencyCode) convertedAmount
         (toString toCurrencyCode) exchangeRate)
      (fun error =>
         (if hasSwal host then Swal_close else ret tt) ;;
         showError "Error al obtener la cotización. Intenta nuevamente.").

(** *** Building the catalogue *)

(** [Object.keys(data.rates)] *)
Definition rates_keys (data : Body num) : M num (list string) :=
  match data with
  | RatesBody (Some rates) => ret (map fst (map_to_list rates))
  | _ => throw TypeError
  end.

(** The order [(a, b) => a.code.localeCompare(b.code)] sorts by. *)
Definition byCode (a b : Currency) : Prop :=
  (localeCompare host (code a) (code b) <= 0)%Z.

#[export] Instance byCode_dec (a b : Currency) : Decision (byCode a b) :=
  Z_le_dec (localeCompare host (code a) (code b)) 0.

Definition loadFiatCurrencies : M num (list Currency) :=
  try_catch
    (response <- fetch (exchangeRateAPI +:+ "USD") ;;
     data <- response_json response ;;
     if negb (ok response) then
       throw (Error "Error al cargar monedas fiduciarias")
     else
       keys <- rates_keys data ;;
       s <- get ;;
       let fiatCurrencies :=
         map (fun code' =>
                {| code := code';
                   name := toString (or_else (currencyNames s !! code') (Some code'));
                   type := "fiat"; cid := None |})
             keys in
       let fiatCurrencies :=
         {| code := "USD";
            name := toString (or_else (currencyNames s !! "USD")
                                      (Some "Dólar Estadounidense"));
            type := "fiat"; cid := None |} :: fiatCurrencies in
       ret (merge_sort byCode fiatCurrencies))
    (fun error =>
       ret [ {| code := "USD"; name := "Dólar Estadounidense"; type := "fiat"; cid := None |};
             {| code := "EUR"; name := "Euro"; type := "fiat"; cid := None |};
             {| code := "GBP"; name := "Libra Esterlina"; type := "fiat"; cid := None |};
             {| code := "JPY"; name := "Yen Japonés"; type := "fiat"; cid := None |};
             {| code := "ARS"; name := "Peso Argentino"; type := "fiat"; cid := None |};
             {| code := "BRL"; name := "Real Brasileño"; type := "fiat"; cid := None |} ]).

(** [array.map(callback)] for a callback with effects. *)
Fixpoint array_map {A B : Type} (callback : A -> M num B) (array : list A)
  : M num (list B) :=
  match array with
  | [] => ret []
  | x :: rest =>
      y <- callback x ;;
      ys <- array_map callback rest ;;
      ret (y :: ys)
  end.

(** [this.cryptoIdMap.set(key, id)] *)
Definition cryptoIdMap_set (key id : string) : M num unit :=
  modify (fun s => set_cryptoIdMap (<[key := id]> (cryptoIdMap s)) s).

(** A bundled fallback entry, as an entry of the catalogue. *)
Definition entryOfFallback (cryptoCurrency : FallbackCrypto) : Currency :=
  {| code := fb_code cryptoCurrency; name := fb_name cryptoCurrency;
     type := fb_type cryptoCurrency; cid := Some (fb_id cryptoCurrency) |}.

Definition loadCryptoCurrencies : M num (list Currency) :=
  try_catch
    (response <- fetch "https://api.coingecko.com/api/v3/coins/markets?vs_currency=usd&order=market_cap_desc&per_page=100&page=1" ;;
     data <- response_json response ;;
     if negb (ok response) then
       throw (Error "Error al cargar criptomonedas")
     else
       match data with
       | MarketsBody coins =>
           array_map
             (fun cryptoData =>
                cryptoIdMap_set (toUpperCase (symbol cryptoData)) (coin_id cryptoData) ;;
                ret {| code := toUpperCase (symbol cryptoData);
                       name := coin_name cryptoData;
                       type := "crypto";
                       cid := Some (coin_id cryptoData) |})
             coins
       | _ => throw TypeError
       end)
    (fun error =>
       s <- get ;;
       array_map
         (fun cryptoCurrency =>
            cryptoIdMap_set (fb_code cryptoCurrency) (fb_id cryptoCurrency))
         (fallbackCryptoCurrencies s) ;;
       ret (map entryOfFallback (fallbackCryptoCurrencies s))).

Definition set_placeholder (text : string) (isDisabled : bool) (input : InputEl)
  : InputEl :=
  {| value := value input; placeholder := text; disabled := isDisabled;
     selectedCode := selectedCode input; selectedType := selectedType input;
     selectedId := selectedId input |}.

Definition showCurrencyLoading : M num unit :=
  modify (fun s =>
    set_to_currency (set_placeholder "Cargando monedas..." true (to_currency s))
      (set_from_currency (set_placeholder "Cargando monedas..." true (from_currency s))
         s)).

Definition populateSelects (currencies : list Currency) : M num unit :=
  modify (fun s =>
    set_to_currency
      (set_placeholder "Escribe para buscar moneda..." false (to_currency s))
      (set_from_currency
         (set_placeholder "Escribe para buscar moneda..." false (from_currency s))
         s)).

Definition loadCurrencies : M num unit :=
  try_catch
    (showCurrencyLoading ;;
     fiatCurrencies <- loadFiatCurrencies ;;
     cryptoCurrencies <- loadCryptoCurrencies ;;
     modify (set_allCurrencies (fiatCurrencies ++ cryptoCurrencies)) ;;
     s <- get ;;
     populateSelects (allCurrencies s) ;;
     if hasSwal host then
       Swal_fire {| icon := "success"; title := "Monedas cargadas";
                    text := pretty (length (allCurrencies s))
                            +:+ " monedas disponibles para conversión";
                    toast := true |}
     else ret tt)
    (fun error => showError "Error al cargar las monedas disponibles").

(** *** Autocomplete *)

Definition createAutocompleteItem (currency : Currency) : Node :=
  AutocompleteItem
    {| item_code := code currency; item_type := type currency;
       item_id := if truthy (cid currency) then cid currency else None;
       item_name := name currency |}.

Definition appendChildren (nodes : list Node) (listEl : ListEl) : ListEl :=
  {| children := children listEl ++ nodes; show := show listEl |}.

Definition set_show (v : bool) (listEl : ListEl) : ListEl :=
  {| children := children listEl; show := v |}.

Definition renderCurrencyGroups (listEl : ListEl) (currencies : list Currency)
  : ListEl :=
  let fiatCurrencies := filter (fun c => type c = "fiat") currencies in
  let cryptoCurrencies := filter (fun c => type c = "crypto") currencies in
  let totalShown := 0%nat in
  let maxTotal := 30%nat in
  let '(listEl, totalShown) :=
    if (0 <? length fiatCurrencies)%nat && (totalShown <? maxTotal)%nat then
      let listEl := appendChildren [GroupHeader "💰 Monedas Fiduciarias"] listEl in
      let fiatToShow :=
        ((length fiatCurrencies `min` (maxTotal - totalShown)) `min` 15)%nat in
      let shown := take fiatToShow fiatCurrencies in
      (appendChildren (map createAutocompleteItem shown) listEl,
       (totalShown + length shown)%nat)
    else (listEl, totalShown) in
  if (0 <? length cryptoCurrencies)%nat && (totalShown <? maxTotal)%nat then
    let listEl := appendChildren [GroupHeader "₿ Criptomonedas"] listEl in
    let cryptoToShow := (length cryptoCurrencies `min` (maxTotal - totalShown))%nat in
    appendChildren (map createAutocompleteItem (take cryptoToShow cryptoCurrencies)) listEl
  else listEl.

(** The filter of [showAutocompleteResults]. *)
Definition matchesQuery (query : string) (currency : Currency) : bool :=
  includes (toLowerCase (code currency)) (toLowerCase query)
  || includes (toLowerCase (name currency)) (toLowerCase query).

Definition showAutocompleteResults (s : State num) (query : string) (listEl : ListEl)
  : ListEl :=
  let listEl := {| children := []; show := show listEl |} in
  if (String.length query =? 0)%nat then set_show false listEl
  else if (length (allCurrencies s) =? 0)%nat then set_show false listEl
  else if (1 <=? String.length query)%nat then
    let filtered := filter (fun currency => matchesQuery query currency) (allCurrencies s) in
    if (0 <? length filtered)%nat then
      set_show true (renderCurrencyGroups listEl filtered)
    else if (2 <=? String.length query)%nat then
      set_show true (appendChildren [NoResults query] listEl)
    else set_show false listEl
  else set_show false listEl.

Definition selectCurrency (item : Item) (input : InputEl) (listEl : ListEl)
  : InputEl * ListEl :=
  ({| value := item_code item +:+ " - " +:+ item_name item;
      placeholder := placeholder input; disabled := disabled input;
      selectedCode := Some (item_code item);
      selectedType := Some (item_type item);
      selectedId := if truthy (item_id item) then item_id item else selectedId input |},
   set_show false listEl).

End Converter.

(** ** Vocabulary of the statements *)


(** The items among the children of a list, in order. *)
Fixpoint itemsOf (nodes : list Node) : list Item :=
  match nodes with
  | [] => []
  | AutocompleteItem item :: rest => item :: itemsOf rest
  | _ :: rest => itemsOf rest
  end.

(** The item [createAutocompleteItem] makes for a currency. *)
Definition itemOf (currency : Currency) : Item :=
  {| item_code := code currency; item_type := type currency;
     item_id := if truthy (cid currency) then cid currency else None;
     item_name := name currency |}.

(** The matches of a query in a catalogue, and those of one kind. *)
Definition matchesOf (catalogue : list Currency) (query : string) : list Currency :=
  filter (fun currency => matchesQuery query currency) catalogue.
Definition ofKind (kind : string) (currencies : list Currency) : list Currency :=
  filter (fun c => type c = kind) currencies.

(** A section of an autocomplete list: nothing for no currency, otherwise
    the header followed by one item per currency. *)
Definition groupSection (header : string) (currencies : list Currency) : list Node :=
  match currencies with
  | [] => []
  | _ :: _ => GroupHeader header :: map createAutocompleteItem currencies
  end.

Definition fiatHeader : string := "💰 Monedas Fiduciarias".
Definition cryptoHeader : string := "₿ Criptomonedas".

(** The popup of [showError]. *)
Definition errorPopup (message : string) : SwalOptions :=
  {| icon := "error"; title := "Error"; text := message; toast := false |}.

Definition invalidAmountMessage : string := "Por favor ingresa un monto válido".
Definition selectBothMessage : string := "Por favor selecciona ambas monedas de la lista".
Definition quotationMessage : string := "Error al obtener la cotización. Intenta nuevamente.".

(** [s'] is [s] after an error message was shown: the submit control is
    enabled, the message is in the popup (or, without SweetAlert2, in the
    result panel), and nothing else differs. *)
Definition errorShown {num : Type} (withSwal : bool) (message : string)
    (s s' : State num) : Prop :=
  convert_btn_disabled s' = false
  /\ (if withSwal
      then swal s' = Some (errorPopup message) /\ result s' = result s
      else swal s' = swal s
           /\ result s' = {| innerHTML := ErrorSpan message;
                             className := "result-section" |})
  /\ requests s' = requests s
  /\ draws s' = draws s
  /\ allCurrencies s' = allCurrencies s
  /\ cryptoIdMap s' = cryptoIdMap s
  /\ priceChart s' = priceChart s
  /\ from_currency s' = from_currency s
  /\ to_currency s' = to_currency s
  /\ amount s' = amount s
  /\ chart_container s' = chart_container s.

(** [s'] is [s] after some requests were sent: the record of requests grew
    and nothing else differs. *)
Definition requestsSent {num : Type} (s s' : State num) : Prop :=
  requests s `prefix_of` requests s'
  /\ draws s' = draws s
  /\ priceChart s' = priceChart s
  /\ chart_container s' = chart_container s
  /\ allCurrencies s' = allCurrencies s
  /\ cryptoIdMap s' = cryptoIdMap s
  /\ currencyNames s' = currencyNames s
  /\ popularCurrencyCodes s' = popularCurrencyCodes s
  /\ fallbackCryptoCurrencies s' = fallbackCryptoCurrencies s
  /\ from_currency s' = from_currency s
  /\ to_currency s' = to_currency s
  /\ amount s' = amount s
  /\ convert_btn_disabled s' = convert_btn_disabled s
  /\ result s' = result s
  /\ swal s' = swal s.

(** [s'] is [s] after a series was built: requests may have been sent and
    random numbers drawn; nothing else differs. *)
Definition seriesDrawn {num : Type} (s s' : State num) : Prop :=
  requests s `prefix_of` requests s'
  /\ priceChart s' = priceChart s
  /\ chart_container s' = chart_container s
  /\ allCurrencies s' = allCurrencies s
  /\ cryptoIdMap s' = cryptoIdMap s
  /\ currencyNames s' = currencyNames s
  /\ popularCurrencyCodes s' = popularCurrencyCodes s
  /\ fallbackCryptoCurrencies s' = fallbackCryptoCurrencies s
  /\ from_currency s' = from_currency s
  /\ to_currency s' = to_currency s
  /\ amount s' = amount s
  /\ convert_btn_disabled s' = convert_btn_disabled s
  /\ result s' = result s
  /\ swal s' = swal s.

(** [s'] is [s] after the chart region was worked on: requests may have been
    sent, random numbers drawn, the chart and its region changed; the rest of
    the page and the catalogue are as they were. *)
Definition chartChanged {num : Type} (s s' : State num) : Prop :=
  requests s `prefix_of` requests s'
  /\ allCurrencies s' = allCurrencies s
  /\ cryptoIdMap s' = cryptoIdMap s
  /\ currencyNames s' = currencyNames s
  /\ popularCurrencyCodes s' = popularCurrencyCodes s
  /\ fallbackCryptoCurrencies s' = fallbackCryptoCurrencies s
  /\ from_currency s' = from_currency s
  /\ to_currency s' = to_currency s
  /\ amount s' = amount s
  /\ convert_btn_disabled s' = convert_btn_disabled s
  /\ result s' = result s
  /\ swal s' = swal s.

(** A computation keeps the relation [R] between the state it starts in and
    the state it ends in, whatever its outcome. *)
Definition keeps {num A : Type} (R : relation (State num)) (m : M num A) : Prop :=
  forall s, R s (m s).2.

Section Vocabulary.
Context {num : Type} `{Number num}.

(** The asset id a rate function uses for the currency [currencyCode] picked
    in [input]: the id stored with the selection or else the one of the
    index. *)
Definition resolvedId (s : State num) (input : InputEl) (currencyCode : string)
  : string :=
  toString (or_else (selectedId input) (cryptoIdMap s !! toUpperCase currencyCode)).

(** The URLs of the price provider for one asset and for two. *)
Definition priceURL (id : string) : string :=
  coinGeckoAPI +:+ "?ids=" +:+ id +:+ "&vs_currencies=usd".
Definition pairPriceURL (fromId toId : string) : string :=
  coinGeckoAPI +:+ "?ids=" +:+ fromId +:+ "," +:+ toId +:+ "&vs_currencies=usd".

(** The URL of the history provider for an asset. *)
Definition chartURL (id : string) : string :=
  "https://api.coingecko.com/api/v3/coins/" +:+ id
  +:+ "/market_chart?vs_currency=usd&days=30&interval=daily".

(** A request [convertCurrency] does not reject: both currencies selected
    and different, the amount a positive number. *)
Definition accepted (s : State num) : Prop :=
  truthy (selectedCode (from_currency s)) = true
  /\ truthy (selectedCode (to_currency s)) = true
  /\ falsy (parseFloat (amount s) : num) = false
  /\ ((parseFloat (amount s) : num) <=? lit 0)%num = false
  /\ String.eqb (toString (selectedCode (from_currency s)))
                (toString (selectedCode (to_currency s))) = false.

(** The state in which [convertCurrency] resolves the rate: [s] with the
    loading indicator on. *)
Definition loading (host : Host num) (s : State num) : State num :=
  (showLoadingIndicator host s).2.

(** The panel of a finished conversion. *)
Definition conversionPanel (originalAmount : num) (fromCurrency toCurrency : string)
    (exchangeRate : jsval num) (dataSources : string) : ResultDiv num :=
  {| innerHTML :=
       ConversionResult originalAmount fromCurrency
         (originalAmount * toNumber exchangeRate)%num toCurrency exchangeRate
         dataSources;
     className := "result-section show-result" |}.

(** The day labels of the thirty days ending today, oldest first. *)
Definition thirtyDays (host : Host num) : list string :=
  map (fun dayOffset => dayLabel host (today host - Z.of_nat dayOffset))
      (rev (seq 0 30)).

(** The table quoted against [currencyCode], when the fiat provider answers
    the request for it with a 2xx status and a JSON object holding [rates]. *)
Definition rateTable (host : Host num) (currencyCode : string)
  : option (gmap string num) :=
  match respond host (exchangeRateAPI +:+ currencyCode) with
  | Responded r =>
      if ok r then
        match json r with
        | Some (RatesBody (Some table)) => Some table
        | _ => None
        end
      else None
  | NetworkFailure => None
  end.

(** The daily series of the asset [id], when the history provider answers
    the request for it with a 2xx status and a JSON object holding [prices]. *)
Definition dailyPrices (host : Host num) (id : string) : option (list (num * num)) :=
  match respond host (chartURL id) with
  | Responded r =>
      if ok r then
        match json r with
        | Some (ChartBody (Some priceData)) => Some priceData
        | _ => None
        end
      else None
  | NetworkFailure => None
  end.

(** The state in which [displayPriceChart] builds the series: [s] with the
    chart region shown and its loading marker on. *)
Definition charting (s : State num) : State num :=
  set_chart_container
    {| container_shown := true; heading := heading (chart_container s);
       canvas_shown := false; chart_loading := Some true;
       chart_error := chart_error (chart_container s) |} s.

(** The kinds [displayPriceChart] works with: a missing kind counts as
    fiat. *)
Definition kindOf (input : InputEl) : option string :=
  or_else (selectedType input) (Some "fiat").

(** The value of one point of the fallback series and of the simulated
    series, from the random number drawn for it. *)
Definition fallbackValue (r : num) : num := (lit 1 + (r - lit 0.5) * lit 0.02)%num.
Definition simulatedValue (rate r : num) : num :=
  (rate * (lit 1 + (r - lit 0.5) * lit 0.04))%num.

(** The [n] random numbers drawn from the state [s] on. *)
Definition nextDraws (host : Host num) (s : State num) (n : nat) : list num :=
  map (fun i => random host (draws s + i)) (seq 0 n).

(** The daily series [getCryptocurrencyHistoricalData] obtains for the
    currency [cryptoCurrency]: the one of the asset the index gives for it. *)
Definition historyOf (host : Host num) (s : State num) (cryptoCurrency : string)
  : option (list (num * num)) :=
  match cryptoIdMap s !! toUpperCase cryptoCurrency with
  | Some id => if truthy (Some id) then dailyPrices host id else None
  | None => None
  end.

Definition chartErrorMessage : string := "No se pudieron cargar los datos históricos".

(** The request for [url] is answered by a response whose body is JSON,
    respectively by a response with a 2xx status. *)
Definition answered (host : Host num) (url : string) : Prop :=
  exists r, respond host url = Responded r /\ is_Some (json r).
Definition answeredOk (host : Host num) (url : string) : Prop :=
  exists r, respond host url = Responded r /\ ok r = true.

(** Both currencies fiat, or both crypto. *)
Definition sameKind (fromType toType : option string) : bool :=
  (str_is fromType "fiat" && str_is toType "fiat")
  || (str_is fromType "crypto" && str_is toType "crypto").

(** The URL of the ranking provider. *)
Definition marketsURL : string :=
  "https://api.coingecko.com/api/v3/coins/markets?vs_currency=usd&order=market_cap_desc&per_page=100&page=1".

(** The ranking, when the provider answers the request for it with a 2xx
    status and a JSON array. *)
Definition liveCoins (host : Host num) : option (list Coin) :=
  match respond host marketsURL with
  | Responded r =>
      if ok r then
        match json r with
        | Some (MarketsBody coins) => Some coins
        | _ => None
        end
      else None
  | NetworkFailure => None
  end.

(** The catalogue entries made from a key of the rate table, from USD, and
    from an element of the ranking. *)
Definition entryOfKey (s : State num) (key : string) : Currency :=
  {| code := key;
     name := toString (or_else (currencyNames s !! key) (Some key));
     type := "fiat"; cid := None |}.
Definition entryOfUSD (s : State num) : Currency :=
  {| code := "USD";
     name := toString (or_else (currencyNames s !! "USD") (Some "Dólar Estadounidense"));
     type := "fiat"; cid := None |}.
Definition entryOfCoin (cryptoData : Coin) : Currency :=
  {| code := toUpperCase (symbol cryptoData); name := coin_name cryptoData;
     type := "crypto"; cid := Some (coin_id cryptoData) |}.

(** The six fallback fiat currencies. *)
Definition fallbackFiat : list Currency :=
  [ {| code := "USD"; name := "Dólar Estadounidense"; type := "fiat"; cid := None |};
    {| code := "EUR"; name := "Euro"; type := "fiat"; cid := None |};
    {| code := "GBP"; name := "Libra Esterlina"; type := "fiat"; cid := None |};
    {| code := "JPY"; name := "Yen Japonés"; type := "fiat"; cid := None |};
    {| code := "ARS"; name := "Peso Argentino"; type := "fiat"; cid := None |};
    {| code := "BRL"; name := "Real Brasileño"; type := "fiat"; cid := None |} ].

(** The index after [set] was called for each element of a list in turn. *)
Definition indexed {A : Type} (key id : A -> string) (elements : list A)
    (index : gmap string string) : gmap string string :=
  foldl (fun index' x => <[key x := id x]> index') index elements.

End Vocabulary.

(** ** Concrete hosts and states *)

Definition ex_emptyInput : InputEl :=
  {| value := ""; placeholder := ""; disabled := false;
     selectedCode := None; selectedType := None; selectedId := None |}.

Definition ex_emptyList : ListEl := {| children := []; show := false |}.

(** An input in which the given currency was picked from the list. *)
Definition ex_selected (currency : Currency) : InputEl :=
  match createAutocompleteItem currency with
  | AutocompleteItem item => (selectCurrency item ex_emptyInput ex_emptyList).1
  | _ => ex_emptyInput
  end.

Definition ex_fiat (code' name' : string) : Currency :=
  {| code := code'; name := name'; type := "fiat"; cid := None |}.

Definition ex_crypto (code' name' id : string) : Currency :=
  {| code := code'; name := name'; type := "crypto"; cid := Some id |}.

(** A page on which the catalogue [catalogue] is loaded, the two inputs are
    [from] and [to], and the amount field holds [amountText]. *)
Definition ex_state {num : Type} (catalogue : list Currency)
    (index : gmap string string) (from to : InputEl) (amountText : string)
  : State num :=
  {| allCurrencies := catalogue; cryptoIdMap := index; priceChart := None;
     currencyNames := ∅; popularCurrencyCodes := [];
     fallbackCryptoCurrencies := [];
     from_currency := from; to_currency := to; amount := amountText;
     convert_btn_disabled := false;
     result := {| innerHTML := NoContent; className := "result-section" |};
     chart_container := {| container_shown := false; heading := "";
                           canvas_shown := false; chart_loading := None;
                           chart_error := None |};
     swal := None; requests := []; draws := 0 |}.

(** A host answering by [answers], comparing strings by code point, labelling
    days by their number, drawing [draw] every time, with SweetAlert2. *)
Definition ex_host {num : Type} (answers : string -> FetchOutcome num) (draw : num)
  : Host num :=
  {| respond := answers;
     localeCompare := fun a b =>
       match String.compare a b with Lt => (-1)%Z | Eq => 0%Z | Gt => 1%Z end;
     today := 19000%Z;
     dayLabel := fun day => pretty day;
     timestampLabel := fun _ => "";
     random := fun _ => draw;
     hasSwal := true |}.

(** A network that is down. *)
Definition ex_offline {num : Type} : string -> FetchOutcome num :=
  fun _ => NetworkFailure.

(** A 200 response with the given body. *)
Definition ex_ok {num : Type} (body : Body num) : FetchOutcome num :=
  Responded {| status := 200; json := Some body |}.

Definition ex_USD : Currency := ex_fiat "USD" "Dólar Estadounidense".
Definition ex_EUR : Currency := ex_fiat "EUR" "Euro".
Definition ex_GBP : Currency := ex_fiat "GBP" "Libra Esterlina".
Definition ex_BTC : Currency := ex_crypto "BTC" "Bitcoin" "bitcoin".
Definition ex_ETH : Currency := ex_crypto "ETH" "Ethereum" "ethereum".

(** USD and EUR selected, the amount field holding [abc]. *)
Definition ex_abc : State float :=
  ex_state [ex_USD; ex_EUR] ∅ (ex_selected ex_USD) (ex_selected ex_EUR) "abc".

(** The same with no source currency selected. *)
Definition ex_abc_unselected : State float :=
  ex_state [ex_USD; ex_EUR] ∅ ex_emptyInput (ex_selected ex_EUR) "abc".

(** A provider of fiat rates that knows the table quoted against USD only,
    [{ EUR: 0.9 }]. *)
Definition ex_usdTable : string -> FetchOutcome float :=
  fun url =>
    if String.eqb url (exchangeRateAPI +:+ "USD")
    then ex_ok (RatesBody (Some {[ "EUR" := lit 0.9 ]}))
    else NetworkFailure.

(** USD and EUR selected, the amount field holding [100]. *)
Definition ex_usd_eur_100 : State float :=
  ex_state [ex_USD; ex_EUR] ∅ (ex_selected ex_USD) (ex_selected ex_EUR) "100".

(** A market in which bitcoin is quoted at 60000 USD, and the fiat provider
    quotes [{ EUR: 0.9 }] against USD and [{ USD: 1.25 }] against GBP. *)
Definition ex_market : string -> FetchOutcome float :=
  fun url =>
    if String.eqb url (priceURL "bitcoin")
    then ex_ok (PricesBody {[ "bitcoin" := Some (lit 60000) ]})
    else if String.eqb url (exchangeRateAPI +:+ "USD")
    then ex_ok (RatesBody (Some {[ "EUR" := lit 0.9 ]}))
    else if String.eqb url (exchangeRateAPI +:+ "GBP")
    then ex_ok (RatesBody (Some {[ "USD" := lit 1.25 ]}))
    else NetworkFailure.

(** The index of a catalogue holding bitcoin and ethereum. *)
Definition ex_index : gmap string string :=
  {[ "BTC" := "bitcoin"; "ETH" := "ethereum" ]}.

(** A page with the given pair selected and the amount [1]. *)
Definition ex_pair (from to : Currency) : State float :=
  ex_state [ex_USD; ex_EUR; ex_GBP; ex_BTC; ex_ETH] ex_index
    (ex_selected from) (ex_selected to) "1".


(** A fiat provider whose tables quote EUR at [eur] against USD and USD at
    [usd] against EUR. *)
Definition ex_tables {num : Type} (eur usd : num) : string -> FetchOutcome num :=
  fun url =>
    if String.eqb url (exchangeRateAPI +:+ "USD")
    then ex_ok (RatesBody (Some {[ "EUR" := eur ]}))
    else if String.eqb url (exchangeRateAPI +:+ "EUR")
    then ex_ok (RatesBody (Some {[ "USD" := usd ]}))
    else NetworkFailure.

(** The page [ex_pair] over exact numbers. *)
Definition ex_pair_exact (from to : Currency) : State exact :=
  ex_state [ex_USD; ex_EUR; ex_GBP; ex_BTC; ex_ETH] ex_index
    (ex_selected from) (ex_selected to) "1".

(** A history provider sending 31 daily samples for bitcoin. *)
Definition ex_history : string -> FetchOutcome float :=
  fun url =>
    if String.eqb url (chartURL "bitcoin")
    then ex_ok (ChartBody (Some (map (fun day => (lit (inject_Z (1700000000000 + 86400000 * Z.of_nat day)),
                                                  lit 60000))
                                     (seq 0 31))))
    else NetworkFailure.

(** A catalogue of twenty fiat currencies [F00 .. F19] named [Moneda], and
    three cryptocurrencies. *)
Definition ex_twenty : list Currency :=
  map (fun i => ex_fiat ("F" +:+ pretty (Z.of_nat i)) "Moneda") (seq 0 20)
  ++ [ex_BTC; ex_ETH; ex_crypto "MON" "Monero" "monero"].

(** A ranking in which two assets share the symbol [usdt]. *)
Definition ex_ranking {num : Type} : string -> FetchOutcome num :=
  fun url =>
    if String.eqb url marketsURL
    then ex_ok (MarketsBody
                  [ {| coin_id := "bitcoin"; symbol := "btc"; coin_name := "Bitcoin" |};
                    {| coin_id := "tether"; symbol := "usdt"; coin_name := "Tether" |};
                    {| coin_id := "bridged-usdt"; symbol := "usdt";
                       coin_name := "Bridged USDT" |} ])
    else NetworkFailure.

(** A page on which nothing is loaded yet. *)
Definition ex_blank : State float :=
  ex_state [] ∅ ex_emptyInput ex_emptyInput "".

(** Providers that are up: the table [{ EUR: 0.9, GBP: 0.8 }] quoted against
    USD, and a ranking of bitcoin and ethereum. *)
Definition ex_live : string -> FetchOutcome float :=
  fun url =>
    if String.eqb url (exchangeRateAPI +:+ "USD")
    then ex_ok (RatesBody (Some {[ "EUR" := lit 0.9; "GBP" := lit 0.8 ]}))
    else if String.eqb url marketsURL
    then ex_ok (MarketsBody
                  [ {| coin_id := "bitcoin"; symbol := "btc"; coin_name := "Bitcoin" |};
                    {| coin_id := "ethereum"; symbol := "eth";
                       coin_name := "Ethereum" |} ])
    else NetworkFailure.



(** ** The rest of the class: fallback data, popular currencies, and the
    listeners of an autocomplete *)

(** [s.trimEnd()] and [s.trim()] *)
Fixpoint trimEnd (s : string) : string :=
  match s with
  | EmptyString => EmptyString
  | String c s' =>
      match trimEnd s' with
      | EmptyString => if isWhiteSpace c then EmptyString else String c EmptyString
      | rest => String c rest
      end
  end.

Definition trim (s : string) : string := trimEnd (trimStart s).

Section Interface.
Context {num : Type} `{Number num}.

Definition set_currencyNames (v : gmap string string) (s : State num) : State num :=
  {| allCurrencies := allCurrencies s; cryptoIdMap := cryptoIdMap s;
     priceChart := priceChart s; currencyNames := v;
     popularCurrencyCodes := popularCurrencyCodes s;
     fallbackCryptoCurrencies := fallbackCryptoCurrencies s;
     from_currency := from_currency s; to_currency := to_currency s;
     amount := amount s; convert_btn_disabled := convert_btn_disabled s;
     result := result s; chart_container := chart_container s;
     swal := swal s; requests := requests s; draws := draws s |}.

Definition set_popularCurrencyCodes (v : list string) (s : State num) : State num :=
  {| allCurrencies := allCurrencies s; cryptoIdMap := cryptoIdMap s;
     priceChart := priceChart s; currencyNames := currencyNames s;
     popularCurrencyCodes := v;
     fallbackCryptoCurrencies := fallbackCryptoCurrencies s;
     from_currency := from_currency s; to_currency := to_currency s;
     amount := amount s; convert_btn_disabled := convert_btn_disabled s;
     result := result s; chart_container := chart_container s;
     swal := swal s; requests := requests s; draws := draws s |}.

Definition set_fallbackCryptoCurrencies (v : list FallbackCrypto) (s : State num)
  : State num :=
  {| allCurrencies := allCurrencies s; cryptoIdMap := cryptoIdMap s;
     priceChart := priceChart s; currencyNames := currencyNames s;
     popularCurrencyCodes := popularCurrencyCodes s;
     fallbackCryptoCurrencies := v;
     from_currency := from_currency s; to_currency := to_currency s;
     amount := amount s; convert_btn_disabled := convert_btn_disabled s;
     result := result s; chart_container := chart_container s;
     swal := swal s; requests := requests s; draws := draws s |}.

Definition initializeFallbackData : M num unit :=
  modify (set_currencyNames
            {[ "USD" := "Dólar Estadounidense"; "EUR" := "Euro";
               "GBP" := "Libra Esterlina"; "ARS" := "Peso Argentino" ]}) ;;
  modify (set_popularCurrencyCodes ["USD"; "EUR"; "GBP"; "ARS"; "BTC"; "ETH"]) ;;
  modify (set_fallbackCryptoCurrencies
            [ {| fb_code := "BTC"; fb_name := "Bitcoin"; fb_type := "crypto";
                 fb_id := "bitcoin" |};
              {| fb_code := "ETH"; fb_name := "Ethereum"; fb_type := "crypto";
                 fb_id := "ethereum" |} ]).

(** [this.allCurrencies.find((currency) => currency.code === code)] *)
Definition findByCode (currencies : list Currency) (code' : string) : option Currency :=
  List.find (fun currency => String.eqb (code currency) code') currencies.

Definition showPopularCurrencies (s : State num) (listEl : ListEl) : ListEl :=
  let listEl := {| children := []; show := show listEl |} in
  if (length (allCurrencies s) =? 0)%nat then set_show false listEl
  else
    let popularCurrencies :=
      omap (findByCode (allCurrencies s)) (popularCurrencyCodes s) in
    if (0 <? length popularCurrencies)%nat then
      let listEl := appendChildren [GroupHeader "💫 Monedas Populares"] listEl in
      let listEl := appendChildren (map createAutocompleteItem popularCurrencies) listEl in
      set_show true listEl
    else set_show false listEl.

Definition clearSelection (input : InputEl) : InputEl :=
  {| value := value input; placeholder := placeholder input;
     disabled := disabled input;
     selectedCode := None; selectedType := None; selectedId := None |}.

(** [updateSelection] gives each item the class [active] or takes it away:
    the result is, item by item, whether it has the class afterwards. *)
Definition updateSelection (items : list Item) (selectedIndex : Z) : list bool :=
  imap (fun index _ => (Z.of_nat index =? selectedIndex)%Z) items.

Definition hideAllAutocompleteLists (lists : list ListEl) : list ListEl :=
  map (set_show false) lists.

(** *** The listeners installed by [setupAutocomplete]

    One autocomplete is an input, its list, and the variable [selectedIndex]
    of the closure; [active] tells, for each item of the list in document
    order, whether it has the class [active]. *)
Record Autocomplete : Type := {
  ac_input : InputEl;
  ac_list : ListEl;
  selectedIndex : Z;
  active : list bool;
}.

(** A list that was just filled: its items are new elements, none active. *)
Definition rendered (input : InputEl) (listEl : ListEl) (index : Z) : Autocomplete :=
  {| ac_input := input; ac_list := listEl; selectedIndex := index;
     active := map (fun _ => false) (itemsOf (children listEl)) |}.

(** The listener of [input] events, run once the value of the input has
    changed. *)
Definition inputListener (s : State num) (w : Autocomplete) : Autocomplete :=
  let input := ac_input w in
  let query := trim (toLowerCase (value input)) in
  let input :=
    if truthy (selectedCode input) then
      let selectedText := value input in
      let expectedText := toString (selectedCode input) +:+ " - " in
      if negb (String.prefix
                 (String.substring 0 (String.length selectedText) expectedText)
                 selectedText)
      then clearSelection input
      else input
    else input in
  rendered input (showAutocompleteResults s query (ac_list w)) (-1).

(** The listener of [focus] events. *)
Definition focusListener (s : State num) (w : Autocomplete) : Autocomplete :=
  let input := ac_input w in
  let query := trim (toLowerCase (value input)) in
  let listEl :=
    if truthy (selectedCode input) then showPopularCurrencies s (ac_list w)
    else if (String.length query =? 0)%nat then showPopularCurrencies s (ac_list w)
    else
      let seemsLikeSelectedCurrency :=
        includes query " - " && (10 <? String.length query)%nat in
      if seemsLikeSelectedCurrency then showPopularCurrencies s (ac_list w)
      else showAutocompleteResults s query (ac_list w) in
  rendered input listEl (selectedIndex w).

(** The listener of [keydown] events, for the key [key]. *)
Definition keydownListener (key : string) (w : Autocomplete) : Autocomplete :=
  let items := itemsOf (children (ac_list w)) in
  if String.eqb key "ArrowDown" then
    let selectedIndex' :=
      Z.min (selectedIndex w + 1) (Z.of_nat (length items) - 1) in
    {| ac_input := ac_input w; ac_list := ac_list w; selectedIndex := selectedIndex';
       active := updateSelection items selectedIndex' |}
  else if String.eqb key "ArrowUp" then
    let selectedIndex' := Z.max (selectedIndex w - 1) (-1) in
    {| ac_input := ac_input w; ac_list := ac_list w; selectedIndex := selectedIndex';
       active := updateSelection items selectedIndex' |}
  else if String.eqb key "Enter" then
    if (0 <=? selectedIndex w)%Z then
      match items !! Z.to_nat (selectedIndex w) with
      | Some item =>
          let '(input, listEl) := selectCurrency item (ac_input w) (ac_list w) in
          {| ac_input := input; ac_list := listEl; selectedIndex := selectedIndex w;
             active := active w |}
      | None => w
      end
    else w
  else if String.eqb key "Escape" then
    {| ac_input := ac_input w; ac_list := set_show false (ac_list w);
       selectedIndex := -1; active := active w |}
  else w.

(** The listener of [click] events on an item of the list. *)
Definition clickListener (item : Item) (w : Autocomplete) : Autocomplete :=
  let '(input, listEl) := selectCurrency item (ac_input w) (ac_list w) in
  {| ac_input := input; ac_list := listEl; selectedIndex := selectedIndex w;
     active := active w |}.

End Interface.

(** *** More vocabulary *)

(** The user replaces the text of the input by [text]. *)
Definition typed (text : string) (w : Autocomplete) : Autocomplete :=
  {| ac_input := {| value := text; placeholder := placeholder (ac_input w);
                    disabled := disabled (ac_input w);
                    selectedCode := selectedCode (ac_input w);
                    selectedType := selectedType (ac_input w);
                    selectedId := selectedId (ac_input w) |};
     ac_list := ac_list w; selectedIndex := selectedIndex w; active := active w |}.

Definition popularHeader : string := "💫 Monedas Populares".
Definition sameCurrencyMessage : string :=
  "⚠️ No puedes convertir una moneda a sí misma. Por favor selecciona monedas diferentes.".

(** The toast of a finished load. *)
Definition loadedToast (count : nat) : SwalOptions :=
  {| icon := "success"; title := "Monedas cargadas";
     text := pretty count +:+ " monedas disponibles para conversión";
     toast := true |}.

Definition searchPlaceholder : string := "Escribe para buscar moneda...".

(** The texts of the two links of [getDataSourcesDescription]. *)
Definition creditCoinGecko : string := "Datos proporcionados por CoinGecko API".
Definition creditExchangeRate : string := "Datos proporcionados por ExchangeRate-API".
Definition creditBoth : string :=
  "Datos proporcionados por CoinGecko API y ExchangeRate-API".

(** The heading of the chart for a pair. *)
Definition chartHeading (fromCurrency toCurrency : string) : string :=
  "📈 Tendencia: " +:+ (fromCurrency +:+ " → " +:+ toCurrency) +:+ " (últimos 30 días)".

(** The last element of a list that satisfies [p]. *)
Definition findLast {A : Type} (p : A -> bool) (elements : list A) : option A :=
  List.find p (rev elements).

Section Loaded.
Context {num : Type} `{Number num}.
Variable host : Host num.

(** The fiat entries and the crypto entries the two loaders return, and the
    index the second leaves, by what the providers answer. *)
Definition fiatLoaded (s : State num) : list Currency :=
  match rateTable host "USD" with
  | Some table =>
      merge_sort (byCode host)
        (entryOfUSD s :: map (entryOfKey s) (map fst (map_to_list table)))
  | None => fallbackFiat
  end.

Definition cryptoLoaded (s : State num) : list Currency :=
  match liveCoins host with
  | Some coins => map entryOfCoin coins
  | None => map entryOfFallback (fallbackCryptoCurrencies s)
  end.

Definition indexLoaded (s : State num) : gmap string string :=
  match liveCoins host with
  | Some coins =>
      indexed (fun coin => toUpperCase (symbol coin)) coin_id coins (cryptoIdMap s)
  | None => indexed fb_code fb_id (fallbackCryptoCurrencies s) (cryptoIdMap s)
  end.

(** The state [loadCurrencies] ends in. *)
Definition loaded (s : State num) : State num :=
  let catalogue := fiatLoaded s ++ cryptoLoaded s in
  let s1 :=
    set_to_currency (set_placeholder searchPlaceholder false (to_currency s))
      (set_from_currency (set_placeholder searchPlaceholder false (from_currency s))
         (set_allCurrencies catalogue
            (set_cryptoIdMap (indexLoaded s)
               (set_requests (requests s ++ [exchangeRateAPI +:+ "USD"; marketsURL])
                  s)))) in
  if hasSwal host then set_swal (Some (loadedToast (length catalogue))) s1 else s1.

End Loaded.

(** *** More concrete pages *)

(** An autocomplete whose input holds [text], with an empty hidden list and
    no item chosen with the keyboard. *)
Definition ex_autocomplete (input : InputEl) (text : string) : Autocomplete :=
  typed text {| ac_input := input; ac_list := ex_emptyList; selectedIndex := -1;
                active := [] |}.

(** A page with the five example currencies loaded and nothing selected. *)
Definition ex_loaded : State float :=
  ex_state [ex_USD; ex_EUR; ex_GBP; ex_BTC; ex_ETH] ex_index
    ex_emptyInput ex_emptyInput "1".

(** The page [ex_blank] after the static data fell back to the bundled
    minimum. *)
Definition ex_fallen_back : State float :=
  (initializeFallbackData ex_blank).2.

(** The credit line of a finished conversion, by the kinds of the two
    currencies (a missing kind counting as fiat). *)
Definition credits (fromKind toKind : option string) : string :=
  if str_is fromKind "crypto" || str_is toKind "crypto" then
    if str_is fromKind "fiat" || str_is toKind "fiat" then creditBoth
    else creditCoinGecko
  else if str_is fromKind "fiat" || str_is toKind "fiat" then creditExchangeRate
  else "Datos de fuentes financieras confiables".

Definition successToast : SwalOptions :=
  {| icon := "success"; title := "Conversión realizada con éxito";
     text := ""; toast := true |}.

(** The page once the panel of a finished conversion is shown, before the
    chart is worked on. *)
Definition panelShown {num : Type} `{Number num} (host : Host num)
    (originalAmount : num) (fromCurrency toCurrency : string)
    (exchangeRate : jsval num) (s : State num) : State num :=
  let s1 :=
    set_convert_btn_disabled false
      (set_result
         (conversionPanel originalAmount fromCurrency toCurrency exchangeRate
            (credits (kindOf (from_currency s)) (kindOf (to_currency s))))
         (if hasSwal host then set_swal None s else s)) in
  if hasSwal host then set_swal (Some successToast) s1 else s1.

(** [s'] is [s] after a run of [convertCurrency]: the submit control is
    enabled, at most three requests were sent, and the catalogue, the index,
    the static data, the two inputs and the amount field are as they were. *)
Definition conversionRan {num : Type} (s s' : State num) : Prop :=
  convert_btn_disabled s' = false
  /\ allCurrencies s' = allCurrencies s
  /\ cryptoIdMap s' = cryptoIdMap s
  /\ currencyNames s' = currencyNames s
  /\ popularCurrencyCodes s' = popularCurrencyCodes s
  /\ fallbackCryptoCurrencies s' = fallbackCryptoCurrencies s
  /\ from_currency s' = from_currency s
  /\ to_currency s' = to_currency s
  /\ amount s' = amount s
  /\ exists urls, requests s' = requests s ++ urls /\ length urls <= 3.

(** A page on which Tether is selected with its own id while the index, as
    a ranking with two assets of symbol [usdt] leaves it, gives the id of the
    other asset; the target is USD and the amount 1. *)
Definition ex_tether : State float :=
  ex_state [ex_USD; ex_crypto "USDT" "Tether" "tether";
            ex_crypto "USDT" "Bridged USDT" "bridged-usdt"]
    {[ "USDT" := "bridged-usdt" ]}
    (ex_selected (ex_crypto "USDT" "Tether" "tether")) (ex_selected ex_USD) "1".

(** A price provider quoting tether at 1 USD. *)
Definition ex_tether_price : string -> FetchOutcome float :=
  fun url =>
    if String.eqb url (priceURL "tether")
    then ex_ok (PricesBody {[ "tether" := Some (lit 1) ]})
    else NetworkFailure.

(** The page [ex_pair ex_BTC ex_USD] after a chart that could not be loaded:
    the error marker of the chart region is shown. *)
Definition ex_after_chart_error : State float :=
  (displayPriceChart (ex_host ex_offline (lit 0.5)) "BTC" "USD"
     (ex_pair ex_BTC ex_USD)).2.

(** A price provider quoting bitcoin at 0 USD. *)
Definition ex_worthless : string -> FetchOutcome float :=
  fun url =>
    if String.eqb url (priceURL "bitcoin")
    then ex_ok (PricesBody {[ "bitcoin" := Some (lit 0) ]})
    else NetworkFailure.

(** A text all of whose characters are in the ASCII range, where the number
    of bytes of a text is its [length] in the host language. *)
Definition isAscii (text : string) : bool :=
  forallb (fun c => (nat_of_ascii c <? 128)%nat) (list_ascii_of_string text).

(** Providers that are up, the table quoted against USD listing USD itself:
    [{ USD: 1, EUR: 0.9 }]. *)
Definition ex_usd_in_table : string -> FetchOutcome float :=
  fun url =>
    if String.eqb url (exchangeRateAPI +:+ "USD")
    then ex_ok (RatesBody (Some {[ "USD" := lit 1; "EUR" := lit 0.9 ]}))
    else NetworkFailure.
(** ** Computations *)

Section Facts.
Context {num : Type} `{Number num}.
Variable host : Host num.

Lemma bind_returned {A B : Type} (m : M num A) (k : A -> M num B) s a s' :
  m s = (Returned a, s') -> bind m k s = k a s'.
Proof. intros Hm. unfold bind. now rewrite Hm. Qed.

Lemma bind_thrown {A B : Type} (m : M num A) (k : A -> M num B) s e s' :
  m s = (Thrown e, s') -> bind m k s = (Thrown e, s').
Proof. intros Hm. unfold bind. now rewrite Hm. Qed.

Lemma try_catch_returned {A : Type} (m : M num A) handler s a s' :
  m s = (Returned a, s') -> try_catch m handler s = (Returned a, s').
Proof. intros Hm. unfold try_catch. now rewrite Hm. Qed.

Lemma try_catch_thrown {A : Type} (m : M num A) handler s e s' :
  m s = (Thrown e, s') -> try_catch m handler s = handler e s'.
Proof. intros Hm. unfold try_catch. now rewrite Hm. Qed.

(** *** What a computation leaves alone *)

#[local] Instance requestsSent_preorder : PreOrder (@requestsSent num).
Proof.
  split.
  - intros s. unfold requestsSent. intuition.
  - intros s1 s2 s3 H12 H23. unfold requestsSent in *.
    destruct H12 as (P12 & H12), H23 as (P23 & H23).
    split; [etrans; eassumption |]. intuition congruence.
Qed.

#[local] Instance chartChanged_preorder : PreOrder (@chartChanged num).
Proof.
  split.
  - intros s. unfold chartChanged. intuition.
  - intros s1 s2 s3 H12 H23. unfold chartChanged in *.
    destruct H12 as (P12 & H12), H23 as (P23 & H23).
    split; [etrans; eassumption |]. intuition congruence.
Qed.

#[local] Instance seriesDrawn_preorder : PreOrder (@seriesDrawn num).
Proof.
  split.
  - intros s. unfold seriesDrawn. intuition.
  - intros s1 s2 s3 H12 H23. unfold seriesDrawn in *.
    destruct H12 as (P12 & H12), H23 as (P23 & H23).
    split; [etrans; eassumption |]. intuition congruence.
Qed.

Lemma requestsSent_seriesDrawn (s s' : State num) :
  requestsSent s s' -> seriesDrawn s s'.
Proof. unfold requestsSent, seriesDrawn. intuition. Qed.

Lemma seriesDrawn_chartChanged (s s' : State num) :
  seriesDrawn s s' -> chartChanged s s'.
Proof. unfold seriesDrawn, chartChanged. intuition. Qed.

Section Keeps.
Context (R : relation (State num)) `{!PreOrder R}.

Lemma keeps_ret {A : Type} (a : A) : keeps R (ret a).
Proof. intros s. reflexivity. Qed.

Lemma keeps_throw {A : Type} (e : exn) : keeps R (throw (A := A) e).
Proof. intros s. reflexivity. Qed.

Lemma keeps_get : keeps R get.
Proof. intros s. reflexivity. Qed.

Lemma keeps_bind {A B : Type} (m : M num A) (k : A -> M num B) :
  keeps R m -> (forall a, keeps R (k a)) -> keeps R (bind m k).
Proof.
  intros Hm Hk s. unfold bind. specialize (Hm s).
  destruct (m s) as [[a | e] s1]; cbn in *; [| exact Hm].
  etrans; [exact Hm | apply Hk].
Qed.

Lemma keeps_try_catch {A : Type} (m : M num A) handler :
  keeps R m -> (forall e, keeps R (handler e)) -> keeps R (try_catch m handler).
Proof.
  intros Hm Hh s. unfold try_catch. specialize (Hm s).
  destruct (m s) as [[a | e] s1]; cbn in *; [exact Hm |].
  etrans; [exact Hm | apply Hh].
Qed.

Lemma keeps_modify (f : State num -> State num) :
  (forall s, R s (f s)) -> keeps R (modify f).
Proof. intros Hf s. apply Hf. Qed.

Lemma keeps_if {A : Type} (b : bool) (m1 m2 : M num A) :
  keeps R m1 -> keeps R m2 -> keeps R (if b then m1 else m2).
Proof. now destruct b. Qed.

Lemma keeps_for_days {A : Type} (body : nat -> A -> M num A) n acc :
  (forall d a, keeps R (body d a)) -> keeps R (for_days n body acc).
Proof.
  intros Hbody. revert acc.
  induction n as [| d IH]; intros acc; cbn [for_days].
  - apply keeps_ret.
  - apply keeps_bind; [apply Hbody | intros a; apply IH].
Qed.

End Keeps.

Lemma keeps_sent_drawn {A : Type} (m : M num A) :
  keeps requestsSent m -> keeps seriesDrawn m.
Proof. intros Hm s. apply requestsSent_seriesDrawn, Hm. Qed.

Lemma keeps_drawn_changed {A : Type} (m : M num A) :
  keeps seriesDrawn m -> keeps chartChanged m.
Proof. intros Hm s. apply seriesDrawn_chartChanged, Hm. Qed.

Lemma fetch_keeps url : keeps requestsSent (fetch host url).
Proof.
  intros s. unfold fetch.
  assert (Hs : requestsSent s (set_requests (requests s ++ [url]) s)).
  { unfold requestsSent. cbn. split; [by apply prefix_app_r | tauto]. }
  destruct (respond host url); exact Hs.
Qed.

Lemma response_json_keeps (R : relation (State num)) `{!PreOrder R} response :
  keeps R (response_json response).
Proof.
  unfold response_json.
  destruct (json response); [apply keeps_ret | apply keeps_throw]; done.
Qed.

Lemma rates_at_keeps (R : relation (State num)) `{!PreOrder R} data key : keeps R (rates_at data key).
Proof.
  unfold rates_at.
  destruct data as [[rates |] | | |];
    first [apply keeps_ret; done | apply keeps_throw; done].
Qed.

Lemma usd_of_keeps (R : relation (State num)) `{!PreOrder R} data id : keeps R (usd_of data id).
Proof.
  unfold usd_of.
  destruct data as [| entries | |];
    try (apply keeps_throw; done).
  destruct (entries !! id) as [[x |] |];
    first [apply keeps_ret; done | apply keeps_throw; done].
Qed.

Lemma getCryptoId_keeps (R : relation (State num)) `{!PreOrder R} currencyCode :
  keeps R (getCryptoId currencyCode).
Proof.
  unfold getCryptoId.
  apply keeps_bind; [done | apply keeps_get; done | intros s; apply keeps_ret; done].
Qed.

Lemma getCryptoId_run currencyCode (s : State num) :
  getCryptoId currencyCode s
  = (Returned (cryptoIdMap s !! toUpperCase currencyCode), s).
Proof. reflexivity. Qed.

Ltac keeps_step :=
  lazymatch goal with
  | |- keeps _ (ret _) => apply keeps_ret
  | |- keeps _ (throw _) => apply keeps_throw
  | |- keeps _ get => apply keeps_get
  | |- keeps _ (bind _ _) => apply keeps_bind
  | |- keeps _ (try_catch _ _) => apply keeps_try_catch
  | |- keeps _ (if _ then _ else _) => apply keeps_if
  | |- keeps _ (for_days _ _ _) => apply keeps_for_days
  | |- keeps requestsSent (fetch _ _) => apply fetch_keeps
  | |- keeps seriesDrawn (fetch _ _) => apply keeps_sent_drawn, fetch_keeps
  | |- keeps _ (response_json _) => apply response_json_keeps
  | |- keeps _ (rates_at _ _) => apply rates_at_keeps
  | |- keeps _ (usd_of _ _) => apply usd_of_keeps
  | |- keeps _ (getCryptoId _) => apply getCryptoId_keeps
  end;
  try typeclasses eauto; intros; cbv zeta.

Ltac keeps_auto := repeat keeps_step.

Lemma getFiatToFiatExchangeRate_keeps fromCurrency toCurrency :
  keeps requestsSent (getFiatToFiatExchangeRate host fromCurrency toCurrency).
Proof. unfold getFiatToFiatExchangeRate. keeps_auto. Qed.

Lemma getCryptoToCryptoExchangeRate_keeps fromCrypto toCrypto :
  keeps requestsSent (getCryptoToCryptoExchangeRate host fromCrypto toCrypto).
Proof. unfold getCryptoToCryptoExchangeRate. keeps_auto. Qed.

Lemma getFiatToCryptoExchangeRate_keeps fromFiat toCrypto :
  keeps requestsSent (getFiatToCryptoExchangeRate host fromFiat toCrypto).
Proof. unfold getFiatToCryptoExchangeRate. keeps_auto. Qed.

Lemma getCryptoToFiatExchangeRate_keeps fromCrypto toFiat :
  keeps requestsSent (getCryptoToFiatExchangeRate host fromCrypto toFiat).
Proof. unfold getCryptoToFiatExchangeRate. keeps_auto. Qed.

Lemma resolve_keeps fromType toType fromCode toCode :
  keeps requestsSent (resolve host fromType toType fromCode toCode).
Proof.
  unfold resolve.
  repeat (apply keeps_if; try typeclasses eauto);
    auto using getFiatToFiatExchangeRate_keeps, getCryptoToCryptoExchangeRate_keeps,
      getFiatToCryptoExchangeRate_keeps, getCryptoToFiatExchangeRate_keeps.
Qed.

Lemma Math_random_keeps : keeps seriesDrawn (Math_random host).
Proof.
  intros s. unfold Math_random, seriesDrawn. cbn. intuition.
Qed.

Lemma getCryptocurrencyHistoricalData_keeps cryptoCurrency targetCurrency isInverse :
  keeps seriesDrawn
    (getCryptocurrencyHistoricalData host cryptoCurrency targetCurrency isInverse).
Proof.
  unfold getCryptocurrencyHistoricalData. keeps_auto.
  match goal with data : Body num |- _ =>
    destruct data as [| | | [priceData |]] end; keeps_auto.
Qed.

Lemma generateFallbackChartData_keeps :
  keeps seriesDrawn (generateFallbackChartData host).
Proof.
  unfold generateFallbackChartData. keeps_auto.
  match goal with arrays : (list string * list num)%type |- _ =>
    destruct arrays as [dateLabels priceData] end.
  keeps_auto. apply Math_random_keeps.
Qed.

Lemma getFiatCurrencyHistoricalData_keeps fromCurrency toCurrency :
  keeps seriesDrawn (getFiatCurrencyHistoricalData host fromCurrency toCurrency).
Proof.
  unfold getFiatCurrencyHistoricalData. keeps_auto.
  - apply keeps_sent_drawn, getFiatToFiatExchangeRate_keeps.
  - match goal with arrays : (list string * list num)%type |- _ =>
      destruct arrays as [dateLabels chartData] end.
    keeps_auto. apply Math_random_keeps.
  - apply generateFallbackChartData_keeps.
Qed.

Lemma buildSeries_keeps fromType toType fromCurrency toCurrency :
  keeps seriesDrawn (buildSeries host fromType toType fromCurrency toCurrency).
Proof.
  unfold buildSeries.
  repeat (apply keeps_if; try typeclasses eauto);
    auto using getCryptocurrencyHistoricalData_keeps,
      getFiatCurrencyHistoricalData_keeps.
Qed.

Lemma displayPriceChart_keeps fromCurrency toCurrency :
  keeps chartChanged (displayPriceChart host fromCurrency toCurrency).
Proof.
  unfold displayPriceChart, showChartLoadingIndicator, hideChartLoadingIndicator,
    showChartError, createPriceChart.
  keeps_auto;
    first [ apply keeps_drawn_changed, buildSeries_keeps
          | intros s; unfold modify, chartChanged; cbn; intuition ].
Qed.

(** [displayPriceChart] catches whatever is thrown while it builds the
    series. *)
Lemma displayPriceChart_returns fromCurrency toCurrency s :
  (displayPriceChart host fromCurrency toCurrency s).1 = Returned tt.
Proof.
  unfold displayPriceChart, try_catch.
  match goal with |- context [match ?body s with _ => _ end] =>
    destruct (body s) as [[[] | e] s1] end; reflexivity.
Qed.

Lemma showError_spec message s :
  exists s', showError host message s = (Returned tt, s')
             /\ errorShown (hasSwal host) message s s'.
Proof.
  unfold showError, errorShown, Swal_fire, modify, bind.
  destruct (hasSwal host); eexists; (split; [reflexivity |]); cbn; tauto.
Qed.

(** *** The course of a conversion *)

Lemma showLoadingIndicator_run s :
  showLoadingIndicator host s = (Returned tt, loading host s).
Proof.
  unfold loading, showLoadingIndicator, bind, modify, Swal_fire.
  destruct (hasSwal host); reflexivity.
Qed.

(** The loading indicator touches the submit control, the popup and the
    result panel only. *)
Lemma loading_fields s :
  requests (loading host s) = requests s
  /\ draws (loading host s) = draws s
  /\ cryptoIdMap (loading host s) = cryptoIdMap s
  /\ from_currency (loading host s) = from_currency s
  /\ to_currency (loading host s) = to_currency s
  /\ priceChart (loading host s) = priceChart s.
Proof.
  unfold loading, showLoadingIndicator, bind, modify, Swal_fire.
  destruct (hasSwal host); cbn; tauto.
Qed.

Lemma displayConversionResult_spec originalAmount fromCurrency convertedAmount
    toCurrency exchangeRate s :
  exists s' dataSources,
    displayConversionResult host originalAmount fromCurrency convertedAmount
      toCurrency exchangeRate s = (Returned tt, s')
    /\ result s' =
         {| innerHTML := ConversionResult originalAmount fromCurrency
                           convertedAmount toCurrency exchangeRate dataSources;
            className := "result-section show-result" |}
    /\ convert_btn_disabled s' = false
    /\ requests s `prefix_of` requests s'
    /\ from_currency s' = from_currency s
    /\ to_currency s' = to_currency s
    /\ cryptoIdMap s' = cryptoIdMap s.
Proof.
  unfold displayConversionResult, getDataSourcesDescription.
  unfold bind at 1 2 3 4 5 6. unfold get at 1.
  unfold Swal_close, Swal_fire, modify, ret.
  destruct (hasSwal host); cbn -[displayPriceChart];
    match goal with |- context [displayPriceChart host ?f ?t ?s3] =>
      pose proof (displayPriceChart_returns f t s3) as Hret;
      pose proof (displayPriceChart_keeps f t s3) as Hkeep;
      destruct (displayPriceChart host f t s3) as [out s'] end;
    cbn in Hret; subst out; unfold chartChanged in Hkeep; cbn in Hkeep;
    destruct Hkeep as (Hreq & _ & Hindex & _ & _ & _ & Hfrom & Hto & _ & Hbtn & Hresult & _);
    exists s'; eexists; (split; [reflexivity |]);
    (split; [exact Hresult |]); auto.
Qed.

Lemma convertCurrency_returned s exchangeRate s2 :
  accepted s ->
  resolve host (selectedType (from_currency s)) (selectedType (to_currency s))
    (toString (selectedCode (from_currency s)))
    (toString (selectedCode (to_currency s))) (loading host s)
  = (Returned exchangeRate, s2) ->
  exists s' dataSources,
    convertCurrency host s = (Returned tt, s')
    /\ result s' =
         conversionPanel (parseFloat (amount s))
           (toString (selectedCode (from_currency s)))
           (toString (selectedCode (to_currency s))) exchangeRate dataSources
    /\ convert_btn_disabled s' = false
    /\ requests s2 `prefix_of` requests s'.
Proof.
  intros (Hfrom & Hto & Hfalsy & Hle & Hne) Hresolve.
  unfold convertCurrency. unfold bind at 1. unfold get at 1.
  rewrite Hfrom, Hto, Hfalsy, Hle, Hne. cbn [negb orb].
  unfold try_catch, bind at 1. rewrite showLoadingIndicator_run.
  unfold bind at 1. rewrite Hresolve.
  destruct (displayConversionResult_spec (parseFloat (amount s))
              (toString (selectedCode (from_currency s)))
              (parseFloat (amount s) * toNumber exchangeRate)%num
              (toString (selectedCode (to_currency s))) exchangeRate s2)
    as (s' & dataSources & Hrun & Hresult & Hbtn & Hreq & _).
  rewrite Hrun. exists s', dataSources. unfold conversionPanel. auto.
Qed.


(** *** Fiat to fiat *)

Lemma getFiatToFiatExchangeRate_returned fromCurrency toCurrency s r table :
  respond host (exchangeRateAPI +:+ fromCurrency) = Responded r ->
  ok r = true ->
  json r = Some (RatesBody (Some table)) ->
  getFiatToFiatExchangeRate host fromCurrency toCurrency s
  = (Returned (entry table toCurrency),
     set_requests (requests s ++ [exchangeRateAPI +:+ fromCurrency]) s).
Proof.
  intros Hrespond Hok Hjson.
  unfold getFiatToFiatExchangeRate, bind, fetch, response_json.
  rewrite Hrespond, Hjson. cbn. rewrite Hok. reflexivity.
Qed.

Lemma fiat_to_fiat_resolved s fromCode toCode r table :
  accepted s ->
  selectedCode (from_currency s) = Some fromCode ->
  selectedCode (to_currency s) = Some toCode ->
  selectedType (from_currency s) = Some "fiat" ->
  selectedType (to_currency s) = Some "fiat" ->
  respond host (exchangeRateAPI +:+ fromCode) = Responded r ->
  ok r = true ->
  json r = Some (RatesBody (Some table)) ->
  resolve host (Some "fiat") (Some "fiat") fromCode toCode (loading host s)
  = (Returned (entry table toCode),
     set_requests (requests s ++ [exchangeRateAPI +:+ fromCode]) (loading host s))
  /\ exists s' dataSources,
       convertCurrency host s = (Returned tt, s')
       /\ result s' = conversionPanel (parseFloat (amount s)) fromCode toCode
                        (entry table toCode) dataSources
       /\ requests s ++ [exchangeRateAPI +:+ fromCode] `prefix_of` requests s'.
Proof.
  intros Hacc Hfrom Hto Hfromtype Htotype Hrespond Hok Hjson.
  assert (Hresolve :
    resolve host (Some "fiat") (Some "fiat") fromCode toCode (loading host s)
    = (Returned (entry table toCode),
       set_requests (requests s ++ [exchangeRateAPI +:+ fromCode]) (loading host s))).
  { unfold resolve. cbn [str_is String.eqb Ascii.eqb Bool.eqb andb].
    rewrite (getFiatToFiatExchangeRate_returned _ _ _ r table) by assumption.
    destruct (loading_fields s) as (-> & _). reflexivity. }
  split; [exact Hresolve |].
  destruct (convertCurrency_returned s (entry table toCode)
              (set_requests (requests s ++ [exchangeRateAPI +:+ fromCode])
                 (loading host s)) Hacc)
    as (s' & dataSources & Hrun & Hresult & _ & Hreq).
  { rewrite Hfromtype, Htotype, Hfrom, Hto. exact Hresolve. }
  exists s', dataSources. rewrite Hfrom, Hto in Hresult. auto.
Qed.

(** The request for a table either yields it or throws. *)
Lemma getFiatToFiatExchangeRate_table fromCurrency toCurrency s table :
  rateTable host fromCurrency = Some table ->
  getFiatToFiatExchangeRate host fromCurrency toCurrency s
  = (Returned (entry table toCurrency),
     set_requests (requests s ++ [exchangeRateAPI +:+ fromCurrency]) s).
Proof.
  unfold rateTable. intros Htable.
  destruct (respond host (exchangeRateAPI +:+ fromCurrency)) as [| r] eqn:Hrespond;
    [discriminate |].
  destruct (ok r) eqn:Hok; [| discriminate].
  destruct (json r) as [[[rates |] | | |] |] eqn:Hjson; try discriminate.
  injection Htable as ->.
  now apply (getFiatToFiatExchangeRate_returned _ _ _ r).
Qed.

Lemma getFiatToFiatExchangeRate_no_table fromCurrency toCurrency s :
  rateTable host fromCurrency = None ->
  exists e,
    getFiatToFiatExchangeRate host fromCurrency toCurrency s
    = (Thrown e, set_requests (requests s ++ [exchangeRateAPI +:+ fromCurrency]) s).
Proof.
  unfold rateTable. intros Htable.
  unfold getFiatToFiatExchangeRate, bind, fetch, response_json, rates_at.
  destruct (respond host (exchangeRateAPI +:+ fromCurrency)) as [| r];
    [eexists; reflexivity |].
  destruct (json r) as [data |]; cbn; [| eexists; reflexivity].
  destruct (ok r); cbn; [| eexists; reflexivity].
  destruct data as [[rates |] | | |]; try discriminate; eexists; reflexivity.
Qed.

(** *** Crypto to crypto *)

Lemma getCryptoToCryptoExchangeRate_returned fromCrypto toCrypto s r entries
    fromPrice toPrice :
  respond host (pairPriceURL (resolvedId s (from_currency s) fromCrypto)
                             (resolvedId s (to_currency s) toCrypto))
  = Responded r ->
  ok r = true ->
  json r = Some (PricesBody entries) ->
  entries !! resolvedId s (from_currency s) fromCrypto = Some (Some fromPrice) ->
  entries !! resolvedId s (to_currency s) toCrypto = Some (Some toPrice) ->
  getCryptoToCryptoExchangeRate host fromCrypto toCrypto s
  = (Returned (VNumber (fromPrice / toPrice)%num),
     set_requests
       (requests s ++ [pairPriceURL (resolvedId s (from_currency s) fromCrypto)
                                    (resolvedId s (to_currency s) toCrypto)]) s).
Proof.
  intros Hrespond Hok Hjson Hfrom Hto.
  unfold getCryptoToCryptoExchangeRate, bind at 1 2 3. unfold get at 1.
  rewrite !getCryptoId_run.
  fold (resolvedId s (from_currency s) fromCrypto).
  fold (resolvedId s (to_currency s) toCrypto).
  fold (pairPriceURL (resolvedId s (from_currency s) fromCrypto)
                     (resolvedId s (to_currency s) toCrypto)).
  unfold bind, fetch, response_json, usd_of.
  rewrite Hrespond, Hjson. cbn. rewrite Hok. cbn. rewrite Hfrom, Hto. reflexivity.
Qed.

(** *** Mixed kinds *)

Lemma getFiatToCryptoExchangeRate_usd toCrypto s r entries price :
  respond host (priceURL (resolvedId s (to_currency s) toCrypto)) = Responded r ->
  json r = Some (PricesBody entries) ->
  entries !! resolvedId s (to_currency s) toCrypto = Some (Some price) ->
  getFiatToCryptoExchangeRate host "USD" toCrypto s
  = (Returned (VNumber (lit 1 / price)%num),
     set_requests
       (requests s ++ [priceURL (resolvedId s (to_currency s) toCrypto)]) s).
Proof.
  intros Hrespond Hjson Hprice.
  unfold getFiatToCryptoExchangeRate, bind at 1 2. unfold get at 1.
  rewrite getCryptoId_run. fold (resolvedId s (to_currency s) toCrypto).
  fold (priceURL (resolvedId s (to_currency s) toCrypto)).
  unfold bind, fetch, response_json, usd_of.
  rewrite Hrespond, Hjson. cbn. rewrite Hprice. reflexivity.
Qed.

Lemma getFiatToCryptoExchangeRate_other fromFiat toCrypto s r entries price
    r' table usdRate :
  String.eqb fromFiat "USD" = false ->
  respond host (priceURL (resolvedId s (to_currency s) toCrypto)) = Responded r ->
  json r = Some (PricesBody entries) ->
  entries !! resolvedId s (to_currency s) toCrypto = Some (Some price) ->
  respond host (exchangeRateAPI +:+ fromFiat) = Responded r' ->
  json r' = Some (RatesBody (Some table)) ->
  table !! "USD" = Some usdRate ->
  getFiatToCryptoExchangeRate host fromFiat toCrypto s
  = (Returned (VNumber (usdRate / price)%num),
     set_requests
       (requests s ++ [priceURL (resolvedId s (to_currency s) toCrypto);
                       exchangeRateAPI +:+ fromFiat]) s).
Proof.
  intros Hne Hrespond Hjson Hprice Hrespond' Hjson' Husd.
  unfold getFiatToCryptoExchangeRate, bind at 1 2. unfold get at 1.
  rewrite getCryptoId_run. fold (resolvedId s (to_currency s) toCrypto).
  fold (priceURL (resolvedId s (to_currency s) toCrypto)).
  unfold bind, fetch, response_json, usd_of, rates_at, entry.
  rewrite Hrespond, Hjson, Hne. cbn. rewrite Hrespond', Hjson'. cbn.
  rewrite Husd, Hprice. cbn. rewrite <- app_assoc. reflexivity.
Qed.

Lemma getCryptoToFiatExchangeRate_usd fromCrypto s r entries price :
  respond host (priceURL (resolvedId s (from_currency s) fromCrypto)) = Responded r ->
  json r = Some (PricesBody entries) ->
  entries !! resolvedId s (from_currency s) fromCrypto = Some (Some price) ->
  getCryptoToFiatExchangeRate host fromCrypto "USD" s
  = (Returned (VNumber price),
     set_requests
       (requests s ++ [priceURL (resolvedId s (from_currency s) fromCrypto)]) s).
Proof.
  intros Hrespond Hjson Hprice.
  unfold getCryptoToFiatExchangeRate, bind at 1 2. unfold get at 1.
  rewrite getCryptoId_run. fold (resolvedId s (from_currency s) fromCrypto).
  fold (priceURL (resolvedId s (from_currency s) fromCrypto)).
  unfold bind, fetch, response_json, usd_of.
  rewrite Hrespond, Hjson. cbn. rewrite Hprice. reflexivity.
Qed.

Lemma getCryptoToFiatExchangeRate_other fromCrypto toFiat s r entries price
    r' table rate :
  String.eqb toFiat "USD" = false ->
  respond host (priceURL (resolvedId s (from_currency s) fromCrypto)) = Responded r ->
  json r = Some (PricesBody entries) ->
  entries !! resolvedId s (from_currency s) fromCrypto = Some (Some price) ->
  respond host (exchangeRateAPI +:+ "USD") = Responded r' ->
  json r' = Some (RatesBody (Some table)) ->
  table !! toFiat = Some rate ->
  getCryptoToFiatExchangeRate host fromCrypto toFiat s
  = (Returned (VNumber (price * rate)%num),
     set_requests
       (requests s ++ [priceURL (resolvedId s (from_currency s) fromCrypto);
                       exchangeRateAPI +:+ "USD"]) s).
Proof.
  intros Hne Hrespond Hjson Hprice Hrespond' Hjson' Hrate.
  unfold getCryptoToFiatExchangeRate, bind at 1 2. unfold get at 1.
  rewrite getCryptoId_run. fold (resolvedId s (from_currency s) fromCrypto).
  fold (priceURL (resolvedId s (from_currency s) fromCrypto)).
  unfold bind, fetch, response_json, usd_of, rates_at, entry.
  rewrite Hrespond, Hjson. cbn. rewrite Hprice, Hne. cbn.
  rewrite Hrespond', Hjson'. cbn. rewrite Hrate. cbn.
  rewrite <- app_assoc. reflexivity.
Qed.

(** *** The requests of a resolution *)

Ltac crunch :=
  repeat
    (cbn;
     match goal with
     | |- context [match respond ?h ?u with _ => _ end] =>
         let Hr := fresh "Hrespond" in destruct (respond h u) as [| ?r] eqn:Hr
     | |- context [match json ?r with _ => _ end] =>
         let Hj := fresh "Hjson" in destruct (json r) as [?data |] eqn:Hj
     | |- context [ok ?r] =>
         let Ho := fresh "Hok" in destruct (ok r) eqn:Ho
     | |- context [match ?data with RatesBody _ => _ | _ => _ end] =>
         destruct data as [[?rates |] | ?entries | ?coins | [?prices |]]
     | |- context [match ?m !! ?k with _ => _ end] =>
         destruct (m !! k) as [[?x |] |]
     | |- context [String.eqb ?a ?b] => destruct (String.eqb a b)
     end).

Lemma answered_intro url r data :
  respond host url = Responded r -> json r = Some data -> answered host url.
Proof. intros Hr Hj. exists r. rewrite Hj. eauto. Qed.

Lemma answeredOk_intro url r :
  respond host url = Responded r -> ok r = true -> answeredOk host url.
Proof. intros Hr Ho. exists r. auto. Qed.

Lemma getFiatToFiatExchangeRate_requests fromCurrency toCurrency s out s2 :
  getFiatToFiatExchangeRate host fromCurrency toCurrency s = (out, s2) ->
  requests s2 = requests s ++ [exchangeRateAPI +:+ fromCurrency]
  /\ match out with
     | Returned _ => answered host (exchangeRateAPI +:+ fromCurrency)
                     /\ answeredOk host (exchangeRateAPI +:+ fromCurrency)
     | Thrown _ => True
     end.
Proof.
  unfold getFiatToFiatExchangeRate, bind, fetch, response_json, rates_at, throw, ret.
  crunch; intros [= <- <-]; cbn; eauto using answered_intro, answeredOk_intro.
Qed.

Lemma getCryptoToCryptoExchangeRate_requests fromCrypto toCrypto s out s2 :
  getCryptoToCryptoExchangeRate host fromCrypto toCrypto s = (out, s2) ->
  let url := pairPriceURL (resolvedId s (from_currency s) fromCrypto)
                          (resolvedId s (to_currency s) toCrypto) in
  requests s2 = requests s ++ [url]
  /\ match out with
     | Returned _ => answered host url /\ answeredOk host url
     | Thrown _ => True
     end.
Proof.
  unfold getCryptoToCryptoExchangeRate. unfold bind at 1 2 3. unfold get at 1.
  rewrite !getCryptoId_run.
  fold (resolvedId s (from_currency s) fromCrypto).
  fold (resolvedId s (to_currency s) toCrypto).
  fold (pairPriceURL (resolvedId s (from_currency s) fromCrypto)
                     (resolvedId s (to_currency s) toCrypto)).
  generalize (pairPriceURL (resolvedId s (from_currency s) fromCrypto)
                           (resolvedId s (to_currency s) toCrypto)) as url.
  intros url.
  unfold bind, fetch, response_json, usd_of, throw, ret.
  crunch; intros [= <- <-]; cbn; eauto using answered_intro, answeredOk_intro.
Qed.

Lemma priceURL_not_rates (id currencyCode : string) :
  priceURL id <> exchangeRateAPI +:+ currencyCode.
Proof.
  unfold priceURL, coinGeckoAPI, exchangeRateAPI. intros Heq.
  apply (f_equal (String.get 12)) in Heq. cbn in Heq. discriminate.
Qed.

Lemma getFiatToCryptoExchangeRate_requests fromFiat toCrypto s out s2 :
  getFiatToCryptoExchangeRate host fromFiat toCrypto s = (out, s2) ->
  let url := priceURL (resolvedId s (to_currency s) toCrypto) in
  exists urls,
    requests s2 = requests s ++ urls
    /\ (urls = [url] \/ urls = [url; exchangeRateAPI +:+ fromFiat])
    /\ match out with
       | Returned _ => Forall (answered host) urls
       | Thrown _ => True
       end.
Proof.
  unfold getFiatToCryptoExchangeRate. unfold bind at 1 2. unfold get at 1.
  rewrite getCryptoId_run.
  fold (resolvedId s (to_currency s) toCrypto).
  fold (priceURL (resolvedId s (to_currency s) toCrypto)).
  generalize (priceURL (resolvedId s (to_currency s) toCrypto)) as url.
  generalize (resolvedId s (to_currency s) toCrypto) as id.
  intros id url.
  unfold bind, fetch, response_json, usd_of, rates_at, throw, ret.
  crunch; intros [= <- <-]; cbn; rewrite <- ?app_assoc; cbn;
    eexists; (split; [reflexivity |]); (split; [eauto |]);
    eauto 6 using answered_intro, Forall_cons, Forall_nil.
Qed.

Lemma getCryptoToFiatExchangeRate_requests fromCrypto toFiat s out s2 :
  getCryptoToFiatExchangeRate host fromCrypto toFiat s = (out, s2) ->
  let url := priceURL (resolvedId s (from_currency s) fromCrypto) in
  exists urls,
    requests s2 = requests s ++ urls
    /\ (urls = [url] \/ urls = [url; exchangeRateAPI +:+ "USD"])
    /\ match out with
       | Returned _ => Forall (answered host) urls
       | Thrown _ => True
       end.
Proof.
  unfold getCryptoToFiatExchangeRate. unfold bind at 1 2. unfold get at 1.
  rewrite getCryptoId_run.
  fold (resolvedId s (from_currency s) fromCrypto).
  fold (priceURL (resolvedId s (from_currency s) fromCrypto)).
  generalize (priceURL (resolvedId s (from_currency s) fromCrypto)) as url.
  generalize (resolvedId s (from_currency s) fromCrypto) as id.
  intros id url.
  unfold bind, fetch, response_json, usd_of, rates_at, throw, ret.
  crunch; intros [= <- <-]; cbn; rewrite <- ?app_assoc; cbn;
    eexists; (split; [reflexivity |]); (split; [eauto |]);
    eauto 6 using answered_intro, Forall_cons, Forall_nil.
Qed.

(** Whatever its outcome, a resolution sends at most two requests, no URL
    twice; when it returns a rate, each was answered with a JSON body, and
    with a 2xx status when the two currencies are of the same kind. *)
Lemma resolve_requests fromType toType fromCode toCode s out s2 :
  resolve host fromType toType fromCode toCode s = (out, s2) ->
  exists urls,
    requests s2 = requests s ++ urls
    /\ length urls <= 2
    /\ NoDup urls
    /\ match out with
       | Returned _ =>
           Forall (answered host) urls
           /\ (sameKind fromType toType = true -> Forall (answeredOk host) urls)
       | Thrown _ => True
       end.
Proof.
  unfold resolve, sameKind.
  destruct (str_is fromType "fiat" && str_is toType "fiat") eqn:Hff.
  { intros Hrun. apply getFiatToFiatExchangeRate_requests in Hrun as (Hreq & Hout).
    exists [exchangeRateAPI +:+ fromCode]. split; [exact Hreq |].
    split; [cbn; lia |]. split; [apply NoDup_singleton |].
    destruct out; [| exact I]. destruct Hout. split; [| intros _]; by repeat constructor. }
  destruct (str_is fromType "crypto" && str_is toType "crypto") eqn:Hcc.
  { intros Hrun. apply getCryptoToCryptoExchangeRate_requests in Hrun as (Hreq & Hout).
    eexists. split; [exact Hreq |].
    split; [cbn; lia |]. split; [apply NoDup_singleton |].
    destruct out; [| exact I]. destruct Hout. split; [| intros _]; by repeat constructor. }
  assert (Hpair : forall url url' (urls : list string),
            url <> url' -> urls = [url] \/ urls = [url; url'] ->
            length urls <= 2 /\ NoDup urls).
  { intros url url' urls Hne [-> | ->]; (split; [cbn; lia |]).
    - apply NoDup_singleton.
    - apply NoDup_cons. split; [| apply NoDup_singleton].
      intros Hin. apply list_elem_of_singleton in Hin. contradiction. }
  destruct (str_is fromType "fiat" && str_is toType "crypto").
  - intros Hrun. apply getFiatToCryptoExchangeRate_requests in Hrun
      as (urls & Hreq & Hurls & Hout).
    exists urls. split; [exact Hreq |].
    destruct (Hpair _ _ urls (priceURL_not_rates _ _) Hurls) as (Hlen & Hnodup).
    split; [exact Hlen |]. split; [exact Hnodup |].
    destruct out; [| exact I]. split; [exact Hout | discriminate].
  - intros Hrun. apply getCryptoToFiatExchangeRate_requests in Hrun
      as (urls & Hreq & Hurls & Hout).
    exists urls. split; [exact Hreq |].
    destruct (Hpair _ _ urls (priceURL_not_rates _ _) Hurls) as (Hlen & Hnodup).
    split; [exact Hlen |]. split; [exact Hnodup |].
    destruct out; [| exact I]. split; [exact Hout | discriminate].
Qed.

(** *** The series *)

Lemma thirty_labels : length (thirtyDays host) = 30.
Proof. reflexivity. Qed.

Lemma for_days_series (f : num -> num) n acc s :
  for_days n
    (fun dayOffset '(dateLabels, values) =>
       r <- Math_random host ;;
       ret (dateLabels ++ [labelOf host dayOffset], values ++ [f r]))
    acc s
  = (Returned (acc.1 ++ map (labelOf host) (rev (seq 0 n)),
               acc.2 ++ map f (nextDraws host s n)),
     set_draws (draws s + n) s).
Proof.
  unfold nextDraws.
  revert acc s. induction n as [| d IH]; intros [dateLabels values] s.
  - cbn. rewrite !app_nil_r, Nat.add_0_r. now destruct s.
  - cbn [for_days]. unfold bind at 1. unfold bind at 1, Math_random at 1, ret at 1.
    rewrite IH. cbn [fst snd draws set_draws].
    assert (Hrev : rev (seq 0 (S d)) = d :: rev (seq 0 d))
      by (rewrite seq_S, rev_app_distr; reflexivity).
    rewrite Hrev. change (seq 0 (S d)) with (0 :: seq 1 d).
    rewrite <- (seq_shift d 0). cbn [map]. rewrite !map_map, Nat.add_0_r.
    rewrite <- !app_assoc. cbn [app].
    f_equal; [f_equal; f_equal; f_equal; f_equal |].
    + apply map_ext. intros i. now rewrite Nat.add_succ_r.
    + unfold set_draws. cbn. f_equal. lia.
Qed.

Lemma generateFallbackChartData_run s :
  generateFallbackChartData host s
  = (Returned {| labels := thirtyDays host;
                 data := map fallbackValue (nextDraws host s 30) |},
     set_draws (draws s + 30) s).
Proof.
  change (generateFallbackChartData host s)
    with (bind
            (for_days 30
               (fun dayOffset '(dateLabels, values) =>
                  r <- Math_random host ;;
                  ret (dateLabels ++ [labelOf host dayOffset],
                       values ++ [fallbackValue r]))
               ([], []))
            (fun arrays => ret {| labels := arrays.1; data := arrays.2 |}) s).
  unfold bind at 1. rewrite for_days_series. reflexivity.
Qed.

Lemma getFiatCurrencyHistoricalData_simulated fromCurrency toCurrency s table :
  rateTable host fromCurrency = Some table ->
  getFiatCurrencyHistoricalData host fromCurrency toCurrency s
  = (Returned {| labels := thirtyDays host;
                 data := map (simulatedValue (toNumber (entry table toCurrency)))
                             (nextDraws host s 30) |},
     set_draws (draws s + 30)
       (set_requests (requests s ++ [exchangeRateAPI +:+ fromCurrency]) s)).
Proof.
  intros Htable.
  unfold getFiatCurrencyHistoricalData, try_catch. unfold bind at 1.
  rewrite (getFiatToFiatExchangeRate_table _ _ _ table Htable).
  change (bind (for_days 30 _ ([], [])) _)
    with (bind
            (for_days 30
               (fun dayOffset '(dateLabels, values) =>
                  r <- Math_random host ;;
                  ret (dateLabels ++ [labelOf host dayOffset],
                       values ++ [simulatedValue (toNumber (entry table toCurrency)) r]))
               ([], []))
            (fun arrays => ret {| labels := arrays.1; data := arrays.2 |})).
  unfold bind at 1. rewrite for_days_series. reflexivity.
Qed.

Lemma getFiatCurrencyHistoricalData_fallback fromCurrency toCurrency s :
  rateTable host fromCurrency = None ->
  getFiatCurrencyHistoricalData host fromCurrency toCurrency s
  = (Returned {| labels := thirtyDays host;
                 data := map fallbackValue (nextDraws host s 30) |},
     set_draws (draws s + 30)
       (set_requests (requests s ++ [exchangeRateAPI +:+ fromCurrency]) s)).
Proof.
  intros Htable.
  destruct (getFiatToFiatExchangeRate_no_table fromCurrency toCurrency s Htable)
    as (e & Hthrown).
  unfold getFiatCurrencyHistoricalData, try_catch. unfold bind at 1.
  rewrite Hthrown. rewrite generateFallbackChartData_run. reflexivity.
Qed.

Lemma getCryptocurrencyHistoricalData_history cryptoCurrency targetCurrency
    isInverse s priceData :
  historyOf host s cryptoCurrency = Some priceData ->
  getCryptocurrencyHistoricalData host cryptoCurrency targetCurrency isInverse s
  = (Returned
       {| labels := map (fun pricePoint => timestampLabel host pricePoint.1) priceData;
          data := map (fun pricePoint =>
                         if isInverse then (lit 1 / pricePoint.2)%num
                         else pricePoint.2) priceData |},
     set_requests
       (requests s
        ++ [chartURL (toString (cryptoIdMap s !! toUpperCase cryptoCurrency))]) s).
Proof.
  unfold historyOf, dailyPrices. intros Hhistory.
  destruct (cryptoIdMap s !! toUpperCase cryptoCurrency) as [id |] eqn:Hid;
    [| discriminate].
  destruct (truthy (Some id)) eqn:Htruthy; [| discriminate].
  destruct (respond host (chartURL id)) as [| r] eqn:Hrespond; [discriminate |].
  destruct (ok r) eqn:Hok; [| discriminate].
  destruct (json r) as [[| | | [prices |]] |] eqn:Hjson; try discriminate.
  injection Hhistory as ->.
  unfold getCryptocurrencyHistoricalData, try_catch. unfold bind at 1.
  rewrite getCryptoId_run, Hid, Htruthy. cbn [negb toString].
  fold (chartURL id). unfold bind, fetch, response_json.
  rewrite Hrespond. cbn. rewrite Hok, Hjson. cbn.
  destruct isInverse; cbn; [rewrite !map_map |]; reflexivity.
Qed.

Lemma getCryptocurrencyHistoricalData_no_history cryptoCurrency targetCurrency
    isInverse s :
  historyOf host s cryptoCurrency = None ->
  exists e s',
    getCryptocurrencyHistoricalData host cryptoCurrency targetCurrency isInverse s
    = (Thrown e, s').
Proof.
  unfold historyOf, dailyPrices. intros Hhistory.
  unfold getCryptocurrencyHistoricalData, try_catch. unfold bind at 1.
  rewrite getCryptoId_run.
  destruct (cryptoIdMap s !! toUpperCase cryptoCurrency) as [id |] eqn:Hid;
    [| cbn; eauto].
  destruct (truthy (Some id)) eqn:Htruthy; [| cbn; eauto].
  cbn [negb toString]. fold (chartURL id). unfold bind, fetch, response_json.
  destruct (respond host (chartURL id)) as [| r] eqn:Hrespond; [cbn; eauto |].
  cbn. destruct (ok r) eqn:Hok; [| cbn; eauto].
  cbn. destruct (json r) as [[| | | [prices |]] |] eqn:Hjson;
    try discriminate; cbn; eauto.
Qed.

(** *** The chart *)

Lemma displayPriceChart_built fromCurrency toCurrency s series s2 :
  buildSeries host (kindOf (from_currency s)) (kindOf (to_currency s))
    fromCurrency toCurrency (charting s) = (Returned series, s2) ->
  exists s',
    displayPriceChart host fromCurrency toCurrency s = (Returned tt, s')
    /\ priceChart s' = Some series
    /\ canvas_shown (chart_container s') = true
    /\ requests s' = requests s2
    /\ draws s' = draws s2.
Proof.
  intros Hbuild.
  unfold displayPriceChart, try_catch, showChartLoadingIndicator.
  unfold bind at 1 2 3 4. unfold modify at 1 2, get at 1.
  cbn [from_currency to_currency set_chart_container chart_container
       container_shown heading canvas_shown chart_loading chart_error].
  change (buildSeries host ?f ?t fromCurrency toCurrency _)
    with (buildSeries host (kindOf (from_currency s)) (kindOf (to_currency s))
            fromCurrency toCurrency (charting s)).
  rewrite Hbuild.
  unfold hideChartLoadingIndicator, createPriceChart, bind, modify.
  eexists. split; [reflexivity |]. cbn. auto.
Qed.

Lemma displayPriceChart_failed fromCurrency toCurrency s e s2 :
  buildSeries host (kindOf (from_currency s)) (kindOf (to_currency s))
    fromCurrency toCurrency (charting s) = (Thrown e, s2) ->
  exists s',
    displayPriceChart host fromCurrency toCurrency s = (Returned tt, s')
    /\ priceChart s' = priceChart s
    /\ canvas_shown (chart_container s') = false
    /\ chart_error (chart_container s') = Some (chartErrorMessage, true)
    /\ requests s' = requests s2.
Proof.
  intros Hbuild.
  pose proof (buildSeries_keeps (kindOf (from_currency s)) (kindOf (to_currency s))
                fromCurrency toCurrency (charting s)) as Hkeep.
  rewrite Hbuild in Hkeep. destruct Hkeep as (_ & Hchart & _).
  unfold displayPriceChart, try_catch, showChartLoadingIndicator.
  unfold bind at 1 2 3 4. unfold modify at 1 2, get at 1.
  cbn [from_currency to_currency set_chart_container chart_container
       container_shown heading canvas_shown chart_loading chart_error].
  change (buildSeries host ?f ?t fromCurrency toCurrency _)
    with (buildSeries host (kindOf (from_currency s)) (kindOf (to_currency s))
            fromCurrency toCurrency (charting s)).
  rewrite Hbuild.
  unfold hideChartLoadingIndicator, showChartError, bind, modify.
  eexists. split; [reflexivity |]. cbn. cbn in Hchart. auto.
Qed.

(** *** Validation of the amount *)

(** C10, as amended: with both currencies selected, an amount text that
    [parseFloat] reads as NaN is rejected by [convertCurrency] exactly as a
    non-positive amount is: both runs are the run of [showError] with the
    invalid-amount message, which sends no request and changes nothing but
    the message shown and the submit control, which it enables. *)
Theorem convertCurrency_unparsable_amount (s : State num) :
  truthy (selectedCode (from_currency s)) = true ->
  truthy (selectedCode (to_currency s)) = true ->
  n_isNaN (parseFloat (amount s) : num) = true ->
  convertCurrency host s = showError host invalidAmountMessage s
  /\ (exists s', convertCurrency host s = (Returned tt, s')
                 /\ errorShown (hasSwal host) invalidAmountMessage s s')
  /\ (forall s0 : State num,
        truthy (selectedCode (from_currency s0)) = true ->
        truthy (selectedCode (to_currency s0)) = true ->
        ((parseFloat (amount s0) : num) <=? lit 0)%num = true ->
        convertCurrency host s0 = showError host invalidAmountMessage s0).
Proof.
  intros Hfrom Hto Hnan.
  assert (Hrun : convertCurrency host s = showError host invalidAmountMessage s).
  { unfold convertCurrency, bind at 1, get, falsy.
    rewrite Hfrom, Hto, Hnan. reflexivity. }
  split; [exact Hrun | split].
  - destruct (showError_spec invalidAmountMessage s) as (s' & Hs' & Hshown).
    exists s'. split; [congruence | exact Hshown].
  - intros s0 Hfrom0 Hto0 Hle.
    unfold convertCurrency, bind at 1, get.
    rewrite Hfrom0, Hto0, Hle, orb_true_r. reflexivity.
Qed.

End Facts.

(** A page with USD and EUR selected and the text [abc] in the amount field,
    against a network that is down. *)
Lemma convertCurrency_unparsable_amount_witness :
  convertCurrency (ex_host ex_offline (lit 0.5)) ex_abc
  = showError (ex_host ex_offline (lit 0.5)) invalidAmountMessage ex_abc
  /\ (exists s', convertCurrency (ex_host ex_offline (lit 0.5)) ex_abc = (Returned tt, s')
                 /\ errorShown true invalidAmountMessage ex_abc s')
  /\ (forall s0 : State float,
        truthy (selectedCode (from_currency s0)) = true ->
        truthy (selectedCode (to_currency s0)) = true ->
        ((parseFloat (amount s0) : float) <=? lit 0)%num = true ->
        convertCurrency (ex_host ex_offline (lit 0.5)) s0
        = showError (ex_host ex_offline (lit 0.5)) invalidAmountMessage s0).
Proof.
  exact (convertCurrency_unparsable_amount (ex_host ex_offline (lit 0.5)) ex_abc
           eq_refl eq_refl eq_refl).
Defined.

(** C10 as stated fails when a currency is not selected: the text [abc] does
    not parse, yet the message shown is the one asking for both currencies. *)
Lemma convertCurrency_unparsable_amount_counterexample :
  n_isNaN (parseFloat (amount ex_abc_unselected) : float) = true
  /\ exists s',
       convertCurrency (ex_host ex_offline (lit 0.5)) ex_abc_unselected
       = (Returned tt, s')
       /\ swal s' = Some (errorPopup selectBothMessage)
       /\ swal s' <> Some (errorPopup invalidAmountMessage).
Proof.
  split; [reflexivity |].
  eexists. split; [vm_compute; reflexivity |].
  split; [reflexivity | discriminate].
Qed.

(** *** The fiat to fiat scenario *)

(** C1: on the fiat to fiat path the rate is the entry for the target code in
    the table fetched for the source code, and the panel shows the amount
    times that rate; with 100 USD and the table [{ EUR: 0.9 }], in binary64,
    that is the rate 0.9 and the amount 90. *)
Theorem fiat_to_fiat_conversion :
  (forall (num : Type) (N : Number num) (host : Host num) (s : State num)
          (fromCode toCode : string) (r : Response num) (table : gmap string num),
      accepted s ->
      selectedCode (from_currency s) = Some fromCode ->
      selectedCode (to_currency s) = Some toCode ->
      selectedType (from_currency s) = Some "fiat" ->
      selectedType (to_currency s) = Some "fiat" ->
      respond host (exchangeRateAPI +:+ fromCode) = Responded r ->
      ok r = true ->
      json r = Some (RatesBody (Some table)) ->
      resolve host (Some "fiat") (Some "fiat") fromCode toCode (loading host s)
      = (Returned (entry table toCode),
         set_requests (requests s ++ [exchangeRateAPI +:+ fromCode]) (loading host s))
      /\ exists s' dataSources,
           convertCurrency host s = (Returned tt, s')
           /\ result s' = conversionPanel (parseFloat (amount s)) fromCode toCode
                            (entry table toCode) dataSources
           /\ requests s ++ [exchangeRateAPI +:+ fromCode] `prefix_of` requests s')
  /\ exists s' dataSources,
       convertCurrency (ex_host ex_usdTable (lit 0.5)) ex_usd_eur_100
       = (Returned tt, s')
       /\ innerHTML (result s')
          = ConversionResult (lit 100) "USD" (lit 90) "EUR" (VNumber (lit 0.9))
              dataSources.
Proof.
  split.
  - intros num N host s fromCode toCode r table.
    apply fiat_to_fiat_resolved.
  - eexists. eexists. split; [vm_compute; reflexivity | reflexivity].
Qed.

Lemma fiat_to_fiat_conversion_witness :
  exists s' dataSources,
    convertCurrency (ex_host ex_usdTable (lit 0.5)) ex_usd_eur_100 = (Returned tt, s')
    /\ result s' = conversionPanel (lit 100) "USD" "EUR" (VNumber (lit 0.9)) dataSources
    /\ [exchangeRateAPI +:+ "USD"] `prefix_of` requests s'.
Proof.
  exact (proj2 (proj1 fiat_to_fiat_conversion float _
                  (ex_host ex_usdTable (lit 0.5)) ex_usd_eur_100 "USD" "EUR"
                  {| status := 200; json := Some (RatesBody (Some {[ "EUR" := lit 0.9 ]})) |}
                  {[ "EUR" := lit 0.9 ]}
                  (conj eq_refl (conj eq_refl (conj eq_refl (conj eq_refl eq_refl))))
                  eq_refl eq_refl eq_refl eq_refl eq_refl eq_refl eq_refl)).
Defined.

(** *** Mixed kinds *)

(** C2: a pair of mixed kinds is resolved through USD.  Fiat to crypto gives
    [1 / price] when the fiat is USD and otherwise [usdRate / price], with
    [usdRate] the USD entry of the table quoted against the fiat; crypto to
    fiat gives [price] when the fiat is USD and otherwise
    [price * table[to]] on the table quoted against USD.  With bitcoin at
    60000 USD, BTC to USD has the rate 60000. *)
Theorem mixed_kind_rates :
  (forall (num : Type) (N : Number num) (host : Host num) (s : State num)
          (toCrypto : string) (r : Response num) entries (price : num),
      respond host (priceURL (resolvedId s (to_currency s) toCrypto)) = Responded r ->
      json r = Some (PricesBody entries) ->
      entries !! resolvedId s (to_currency s) toCrypto = Some (Some price) ->
      resolve host (Some "fiat") (Some "crypto") "USD" toCrypto s
      = (Returned (VNumber (lit 1 / price)%num),
         set_requests
           (requests s ++ [priceURL (resolvedId s (to_currency s) toCrypto)]) s))
  /\ (forall (num : Type) (N : Number num) (host : Host num) (s : State num)
             (fromFiat toCrypto : string) (r r' : Response num) entries table
             (price usdRate : num),
        String.eqb fromFiat "USD" = false ->
        respond host (priceURL (resolvedId s (to_currency s) toCrypto)) = Responded r ->
        json r = Some (PricesBody entries) ->
        entries !! resolvedId s (to_currency s) toCrypto = Some (Some price) ->
        respond host (exchangeRateAPI +:+ fromFiat) = Responded r' ->
        json r' = Some (RatesBody (Some table)) ->
        table !! "USD" = Some usdRate ->
        resolve host (Some "fiat") (Some "crypto") fromFiat toCrypto s
        = (Returned (VNumber (usdRate / price)%num),
           set_requests
             (requests s ++ [priceURL (resolvedId s (to_currency s) toCrypto);
                             exchangeRateAPI +:+ fromFiat]) s))
  /\ (forall (num : Type) (N : Number num) (host : Host num) (s : State num)
             (fromCrypto : string) (r : Response num) entries (price : num),
        respond host (priceURL (resolvedId s (from_currency s) fromCrypto))
        = Responded r ->
        json r = Some (PricesBody entries) ->
        entries !! resolvedId s (from_currency s) fromCrypto = Some (Some price) ->
        resolve host (Some "crypto") (Some "fiat") fromCrypto "USD" s
        = (Returned (VNumber price),
           set_requests
             (requests s ++ [priceURL (resolvedId s (from_currency s) fromCrypto)]) s))
  /\ (forall (num : Type) (N : Number num) (host : Host num) (s : State num)
             (fromCrypto toFiat : string) (r r' : Response num) entries table
             (price rate : num),
        String.eqb toFiat "USD" = false ->
        respond host (priceURL (resolvedId s (from_currency s) fromCrypto))
        = Responded r ->
        json r = Some (PricesBody entries) ->
        entries !! resolvedId s (from_currency s) fromCrypto = Some (Some price) ->
        respond host (exchangeRateAPI +:+ "USD") = Responded r' ->
        json r' = Some (RatesBody (Some table)) ->
        table !! toFiat = Some rate ->
        resolve host (Some "crypto") (Some "fiat") fromCrypto toFiat s
        = (Returned (VNumber (price * rate)%num),
           set_requests
             (requests s ++ [priceURL (resolvedId s (from_currency s) fromCrypto);
                             exchangeRateAPI +:+ "USD"]) s))
  /\ exists s' dataSources,
       convertCurrency (ex_host ex_market (lit 0.5)) (ex_pair ex_BTC ex_USD)
       = (Returned tt, s')
       /\ innerHTML (result s')
          = ConversionResult (lit 1) "BTC" (lit 60000) "USD" (VNumber (lit 60000))
              dataSources.
Proof.
  split; [| split; [| split; [| split]]].
  - intros. unfold resolve. cbn [str_is String.eqb Ascii.eqb Bool.eqb andb].
    eapply getFiatToCryptoExchangeRate_usd; eassumption.
  - intros. unfold resolve. cbn [str_is String.eqb Ascii.eqb Bool.eqb andb].
    eapply getFiatToCryptoExchangeRate_other; eassumption.
  - intros. unfold resolve. cbn [str_is String.eqb Ascii.eqb Bool.eqb andb].
    eapply getCryptoToFiatExchangeRate_usd; eassumption.
  - intros. unfold resolve. cbn [str_is String.eqb Ascii.eqb Bool.eqb andb].
    eapply getCryptoToFiatExchangeRate_other; eassumption.
  - eexists. eexists. split; [vm_compute; reflexivity | reflexivity].
Qed.

Lemma mixed_kind_rates_witness :
  (resolve (ex_host ex_market (lit 0.5)) (Some "fiat") (Some "crypto") "USD" "BTC"
     (ex_pair ex_USD ex_BTC)).1
  = Returned (VNumber (lit 1 / lit 60000)%num)
  /\ (resolve (ex_host ex_market (lit 0.5)) (Some "fiat") (Some "crypto") "GBP" "BTC"
        (ex_pair ex_GBP ex_BTC)).1
     = Returned (VNumber (lit 1.25 / lit 60000)%num)
  /\ (resolve (ex_host ex_market (lit 0.5)) (Some "crypto") (Some "fiat") "BTC" "USD"
        (ex_pair ex_BTC ex_USD)).1
     = Returned (VNumber (lit 60000))
  /\ (resolve (ex_host ex_market (lit 0.5)) (Some "crypto") (Some "fiat") "BTC" "EUR"
        (ex_pair ex_BTC ex_EUR)).1
     = Returned (VNumber (lit 60000 * lit 0.9)%num).
Proof.
  destruct mixed_kind_rates as (Husd & Hother & Husd' & Hother' & _).
  pose (prices := {| status := 200%Z;
                     json := Some (PricesBody ({[ "bitcoin" := Some (lit 60000) ]}
                                               : gmap string (option float))) |}).
  pose (usd := {| status := 200%Z;
                  json := Some (RatesBody (Some ({[ "EUR" := lit 0.9 ]}
                                                 : gmap string float))) |}).
  pose (gbp := {| status := 200%Z;
                  json := Some (RatesBody (Some ({[ "USD" := lit 1.25 ]}
                                                 : gmap string float))) |}).
  split; [| split; [| split]].
  - exact (f_equal fst
             (Husd float _ (ex_host ex_market (lit 0.5)) (ex_pair ex_USD ex_BTC)
                "BTC" prices _ (lit 60000) eq_refl eq_refl eq_refl)).
  - exact (f_equal fst
             (Hother float _ (ex_host ex_market (lit 0.5)) (ex_pair ex_GBP ex_BTC)
                "GBP" "BTC" prices gbp _ _ (lit 60000) (lit 1.25)
                eq_refl eq_refl eq_refl eq_refl eq_refl eq_refl eq_refl)).
  - exact (f_equal fst
             (Husd' float _ (ex_host ex_market (lit 0.5)) (ex_pair ex_BTC ex_USD)
                "BTC" prices _ (lit 60000) eq_refl eq_refl eq_refl)).
  - exact (f_equal fst
             (Hother' float _ (ex_host ex_market (lit 0.5)) (ex_pair ex_BTC ex_EUR)
                "BTC" "EUR" prices usd _ _ (lit 60000) (lit 0.9)
                eq_refl eq_refl eq_refl eq_refl eq_refl eq_refl eq_refl)).
Defined.

(** *** Reciprocal rates *)





(** *** The historical series *)

(** C4, as amended: when neither currency is crypto the series has exactly
    30 points, labelled with the thirty days ending today, oldest first,
    whether its values are simulated from the live rate or are the fallback;
    when a currency is crypto, the series, if one is returned, has one point
    per sample of the provider's daily series, in the provider's order, and
    otherwise the failure is thrown. *)
Theorem series_points :
  (forall (num : Type) (N : Number num) (host : Host num) (s : State num)
          (fromType toType : option string) (fromCurrency toCurrency : string),
      str_is fromType "crypto" = false ->
      str_is toType "crypto" = false ->
      exists series s',
        buildSeries host fromType toType fromCurrency toCurrency s
        = (Returned series, s')
        /\ labels series = thirtyDays host
        /\ length (labels series) = 30
        /\ length (data series) = 30)
  /\ (forall (num : Type) (N : Number num) (host : Host num) (s : State num)
             (fromType toType : option string) (fromCurrency toCurrency : string),
        str_is fromType "crypto" = true \/ str_is toType "crypto" = true ->
        let cryptoCurrency :=
          if str_is fromType "crypto" then fromCurrency else toCurrency in
        match (buildSeries host fromType toType fromCurrency toCurrency s).1 with
        | Returned series =>
            exists priceData,
              historyOf host s cryptoCurrency = Some priceData
              /\ labels series
                 = map (fun pricePoint => timestampLabel host pricePoint.1) priceData
              /\ length (data series) = length priceData
        | Thrown _ => historyOf host s cryptoCurrency = None
        end).
Proof.
  split.
  - intros num N host s fromType toType fromCurrency toCurrency Hfrom Hto.
    unfold buildSeries. rewrite Hfrom, Hto.
    destruct (rateTable host fromCurrency) as [table |] eqn:Htable.
    + rewrite (getFiatCurrencyHistoricalData_simulated host _ _ _ table Htable).
      eexists. eexists. split; [reflexivity |]. cbn [labels data].
      unfold nextDraws. rewrite !length_map, length_seq. auto.
    + rewrite (getFiatCurrencyHistoricalData_fallback host _ _ _ Htable).
      eexists. eexists. split; [reflexivity |]. cbn [labels data].
      unfold nextDraws. rewrite !length_map, length_seq. auto.
  - intros num N host s fromType toType fromCurrency toCurrency Hcrypto.
    unfold buildSeries.
    assert (Hcase : forall cryptoCurrency targetCurrency isInverse,
      match (getCryptocurrencyHistoricalData host cryptoCurrency targetCurrency
               isInverse s).1 with
      | Returned series =>
          exists priceData,
            historyOf host s cryptoCurrency = Some priceData
            /\ labels series
               = map (fun pricePoint => timestampLabel host pricePoint.1) priceData
            /\ length (data series) = length priceData
      | Thrown _ => historyOf host s cryptoCurrency = None
      end).
    { intros cryptoCurrency targetCurrency isInverse.
      destruct (historyOf host s cryptoCurrency) as [priceData |] eqn:Hhistory.
      - rewrite (getCryptocurrencyHistoricalData_history host _ _ _ _ priceData Hhistory).
        cbn. exists priceData. rewrite length_map. auto.
      - destruct (getCryptocurrencyHistoricalData_no_history host cryptoCurrency
                    targetCurrency isInverse s Hhistory) as (e & s' & ->).
        reflexivity. }
    destruct (str_is fromType "crypto"); [apply Hcase |].
    destruct Hcrypto as [Hfrom | Hto]; [discriminate |].
    rewrite Hto. apply Hcase.
Qed.

Lemma series_points_witness :
  (exists series s',
     buildSeries (ex_host ex_usdTable (lit 0.5)) (Some "fiat") (Some "fiat")
       "USD" "EUR" ex_usd_eur_100 = (Returned series, s')
     /\ labels series = thirtyDays (ex_host ex_usdTable (lit 0.5))
     /\ length (labels series) = 30
     /\ length (data series) = 30)
  /\ match (buildSeries (ex_host ex_history (lit 0.5)) (Some "crypto") (Some "fiat")
              "BTC" "USD" (ex_pair ex_BTC ex_USD)).1 with
     | Returned series =>
         exists priceData,
           historyOf (ex_host ex_history (lit 0.5)) (ex_pair ex_BTC ex_USD) "BTC"
           = Some priceData
           /\ labels series
              = map (fun pricePoint =>
                       timestampLabel (ex_host ex_history (lit 0.5)) pricePoint.1)
                    priceData
           /\ length (data series) = length priceData
     | Thrown _ =>
         historyOf (ex_host ex_history (lit 0.5)) (ex_pair ex_BTC ex_USD) "BTC" = None
     end.
Proof.
  destruct series_points as (Hfiat & Hcrypto).
  split.
  - exact (Hfiat float _ (ex_host ex_usdTable (lit 0.5)) ex_usd_eur_100
             (Some "fiat") (Some "fiat") "USD" "EUR" eq_refl eq_refl).
  - exact (Hcrypto float _ (ex_host ex_history (lit 0.5)) (ex_pair ex_BTC ex_USD)
             (Some "crypto") (Some "fiat") "BTC" "USD" (or_introl eq_refl)).
Defined.

(** C4 as stated fails on the crypto path: for a provider that sends 31 daily
    samples the series has 31 points, and when the network is down no series
    is returned at all. *)
Lemma series_points_counterexample :
  (exists series s',
     buildSeries (ex_host ex_history (lit 0.5)) (Some "crypto") (Some "fiat")
       "BTC" "USD" (ex_pair ex_BTC ex_USD) = (Returned series, s')
     /\ length (labels series) = 31
     /\ length (data series) = 31
     /\ length (data series) <> 30)
  /\ (buildSeries (ex_host ex_offline (lit 0.5)) (Some "crypto") (Some "fiat")
        "BTC" "USD" (ex_pair ex_BTC ex_USD)).1
     = Thrown TypeError.
Proof.
  split; [| vm_compute; reflexivity].
  eexists. eexists. split; [vm_compute; reflexivity |].
  repeat split. discriminate.
Qed.

Lemma fallbackValue_within (r : Q) :
  (0 <= r)%Q -> (r < 1)%Q ->
  exists q, fallbackValue (EFin r) = EFin q /\ (99 # 100 <= q)%Q /\ (q <= 101 # 100)%Q.
Proof.
  intros H0 H1. eexists. split; [reflexivity |]. split; lra.
Qed.

(** C5, as amended: when neither currency is crypto, any failure to obtain
    the live rate table makes the builder return the fallback series instead
    of an error: 30 points labelled with the thirty days ending today, each
    value [1 + (r - 0.5) * 0.02] for the random number [r] drawn for it,
    which in exact arithmetic is within [0.99, 1.01] for [r] in [0, 1); and
    [displayPriceChart] draws that series.  When a currency is crypto and its
    daily series cannot be obtained, [displayPriceChart] shows the error
    marker and draws nothing. *)
Theorem fallback_series :
  (forall (host : Host exact) (s : State exact) (fromType toType : option string)
          (fromCurrency toCurrency : string),
      str_is fromType "crypto" = false ->
      str_is toType "crypto" = false ->
      rateTable host fromCurrency = None ->
      (forall n, exists r, random host n = EFin r /\ (0 <= r)%Q /\ (r < 1)%Q) ->
      exists series s',
        buildSeries host fromType toType fromCurrency toCurrency s
        = (Returned series, s')
        /\ labels series = thirtyDays host
        /\ length (data series) = 30
        /\ Forall (fun v => exists q, v = EFin q
                                      /\ (99 # 100 <= q)%Q /\ (q <= 101 # 100)%Q)
                  (data series))
  /\ (forall (num : Type) (N : Number num) (host : Host num) (s : State num)
             (fromCurrency toCurrency : string),
        str_is (kindOf (from_currency s)) "crypto" = false ->
        str_is (kindOf (to_currency s)) "crypto" = false ->
        rateTable host fromCurrency = None ->
        exists s',
          displayPriceChart host fromCurrency toCurrency s = (Returned tt, s')
          /\ priceChart s'
             = Some {| labels := thirtyDays host;
                       data := map fallbackValue (nextDraws host s 30) |}
          /\ canvas_shown (chart_container s') = true)
  /\ (forall (num : Type) (N : Number num) (host : Host num) (s : State num)
             (fromCurrency toCurrency : string),
        str_is (kindOf (from_currency s)) "crypto" = true
        \/ str_is (kindOf (to_currency s)) "crypto" = true ->
        historyOf host s
          (if str_is (kindOf (from_currency s)) "crypto"
           then fromCurrency else toCurrency) = None ->
        exists s',
          displayPriceChart host fromCurrency toCurrency s = (Returned tt, s')
          /\ priceChart s' = priceChart s
          /\ canvas_shown (chart_container s') = false
          /\ chart_error (chart_container s') = Some (chartErrorMessage, true)).
Proof.
  split; [| split].
  - intros host s fromType toType fromCurrency toCurrency Hfrom Hto Htable Hrandom.
    unfold buildSeries. rewrite Hfrom, Hto.
    rewrite (getFiatCurrencyHistoricalData_fallback host _ _ _ Htable).
    eexists. eexists. split; [reflexivity |]. cbn [labels data].
    split; [reflexivity |].
    split; [unfold nextDraws; now rewrite !length_map, length_seq |].
    apply List.Forall_forall. intros v Hv.
    apply in_map_iff in Hv as (x & <- & Hx).
    unfold nextDraws in Hx. apply in_map_iff in Hx as (i & <- & _).
    destruct (Hrandom (draws s + i)) as (r & -> & H0 & H1).
    now apply fallbackValue_within.
  - intros num N host s fromCurrency toCurrency Hfrom Hto Htable.
    destruct (displayPriceChart_built host fromCurrency toCurrency s
                {| labels := thirtyDays host;
                   data := map fallbackValue (nextDraws host s 30) |}
                (set_draws (draws (charting s) + 30)
                   (set_requests (requests (charting s)
                                  ++ [exchangeRateAPI +:+ fromCurrency])
                      (charting s))))
      as (s' & Hrun & Hchart & Hcanvas & _).
    { unfold buildSeries. rewrite Hfrom, Hto.
      now rewrite (getFiatCurrencyHistoricalData_fallback host _ _ _ Htable). }
    exists s'. auto.
  - intros num N host s fromCurrency toCurrency Hcrypto Hhistory.
    assert (Hthrown : exists e s2,
      buildSeries host (kindOf (from_currency s)) (kindOf (to_currency s))
        fromCurrency toCurrency (charting s) = (Thrown e, s2)).
    { unfold buildSeries.
      destruct (str_is (kindOf (from_currency s)) "crypto").
      - now apply getCryptocurrencyHistoricalData_no_history.
      - destruct Hcrypto as [Hfrom | Hto]; [discriminate |]. rewrite Hto.
        now apply getCryptocurrencyHistoricalData_no_history. }
    destruct Hthrown as (e & s2 & Hthrown).
    destruct (displayPriceChart_failed host fromCurrency toCurrency s e s2 Hthrown)
      as (s' & Hrun & Hchart & Hcanvas & Herror & _).
    exists s'. auto.
Qed.

Lemma fallback_series_witness :
  (exists series s',
     buildSeries (ex_host ex_offline (EFin 0.25)) (Some "fiat") (Some "fiat")
       "USD" "EUR" (ex_pair_exact ex_USD ex_EUR) = (Returned series, s')
     /\ labels series = thirtyDays (ex_host ex_offline (EFin 0.25))
     /\ length (data series) = 30
     /\ Forall (fun v => exists q, v = EFin q
                                   /\ (99 # 100 <= q)%Q /\ (q <= 101 # 100)%Q)
               (data series))
  /\ (exists s',
        displayPriceChart (ex_host ex_offline (lit 0.25)) "USD" "EUR"
          (ex_pair ex_USD ex_EUR) = (Returned tt, s')
        /\ priceChart s'
           = Some {| labels := thirtyDays (ex_host ex_offline (lit 0.25));
                     data := map fallbackValue
                               (nextDraws (ex_host ex_offline (lit 0.25))
                                  (ex_pair ex_USD ex_EUR) 30) |}
        /\ canvas_shown (chart_container s') = true)
  /\ (exists s',
        displayPriceChart (ex_host ex_offline (lit 0.25)) "BTC" "USD"
          (ex_pair ex_BTC ex_USD) = (Returned tt, s')
        /\ priceChart s' = priceChart (ex_pair ex_BTC ex_USD)
        /\ canvas_shown (chart_container s') = false
        /\ chart_error (chart_container s') = Some (chartErrorMessage, true)).
Proof.
  destruct fallback_series as (Hwithin & Hdrawn & Hmarker).
  split; [| split].
  - apply (Hwithin (ex_host ex_offline (EFin 0.25)) (ex_pair_exact ex_USD ex_EUR)
             (Some "fiat") (Some "fiat") "USD" "EUR"); try reflexivity.
    intros n. exists 0.25%Q. split; [reflexivity |]. split; [discriminate | reflexivity].
  - apply (Hdrawn float _ (ex_host ex_offline (lit 0.25)) (ex_pair ex_USD ex_EUR)
             "USD" "EUR"); reflexivity.
  - apply (Hmarker float _ (ex_host ex_offline (lit 0.25)) (ex_pair ex_BTC ex_USD)
             "BTC" "USD"); [left |]; reflexivity.
Defined.

(** C5 as stated fails on the crypto path: with the network down and bitcoin
    as the source, the builder throws, and [displayPriceChart] shows the
    error marker and draws no chart. *)
Lemma fallback_series_counterexample :
  (buildSeries (ex_host ex_offline (lit 0.25)) (Some "crypto") (Some "fiat")
     "BTC" "USD" (charting (ex_pair ex_BTC ex_USD))).1
  = Thrown TypeError
  /\ exists s',
       displayPriceChart (ex_host ex_offline (lit 0.25)) "BTC" "USD"
         (ex_pair ex_BTC ex_USD) = (Returned tt, s')
       /\ priceChart s' = None
       /\ canvas_shown (chart_container s') = false
       /\ chart_error (chart_container s') = Some (chartErrorMessage, true).
Proof.
  split; [vm_compute; reflexivity |].
  eexists. split; [vm_compute; reflexivity |]. cbn. auto.
Qed.

(** *** Orientation of the crypto series *)

(** C6: with a fiat source and a crypto target the chart is drawn from the
    daily USD prices of the target with every value inverted, [1 / price];
    with a crypto source it is drawn from the daily USD prices of the source
    as they are.  The labels are those of the samples' dates. *)
Theorem crypto_series_orientation :
  (forall (num : Type) (N : Number num) (host : Host num) (s : State num)
          (fromCurrency toCurrency : string) (priceData : list (num * num)),
      selectedType (from_currency s) = Some "fiat" ->
      selectedType (to_currency s) = Some "crypto" ->
      historyOf host s toCurrency = Some priceData ->
      exists s',
        displayPriceChart host fromCurrency toCurrency s = (Returned tt, s')
        /\ priceChart s'
           = Some {| labels := map (fun pricePoint => timestampLabel host pricePoint.1)
                                   priceData;
                     data := map (fun pricePoint => (lit 1 / pricePoint.2)%num)
                                 priceData |})
  /\ (forall (num : Type) (N : Number num) (host : Host num) (s : State num)
             (fromCurrency toCurrency : string) (priceData : list (num * num)),
        selectedType (from_currency s) = Some "crypto" ->
        historyOf host s fromCurrency = Some priceData ->
        exists s',
          displayPriceChart host fromCurrency toCurrency s = (Returned tt, s')
          /\ priceChart s'
             = Some {| labels := map (fun pricePoint => timestampLabel host pricePoint.1)
                                     priceData;
                       data := map (fun pricePoint => pricePoint.2) priceData |}).
Proof.
  split.
  - intros num N host s fromCurrency toCurrency priceData Hfrom Hto Hhistory.
    edestruct (displayPriceChart_built host fromCurrency toCurrency s)
      as (s' & Hrun & Hchart & _).
    { unfold buildSeries, kindOf. rewrite Hfrom, Hto.
      cbn [or_else truthy String.eqb negb str_is Ascii.eqb Bool.eqb].
      apply (getCryptocurrencyHistoricalData_history host toCurrency fromCurrency
               true (charting s) priceData Hhistory). }
    exists s'. split; [exact Hrun | exact Hchart].
  - intros num N host s fromCurrency toCurrency priceData Hfrom Hhistory.
    edestruct (displayPriceChart_built host fromCurrency toCurrency s)
      as (s' & Hrun & Hchart & _).
    { unfold buildSeries, kindOf. rewrite Hfrom.
      cbn [or_else truthy String.eqb negb str_is Ascii.eqb Bool.eqb].
      apply (getCryptocurrencyHistoricalData_history host fromCurrency toCurrency
               false (charting s) priceData Hhistory). }
    exists s'. split; [exact Hrun | exact Hchart].
Qed.

Lemma crypto_series_orientation_witness :
  (exists s',
     displayPriceChart (ex_host ex_history (lit 0.5)) "USD" "BTC"
       (ex_pair ex_USD ex_BTC) = (Returned tt, s')
     /\ priceChart s'
        = Some {| labels := repeat "" 31;
                  data := repeat (lit 1 / lit 60000)%num 31 |})
  /\ (exists s',
        displayPriceChart (ex_host ex_history (lit 0.5)) "BTC" "USD"
          (ex_pair ex_BTC ex_USD) = (Returned tt, s')
        /\ priceChart s'
           = Some {| labels := repeat "" 31; data := repeat (lit 60000) 31 |}).
Proof.
  destruct crypto_series_orientation as (Hinverted & Hplain).
  split.
  - exact (Hinverted float _ (ex_host ex_history (lit 0.5)) (ex_pair ex_USD ex_BTC)
             "USD" "BTC" _ eq_refl eq_refl eq_refl).
  - exact (Hplain float _ (ex_host ex_history (lit 0.5)) (ex_pair ex_BTC ex_USD)
             "BTC" "USD" _ eq_refl eq_refl).
Defined.

(** *** Autocomplete *)

Lemma itemsOf_app (nodes nodes' : list Node) :
  itemsOf (nodes ++ nodes') = itemsOf nodes ++ itemsOf nodes'.
Proof.
  induction nodes as [| [text | item | query] nodes IH]; cbn; congruence.
Qed.

Lemma itemsOf_items (currencies : list Currency) :
  itemsOf (map createAutocompleteItem currencies) = map itemOf currencies.
Proof.
  induction currencies as [| c currencies IH]; cbn; [reflexivity |].
  now rewrite IH.
Qed.

Lemma take_min_length {A : Type} (l : list A) (n : nat) :
  take (length l `min` n) l = take n l.
Proof.
  destruct (Nat.le_gt_cases n (length l)) as [Hle | Hgt].
  - now rewrite Nat.min_r.
  - rewrite Nat.min_l by lia. rewrite !take_ge by lia. reflexivity.
Qed.

Lemma itemsOf_section (header : string) (currencies : list Currency) :
  itemsOf (groupSection header currencies) = map itemOf currencies.
Proof.
  destruct currencies as [| c currencies]; [reflexivity |].
  unfold groupSection. cbn [itemsOf]. apply itemsOf_items.
Qed.

Lemma take_nonempty {A : Type} (l : list A) (n : nat) :
  (0 <? length l)%nat = true -> 0 < n -> take n l <> [].
Proof.
  intros Hl Hn. apply Nat.ltb_lt in Hl.
  destruct l as [| x l]; [cbn in Hl; lia |]. destruct n; [lia | discriminate].
Qed.

Lemma groupSection_nonempty (header : string) (currencies : list Currency) :
  currencies <> [] ->
  groupSection header currencies
  = GroupHeader header :: map createAutocompleteItem currencies.
Proof. destruct currencies; [congruence | reflexivity]. Qed.

(** What [renderCurrencyGroups] appends: the section of the first 15 fiat
    currencies, then the section of the crypto currencies up to a total of
    30. *)
Lemma renderCurrencyGroups_children (listEl : ListEl) (currencies : list Currency) :
  children (renderCurrencyGroups listEl currencies)
  = children listEl
    ++ groupSection fiatHeader (take 15 (ofKind "fiat" currencies))
    ++ groupSection cryptoHeader
         (take (30 - length (take 15 (ofKind "fiat" currencies)))
               (ofKind "crypto" currencies)).
Proof.
  unfold renderCurrencyGroups, ofKind.
  set (fiat := filter (fun c => type c = "fiat") currencies).
  set (crypto := filter (fun c => type c = "crypto") currencies).
  assert (Hfiat : take ((length fiat `min` (30 - 0)) `min` 15) fiat = take 15 fiat).
  { rewrite <- Nat.min_assoc. apply take_min_length. }
  rewrite Hfiat. clear Hfiat.
  assert (Hshown : length (take 15 fiat) <= 15) by (rewrite length_take; lia).
  assert (Hempty : forall l : list Currency, (0 <? length l)%nat = false -> l = []).
  { intros l Hl. apply Nat.ltb_ge in Hl. apply nil_length_inv. lia. }
  change (0 <? 30)%nat with true. rewrite andb_true_r.
  destruct (0 <? length fiat)%nat eqn:Hf; cbv beta iota zeta.
  - replace (0 + length (take 15 fiat) <? 30)%nat with true
      by (symmetry; apply Nat.ltb_lt; lia).
    rewrite andb_true_r. cbn [Nat.add].
    rewrite (groupSection_nonempty fiatHeader (take 15 fiat))
      by (apply take_nonempty; [exact Hf | lia]).
    destruct (0 <? length crypto)%nat eqn:Hc.
    + rewrite take_min_length.
      rewrite (groupSection_nonempty cryptoHeader)
        by (apply take_nonempty; [exact Hc | lia]).
      cbn [appendChildren children]. rewrite <- !app_assoc. reflexivity.
    + rewrite (Hempty crypto Hc), take_nil.
      cbn [appendChildren children groupSection].
      rewrite <- !app_assoc, app_nil_r. reflexivity.
  - rewrite (Hempty fiat Hf), take_nil. cbn [length app Nat.sub groupSection].
    change (0 <? 30)%nat with true. rewrite andb_true_r.
    destruct (0 <? length crypto)%nat eqn:Hc.
    + rewrite take_min_length.
      rewrite (groupSection_nonempty cryptoHeader)
        by (apply take_nonempty; [exact Hc | lia]).
      cbn [appendChildren children]. rewrite <- !app_assoc. reflexivity.
    + rewrite (Hempty crypto Hc), take_nil. cbn [groupSection].
      now rewrite app_nil_r.
Qed.

(** C8: for a non-empty query the items rendered are the first 15 fiat
    matches followed by crypto matches up to a total of 30, each group in the
    order of the catalogue; when there are matches the list consists of the
    fiat section followed by the crypto section, each under its header. *)
Theorem autocomplete_groups :
  forall (num : Type) (s : State num) (query : string) (listEl : ListEl),
    query <> "" ->
    let matches := matchesOf (allCurrencies s) query in
    let fiat := take 15 (ofKind "fiat" matches) in
    let crypto := take (30 - length fiat) (ofKind "crypto" matches) in
    itemsOf (children (showAutocompleteResults s query listEl))
    = map itemOf (fiat ++ crypto)
    /\ (matches <> [] ->
        children (showAutocompleteResults s query listEl)
        = groupSection fiatHeader fiat ++ groupSection cryptoHeader crypto)
    /\ length fiat <= 15
    /\ length (fiat ++ crypto) <= 30
    /\ Forall (fun c => type c = "fiat") fiat
    /\ Forall (fun c => type c = "crypto") crypto
    /\ fiat `sublist_of` allCurrencies s
    /\ crypto `sublist_of` allCurrencies s.
Proof.
  intros num s query listEl Hquery matches fiat crypto.
  assert (Hfiat : length fiat <= 15) by (unfold fiat; rewrite length_take; lia).
  assert (Hcrypto : length crypto <= 30 - length fiat)
    by (unfold crypto; rewrite length_take; lia).
  assert (Hchildren : matches <> [] ->
    children (showAutocompleteResults s query listEl)
    = groupSection fiatHeader fiat ++ groupSection cryptoHeader crypto).
  { intros Hsome. unfold showAutocompleteResults.
    destruct query as [| c query]; [congruence |].
    cbn [String.length Nat.eqb Nat.leb].
    fold (matchesOf (allCurrencies s) (String c query)). fold matches.
    destruct (length (allCurrencies s) =? 0)%nat eqn:Hnone.
    - apply Nat.eqb_eq, nil_length_inv in Hnone.
      unfold matches, matchesOf in Hsome. rewrite Hnone in Hsome. now cbn in Hsome.
    - replace (0 <? length matches)%nat with true
        by (symmetry; apply Nat.ltb_lt; destruct matches; [congruence | cbn; lia]).
      cbn [set_show children]. rewrite renderCurrencyGroups_children. reflexivity. }
  split; [| split; [exact Hchildren |
                    split; [exact Hfiat | split; [rewrite length_app; lia |]]]].
  - destruct (decide (matches = [])) as [Hnil | Hsome].
    + unfold showAutocompleteResults.
      destruct query as [| c query]; [congruence |].
      cbn [String.length Nat.eqb Nat.leb].
      fold (matchesOf (allCurrencies s) (String c query)). fold matches.
      unfold fiat, crypto, ofKind. rewrite Hnil.
      cbn [filter list_filter length Nat.ltb Nat.leb]. rewrite !take_nil.
      destruct (length (allCurrencies s) =? 0)%nat; [reflexivity |].
      destruct (String.length query); reflexivity.
    + rewrite (Hchildren Hsome), itemsOf_app, !itemsOf_section, map_app.
      reflexivity.
  - assert (Hsub : forall kind, ofKind kind matches `sublist_of` allCurrencies s).
    { intros kind. unfold ofKind, matches, matchesOf.
      etrans; apply sublist_filter. }
    split; [| split; [| split]].
    + unfold fiat, ofKind. apply Forall_take, List.Forall_forall.
      intros c Hc. apply list_elem_of_In, list_elem_of_filter in Hc. tauto.
    + unfold crypto, ofKind. apply Forall_take, List.Forall_forall.
      intros c Hc. apply list_elem_of_In, list_elem_of_filter in Hc. tauto.
    + unfold fiat. etrans; [apply sublist_take | apply Hsub].
    + unfold crypto. etrans; [apply sublist_take | apply Hsub].
Qed.

(** Twenty fiat currencies and one cryptocurrency match [mon]: fifteen of the
    first and the one of the second are rendered. *)
Lemma autocomplete_groups_witness :
  let s : State float :=
    ex_state ex_twenty ex_index ex_emptyInput ex_emptyInput "" in
  let matches := matchesOf (allCurrencies s) "mon" in
  let fiat := take 15 (ofKind "fiat" matches) in
  let crypto := take (30 - length fiat) (ofKind "crypto" matches) in
  itemsOf (children (showAutocompleteResults s "mon" ex_emptyList))
  = map itemOf (fiat ++ crypto)
  /\ (matches <> [] ->
      children (showAutocompleteResults s "mon" ex_emptyList)
      = groupSection fiatHeader fiat ++ groupSection cryptoHeader crypto)
  /\ length fiat <= 15
  /\ length (fiat ++ crypto) <= 30
  /\ Forall (fun c => type c = "fiat") fiat
  /\ Forall (fun c => type c = "crypto") crypto
  /\ fiat `sublist_of` allCurrencies s
  /\ crypto `sublist_of` allCurrencies s.
Proof.
  intros s.
  apply (autocomplete_groups float s "mon" ex_emptyList). discriminate.
Defined.

Example autocomplete_fifteen_and_one :
  let s : State float :=
    ex_state ex_twenty ex_index ex_emptyInput ex_emptyInput "" in
  length (matchesOf (allCurrencies s) "mon") = 21
  /\ map item_type (itemsOf (children (showAutocompleteResults s "mon" ex_emptyList)))
     = repeat "fiat" 15 ++ ["crypto"].
Proof. split; vm_compute; reflexivity. Qed.

(** *** Failure of a quotation *)




(** *** The catalogue *)

Section Catalogue.
Context {num : Type} `{Number num}.
Variable host : Host num.

Lemma set_cryptoIdMap_same (s : State num) : set_cryptoIdMap (cryptoIdMap s) s = s.
Proof. now destruct s. Qed.

(** [map] with a callback that sets one entry of the index per element. *)
Lemma array_map_index {A B : Type} (callback : A -> M num B)
    (key id : A -> string) (f : A -> B) (elements : list A) (s : State num) :
  (forall x s0, callback x s0
                = (Returned (f x),
                   set_cryptoIdMap (<[key x := id x]> (cryptoIdMap s0)) s0)) ->
  array_map callback elements s
  = (Returned (map f elements),
     set_cryptoIdMap (indexed key id elements (cryptoIdMap s)) s).
Proof.
  intros Hcallback. unfold indexed. revert s.
  induction elements as [| x elements IH]; intros s; cbn [array_map map foldl].
  - now rewrite set_cryptoIdMap_same.
  - unfold bind at 1. rewrite Hcallback. unfold bind at 1. rewrite IH. reflexivity.
Qed.

Lemma indexed_lookup {A : Type} (key id : A -> string) (elements : list A)
    (index : gmap string string) (k : string) :
  is_Some (index !! k) \/ k ∈ map key elements ->
  is_Some (indexed key id elements index !! k).
Proof.
  unfold indexed. revert index.
  induction elements as [| x elements IH]; intros index; cbn [foldl map].
  - intros [Hk | Hk]; [exact Hk | by apply elem_of_nil in Hk].
  - intros Hk. apply IH.
    destruct (decide (key x = k)) as [<- | Hne].
    + left. rewrite lookup_insert_eq. eauto.
    + destruct Hk as [Hk | Hk].
      * left. now rewrite lookup_insert_ne.
      * apply elem_of_cons in Hk as [Hk | Hk]; [congruence | now right].
Qed.

Lemma loadFiatCurrencies_live s table :
  rateTable host "USD" = Some table ->
  loadFiatCurrencies host s
  = (Returned (merge_sort (byCode host)
                 (entryOfUSD s :: map (entryOfKey s) (map fst (map_to_list table)))),
     set_requests (requests s ++ [exchangeRateAPI +:+ "USD"]) s).
Proof.
  unfold rateTable. intros Htable.
  destruct (respond host (exchangeRateAPI +:+ "USD")) as [| r] eqn:Hrespond;
    [discriminate |].
  destruct (ok r) eqn:Hok; [| discriminate].
  destruct (json r) as [[[rates |] | | |] |] eqn:Hjson; try discriminate.
  injection Htable as ->.
  unfold loadFiatCurrencies, try_catch, bind, fetch, response_json, rates_keys, get, ret.
  rewrite Hrespond, Hjson. cbn. rewrite Hok. reflexivity.
Qed.

Lemma loadFiatCurrencies_fallback s :
  rateTable host "USD" = None ->
  loadFiatCurrencies host s
  = (Returned fallbackFiat,
     set_requests (requests s ++ [exchangeRateAPI +:+ "USD"]) s).
Proof.
  unfold rateTable. intros Htable.
  unfold loadFiatCurrencies, try_catch, bind, fetch, response_json, rates_keys, get, ret.
  destruct (respond host (exchangeRateAPI +:+ "USD")) as [| r]; [reflexivity |].
  cbn. destruct (json r) as [data |]; [| reflexivity].
  cbn. destruct (ok r); [| reflexivity].
  cbn. destruct data as [[rates |] | | |]; try discriminate; reflexivity.
Qed.

Lemma loadCryptoCurrencies_live s coins :
  liveCoins host = Some coins ->
  loadCryptoCurrencies host s
  = (Returned (map entryOfCoin coins),
     set_cryptoIdMap
       (indexed (fun coin => toUpperCase (symbol coin)) coin_id coins (cryptoIdMap s))
       (set_requests (requests s ++ [marketsURL]) s)).
Proof.
  unfold liveCoins. intros Hcoins.
  destruct (respond host marketsURL) as [| r] eqn:Hrespond; [discriminate |].
  destruct (ok r) eqn:Hok; [| discriminate].
  destruct (json r) as [[| | coins' |] |] eqn:Hjson; try discriminate.
  injection Hcoins as ->.
  unfold loadCryptoCurrencies, try_catch. unfold bind at 1.
  fold marketsURL. unfold fetch. rewrite Hrespond.
  unfold bind at 1. unfold response_json. rewrite Hjson. unfold ret at 1.
  rewrite Hok. cbn [negb].
  rewrite (array_map_index _ (fun coin => toUpperCase (symbol coin)) coin_id
             entryOfCoin) by reflexivity.
  reflexivity.
Qed.

Lemma loadCryptoCurrencies_fallback s :
  liveCoins host = None ->
  loadCryptoCurrencies host s
  = (Returned (map entryOfFallback (fallbackCryptoCurrencies s)),
     set_cryptoIdMap
       (indexed fb_code fb_id (fallbackCryptoCurrencies s) (cryptoIdMap s))
       (set_requests (requests s ++ [marketsURL]) s)).
Proof.
  unfold liveCoins. intros Hcoins.
  assert (Hhandler : forall s1 : State num,
    fallbackCryptoCurrencies s1 = fallbackCryptoCurrencies s ->
    cryptoIdMap s1 = cryptoIdMap s ->
    (s0 <- get ;;
     array_map (fun cryptoCurrency =>
                  cryptoIdMap_set (fb_code cryptoCurrency) (fb_id cryptoCurrency))
               (fallbackCryptoCurrencies s0) ;;
     ret (map entryOfFallback (fallbackCryptoCurrencies s0))) s1
    = (Returned (map entryOfFallback (fallbackCryptoCurrencies s)),
       set_cryptoIdMap
         (indexed fb_code fb_id (fallbackCryptoCurrencies s) (cryptoIdMap s)) s1)).
  { intros s1 Hfb Hindex. unfold bind at 1. unfold get at 1. unfold bind at 1.
    rewrite (array_map_index _ fb_code fb_id (fun _ => tt)) by reflexivity.
    now rewrite Hfb, Hindex. }
  unfold loadCryptoCurrencies, try_catch. unfold bind at 1.
  fold marketsURL. unfold fetch.
  destruct (respond host marketsURL) as [| r]; [now apply Hhandler |].
  unfold bind at 1. unfold response_json.
  destruct (json r) as [data |]; [| now apply Hhandler].
  unfold ret at 1. destruct (ok r); [| now apply Hhandler].
  cbn [negb]. destruct data as [| | coins |]; try discriminate; now apply Hhandler.
Qed.




End Catalogue.






(** ** Further properties of the class *)

(** *** Keyboard navigation in an autocomplete *)

Lemma updateSelection_lookup (items : list Item) (index : Z) (i : nat) :
  updateSelection items index !! i = Some true
  <-> i < length items /\ Z.of_nat i = index.
Proof.
  unfold updateSelection. rewrite list_lookup_imap.
  destruct (items !! i) as [item |] eqn:Hitem; cbn.
  - apply lookup_lt_Some in Hitem. split.
    + intros [= Heq]. apply Z.eqb_eq in Heq. auto.
    + intros [_ Heq]. f_equal. now apply Z.eqb_eq.
  - apply lookup_ge_None in Hitem. split; [discriminate | lia].
Qed.

Lemma arrowDown_run (w : Autocomplete) :
  keydownListener "ArrowDown" w
  = {| ac_input := ac_input w; ac_list := ac_list w;
       selectedIndex :=
         Z.min (selectedIndex w + 1)
               (Z.of_nat (length (itemsOf (children (ac_list w)))) - 1);
       active :=
         updateSelection (itemsOf (children (ac_list w)))
           (Z.min (selectedIndex w + 1)
                  (Z.of_nat (length (itemsOf (children (ac_list w)))) - 1)) |}.
Proof. reflexivity. Qed.

Lemma arrowUp_run (w : Autocomplete) :
  keydownListener "ArrowUp" w
  = {| ac_input := ac_input w; ac_list := ac_list w;
       selectedIndex := Z.max (selectedIndex w - 1) (-1);
       active :=
         updateSelection (itemsOf (children (ac_list w)))
           (Z.max (selectedIndex w - 1) (-1)) |}.
Proof. reflexivity. Qed.

Lemma arrowDown_iter (w : Autocomplete) (k : nat) :
  let w' := Nat.iter (S k) (keydownListener "ArrowDown") w in
  ac_input w' = ac_input w
  /\ ac_list w' = ac_list w
  /\ selectedIndex w'
     = Z.min (selectedIndex w + Z.of_nat (S k))
             (Z.of_nat (length (itemsOf (children (ac_list w)))) - 1)
  /\ active w' = updateSelection (itemsOf (children (ac_list w))) (selectedIndex w').
Proof.
  induction k as [| k IH].
  - cbv zeta.
    change (Nat.iter 1 (keydownListener "ArrowDown") w)
      with (keydownListener "ArrowDown" w).
    rewrite arrowDown_run. cbn [ac_input ac_list selectedIndex active]. auto.
  - destruct IH as (Hinput & Hlist & Hindex & _).
    change (Nat.iter (S (S k)) (keydownListener "ArrowDown") w)
      with (keydownListener "ArrowDown"
              (Nat.iter (S k) (keydownListener "ArrowDown") w)).
    set (w1 := Nat.iter (S k) (keydownListener "ArrowDown") w) in *.
    cbv zeta in *. rewrite arrowDown_run.
    cbn [ac_input ac_list selectedIndex active].
    rewrite Hlist, Hindex. repeat split; auto. lia.
Qed.

Lemma arrowUp_iter (w : Autocomplete) (k : nat) :
  let w' := Nat.iter (S k) (keydownListener "ArrowUp") w in
  ac_input w' = ac_input w
  /\ ac_list w' = ac_list w
  /\ selectedIndex w' = Z.max (selectedIndex w - Z.of_nat (S k)) (-1)
  /\ active w' = updateSelection (itemsOf (children (ac_list w))) (selectedIndex w').
Proof.
  induction k as [| k IH].
  - cbv zeta.
    change (Nat.iter 1 (keydownListener "ArrowUp") w)
      with (keydownListener "ArrowUp" w).
    rewrite arrowUp_run. cbn [ac_input ac_list selectedIndex active]. auto.
  - destruct IH as (Hinput & Hlist & Hindex & _).
    change (Nat.iter (S (S k)) (keydownListener "ArrowUp") w)
      with (keydownListener "ArrowUp"
              (Nat.iter (S k) (keydownListener "ArrowUp") w)).
    set (w1 := Nat.iter (S k) (keydownListener "ArrowUp") w) in *.
    cbv zeta in *. rewrite arrowUp_run.
    cbn [ac_input ac_list selectedIndex active].
    rewrite Hlist, Hindex. repeat split; auto. lia.
Qed.

(** X1: pressing ArrowDown or ArrowUp one or more times moves the index of
    the closure without wrapping around: [k] presses of ArrowDown lead to the
    index plus [k], stopping at the last item; [k] presses of ArrowUp lead to
    the index minus [k], stopping at -1, where no item is selected.  The
    input and the list are untouched, and afterwards an item has the class
    [active] exactly when it is the item at the index. *)
Theorem keyboard_navigation :
  forall (w : Autocomplete) (k : nat),
    let items := itemsOf (children (ac_list w)) in
    let down := Nat.iter (S k) (keydownListener "ArrowDown") w in
    let up := Nat.iter (S k) (keydownListener "ArrowUp") w in
    selectedIndex down
    = Z.min (selectedIndex w + Z.of_nat (S k)) (Z.of_nat (length items) - 1)
    /\ selectedIndex up = Z.max (selectedIndex w - Z.of_nat (S k)) (-1)
    /\ ac_input down = ac_input w /\ ac_list down = ac_list w
    /\ ac_input up = ac_input w /\ ac_list up = ac_list w
    /\ (forall i, active down !! i = Some true
                  <-> i < length items /\ Z.of_nat i = selectedIndex down)
    /\ (forall i, active up !! i = Some true
                  <-> i < length items /\ Z.of_nat i = selectedIndex up).
Proof.
  intros w k items down up.
  destruct (arrowDown_iter w k) as (Hdi & Hdl & Hdx & Hda).
  destruct (arrowUp_iter w k) as (Hui & Hul & Hux & Hua).
  fold down in Hdi, Hdl, Hdx, Hda. fold up in Hui, Hul, Hux, Hua.
  fold items in Hdx, Hda, Hua.
  split; [exact Hdx |]. split; [exact Hux |].
  split; [exact Hdi |]. split; [exact Hdl |].
  split; [exact Hui |]. split; [exact Hul |].
  split; intros i.
  - rewrite Hda. apply updateSelection_lookup.
  - rewrite Hua. apply updateSelection_lookup.
Qed.

(** X2: after the list was filled for the text typed in the input, pressing
    ArrowDown [k + 1] times and then Enter selects the item number [k] of the
    list (counting from 0): the input shows [code - name] of that item and
    its dataset holds the item's code and type, and the list is hidden with
    its children in place. *)
Theorem arrows_then_enter :
  forall (num : Type) (s : State num) (w : Autocomplete) (k : nat) (item : Item),
    let w1 := inputListener s w in
    itemsOf (children (ac_list w1)) !! k = Some item ->
    let w2 :=
      keydownListener "Enter" (Nat.iter (S k) (keydownListener "ArrowDown") w1) in
    ac_input w2 = (selectCurrency item (ac_input w1) (ac_list w1)).1
    /\ value (ac_input w2) = item_code item +:+ " - " +:+ item_name item
    /\ selectedCode (ac_input w2) = Some (item_code item)
    /\ selectedType (ac_input w2) = Some (item_type item)
    /\ show (ac_list w2) = false
    /\ children (ac_list w2) = children (ac_list w1).
Proof.
  intros num s w k item w1 Hitem w2.
  destruct (arrowDown_iter w1 k) as (Hinput & Hlist & Hindex & _).
  set (w' := Nat.iter (S k) (keydownListener "ArrowDown") w1) in *.
  cbv zeta in Hinput, Hlist, Hindex.
  assert (Hk : selectedIndex w' = Z.of_nat k).
  { rewrite Hindex. apply lookup_lt_Some in Hitem.
    change (selectedIndex w1) with (-1)%Z. lia. }
  assert (Hrun : w2 = {| ac_input := (selectCurrency item (ac_input w1) (ac_list w1)).1;
                         ac_list := (selectCurrency item (ac_input w1) (ac_list w1)).2;
                         selectedIndex := selectedIndex w'; active := active w' |}).
  { unfold w2, keydownListener. cbn [String.eqb Ascii.eqb Bool.eqb andb].
    rewrite Hk. replace (0 <=? Z.of_nat k)%Z with true by (symmetry; apply Z.leb_le; lia).
    rewrite Nat2Z.id, Hlist, Hitem, Hinput. reflexivity. }
  rewrite Hrun. cbn [ac_input ac_list selectCurrency fst snd value selectedCode
                       selectedType show children set_show].
  repeat split.
Qed.

(** Typing [e] on the page of five currencies lists USD, EUR, GBP and ETH;
    ArrowDown twice and Enter select EUR. *)
Lemma arrows_then_enter_witness :
  let w1 := inputListener ex_loaded (ex_autocomplete ex_emptyInput "e") in
  let item := itemOf ex_EUR in
  let w2 :=
    keydownListener "Enter" (Nat.iter 2 (keydownListener "ArrowDown") w1) in
  ac_input w2 = (selectCurrency item (ac_input w1) (ac_list w1)).1
  /\ value (ac_input w2) = "EUR - Euro"
  /\ selectedCode (ac_input w2) = Some "EUR"
  /\ selectedType (ac_input w2) = Some "fiat"
  /\ show (ac_list w2) = false
  /\ children (ac_list w2) = children (ac_list w1).
Proof.
  exact (arrows_then_enter float ex_loaded (ex_autocomplete ex_emptyInput "e") 1
           (itemOf ex_EUR) eq_refl).
Defined.

(** X3: the [focus] listener fills the list again but leaves the index of the
    closure as it was: no item of the new list has the class [active], and
    yet Enter pressed right after selects the item of the new list at the old
    index, when there is one. *)
Theorem focus_keeps_index :
  forall (num : Type) (s : State num) (w : Autocomplete) (item : Item),
    let w1 := focusListener s w in
    (0 <= selectedIndex w)%Z ->
    itemsOf (children (ac_list w1)) !! Z.to_nat (selectedIndex w) = Some item ->
    selectedIndex w1 = selectedIndex w
    /\ ac_input w1 = ac_input w
    /\ Forall (fun isActive => isActive = false) (active w1)
    /\ length (active w1) = length (itemsOf (children (ac_list w1)))
    /\ ac_input (keydownListener "Enter" w1)
       = (selectCurrency item (ac_input w) (ac_list w1)).1
    /\ selectedCode (ac_input (keydownListener "Enter" w1)) = Some (item_code item).
Proof.
  intros num s w item w1 Hindex Hitem.
  assert (Hactive : active w1 = map (fun _ => false) (itemsOf (children (ac_list w1))))
    by reflexivity.
  split; [reflexivity |]. split; [reflexivity |].
  split; [| split].
  - rewrite Hactive. apply List.Forall_forall. intros a Ha.
    apply in_map_iff in Ha as (x & <- & _). reflexivity.
  - rewrite Hactive. apply length_map.
  - assert (Hrun : keydownListener "Enter" w1
                   = {| ac_input := (selectCurrency item (ac_input w) (ac_list w1)).1;
                        ac_list := (selectCurrency item (ac_input w) (ac_list w1)).2;
                        selectedIndex := selectedIndex w; active := active w1 |}).
    { unfold keydownListener. cbn [String.eqb Ascii.eqb Bool.eqb andb].
      change (selectedIndex w1) with (selectedIndex w).
      replace (0 <=? selectedIndex w)%Z with true by (symmetry; now apply Z.leb_le).
      rewrite Hitem. reflexivity. }
    rewrite Hrun. split; reflexivity.
Qed.

(** On the page of five currencies with the popular codes EUR and BTC: the
    index was left at 1 by an earlier navigation; on focus the popular list
    is shown with nothing highlighted, and Enter selects BTC. *)
Lemma focus_keeps_index_witness :
  let s := set_popularCurrencyCodes ["EUR"; "BTC"] ex_loaded in
  let w := {| ac_input := ex_emptyInput; ac_list := ex_emptyList;
              selectedIndex := 1; active := [] |} in
  let w1 := focusListener s w in
  selectedIndex w1 = 1%Z
  /\ ac_input w1 = ex_emptyInput
  /\ Forall (fun isActive => isActive = false) (active w1)
  /\ length (active w1) = length (itemsOf (children (ac_list w1)))
  /\ ac_input (keydownListener "Enter" w1)
     = (selectCurrency (itemOf ex_BTC) ex_emptyInput (ac_list w1)).1
  /\ selectedCode (ac_input (keydownListener "Enter" w1)) = Some "BTC".
Proof.
  intros s w.
  refine (focus_keeps_index float s w (itemOf ex_BTC) _ eq_refl). cbn. lia.
Defined.

(** *** Typing over a selection *)

Lemma prefix_substring (v e : string) :
  String.prefix (String.substring 0 (String.length v) e) v
  = String.prefix v e || String.prefix e v.
Proof.
  revert e. induction v as [| c v IH]; intros [| d e]; cbn; try reflexivity.
  destruct (ascii_dec d c) as [-> | Hne].
  - destruct (ascii_dec c c); [apply IH | congruence].
  - destruct (ascii_dec c d); [congruence | reflexivity].
Qed.

Lemma truthy_Some (text : string) : text <> "" -> truthy (Some text) = true.
Proof.
  intros Htext. cbn. destruct (String.eqb_spec text ""); [congruence | reflexivity].
Qed.

(** X4: when a currency is selected in an input, the [input] listener keeps
    the selection exactly when the text of the input and the text
    [code - ] of the selection agree as far as both go, that is when one is
    a prefix of the other; otherwise the three entries of the dataset are
    deleted.  In particular an emptied input keeps its selection.  The text
    itself is never changed and the index of the closure is reset to -1. *)
Theorem typing_over_selection :
  forall (num : Type) (s : State num) (w : Autocomplete) (code' : string),
    selectedCode (ac_input w) = Some code' ->
    code' <> "" ->
    let text := value (ac_input w) in
    let expected := code' +:+ " - " in
    let w' := inputListener s w in
    ac_input w'
    = (if String.prefix text expected || String.prefix expected text
       then ac_input w else clearSelection (ac_input w))
    /\ (text = "" -> ac_input w' = ac_input w)
    /\ value (ac_input w') = text
    /\ selectedIndex w' = (-1)%Z.
Proof.
  intros num s w code' Hcode Hne text expected w'.
  assert (Hinput : ac_input w'
                   = if String.prefix text expected || String.prefix expected text
                     then ac_input w else clearSelection (ac_input w)).
  { unfold w', inputListener, rendered. cbn [ac_input].
    rewrite Hcode, (truthy_Some code' Hne). cbn [toString].
    fold text. fold expected. rewrite prefix_substring.
    destruct (String.prefix text expected || String.prefix expected text); reflexivity. }
  split; [exact Hinput |]. split; [| split; [| reflexivity]].
  - intros Hempty. rewrite Hinput, Hempty. now destruct expected.
  - rewrite Hinput.
    destruct (String.prefix text expected || String.prefix expected text); reflexivity.
Qed.

(** With USD selected, the text cut down to [US] keeps the selection. *)
Lemma typing_over_selection_witness :
  let w := ex_autocomplete (ex_selected ex_USD) "US" in
  let w' := inputListener ex_loaded w in
  ac_input w' = ac_input w
  /\ (value (ac_input w) = "" -> ac_input w' = ac_input w)
  /\ value (ac_input w') = "US"
  /\ selectedIndex w' = (-1)%Z.
Proof.
  intros w.
  refine (typing_over_selection float ex_loaded w "USD" eq_refl _). discriminate.
Defined.

(** *** Requests that are turned down *)

Section Rejections.
Context {num : Type} `{Number num}.
Variable host : Host num.

Lemma convertCurrency_unselected (s : State num) :
  negb (truthy (selectedCode (from_currency s)))
  || negb (truthy (selectedCode (to_currency s))) = true ->
  convertCurrency host s = showError host selectBothMessage s.
Proof.
  intros Hmissing. unfold convertCurrency, bind at 1, get.
  rewrite Hmissing. reflexivity.
Qed.

Lemma convertCurrency_same (s : State num) :
  truthy (selectedCode (from_currency s)) = true ->
  truthy (selectedCode (to_currency s)) = true ->
  falsy (parseFloat (amount s) : num) = false ->
  ((parseFloat (amount s) : num) <=? lit 0)%num = false ->
  String.eqb (toString (selectedCode (from_currency s)))
             (toString (selectedCode (to_currency s))) = true ->
  convertCurrency host s = showError host sameCurrencyMessage s.
Proof.
  intros Hfrom Hto Hfalsy Hpositive Hsame. unfold convertCurrency, bind at 1, get.
  rewrite Hfrom, Hto, Hfalsy, Hpositive, Hsame. reflexivity.
Qed.

End Rejections.

(** X5: a request in which one of the two currencies is not selected is
    turned down with the message asking to select both, whatever the amount
    field holds; a request with both selected, a positive amount and the same
    code on both sides is turned down with the message about converting a
    currency to itself.  In both cases no request is sent, the submit control
    is enabled and nothing but the message changes. *)
Theorem convertCurrency_turned_down :
  forall (num : Type) (N : Number num) (host : Host num) (s : State num),
    (negb (truthy (selectedCode (from_currency s)))
     || negb (truthy (selectedCode (to_currency s))) = true ->
     exists s', convertCurrency host s = (Returned tt, s')
                /\ errorShown (hasSwal host) selectBothMessage s s')
    /\ (truthy (selectedCode (from_currency s)) = true ->
        truthy (selectedCode (to_currency s)) = true ->
        falsy (parseFloat (amount s) : num) = false ->
        ((parseFloat (amount s) : num) <=? lit 0)%num = false ->
        selectedCode (from_currency s) = selectedCode (to_currency s) ->
        exists s', convertCurrency host s = (Returned tt, s')
                   /\ errorShown (hasSwal host) sameCurrencyMessage s s').
Proof.
  intros num N host s. split.
  - intros Hmissing. rewrite (convertCurrency_unselected host s Hmissing).
    apply showError_spec.
  - intros Hfrom Hto Hfalsy Hpositive Hsame.
    rewrite (convertCurrency_same host s Hfrom Hto Hfalsy Hpositive).
    + apply showError_spec.
    + rewrite Hsame. apply String.eqb_refl.
Qed.

(** No source currency with the amount [abc]; and USD on both sides with the
    amount 1. *)
Lemma convertCurrency_turned_down_witness :
  (exists s', convertCurrency (ex_host ex_offline (lit 0.5)) ex_abc_unselected
              = (Returned tt, s')
              /\ errorShown true selectBothMessage ex_abc_unselected s')
  /\ (exists s', convertCurrency (ex_host ex_offline (lit 0.5)) (ex_pair ex_USD ex_USD)
                 = (Returned tt, s')
                 /\ errorShown true sameCurrencyMessage (ex_pair ex_USD ex_USD) s').
Proof.
  split.
  - exact (proj1 (convertCurrency_turned_down float _ (ex_host ex_offline (lit 0.5))
                    ex_abc_unselected) eq_refl).
  - exact (proj2 (convertCurrency_turned_down float _ (ex_host ex_offline (lit 0.5))
                    (ex_pair ex_USD ex_USD)) eq_refl eq_refl eq_refl eq_refl eq_refl).
Defined.

(** X6: once the text typed over a selection departs from [code - ], the
    selection is gone for the conversion too: with the input as the listener
    left it, [convertCurrency] asks to select both currencies and sends no
    request, although the input still shows a text. *)
Theorem retyped_selection_rejected :
  forall (num : Type) (N : Number num) (host : Host num) (s : State num)
         (w : Autocomplete) (code' : string),
    selectedCode (ac_input w) = Some code' ->
    code' <> "" ->
    String.prefix (value (ac_input w)) (code' +:+ " - ")
    || String.prefix (code' +:+ " - ") (value (ac_input w)) = false ->
    let s1 := set_from_currency (ac_input (inputListener s w)) s in
    value (from_currency s1) = value (ac_input w)
    /\ exists s', convertCurrency host s1 = (Returned tt, s')
                  /\ errorShown (hasSwal host) selectBothMessage s1 s'.
Proof.
  intros num N host s w code' Hcode Hne Hdeparts s1.
  assert (Hinput : from_currency s1 = clearSelection (ac_input w)).
  { unfold s1. cbn [from_currency set_from_currency].
    unfold inputListener, rendered. cbn [ac_input].
    rewrite Hcode, (truthy_Some code' Hne). cbn [toString].
    rewrite prefix_substring, Hdeparts. reflexivity. }
  split; [now rewrite Hinput |].
  rewrite (convertCurrency_unselected host s1) by now rewrite Hinput.
  apply showError_spec.
Qed.

(** With USD selected and the text changed to [EUR]. *)
Lemma retyped_selection_rejected_witness :
  let w := ex_autocomplete (ex_selected ex_USD) "EUR" in
  let s1 := set_from_currency (ac_input (inputListener ex_loaded w)) ex_loaded in
  value (from_currency s1) = "EUR"
  /\ exists s', convertCurrency (ex_host ex_offline (lit 0.5)) s1 = (Returned tt, s')
                /\ errorShown true selectBothMessage s1 s'.
Proof.
  intros w.
  refine (retyped_selection_rejected float _ (ex_host ex_offline (lit 0.5)) ex_loaded w
            "USD" eq_refl _ eq_refl).
  discriminate.
Defined.

(** *** Popular currencies *)

Lemma findByCode_Some (currencies : list Currency) (code' : string) (c : Currency) :
  findByCode currencies code' = Some c -> c ∈ currencies /\ code c = code'.
Proof.
  unfold findByCode. intros Hfind. apply find_some in Hfind as [Hin Heq].
  split; [now apply list_elem_of_In | now apply String.eqb_eq].
Qed.

Lemma findByCode_None (currencies : list Currency) (code' : string) :
  findByCode currencies code' = None -> code' ∉ map code currencies.
Proof.
  unfold findByCode. intros Hfind Hin.
  apply list_elem_of_fmap in Hin as (c & -> & Hc).
  apply list_elem_of_In in Hc.
  pose proof (find_none _ _ Hfind c Hc) as Hne. cbn in Hne.
  now rewrite String.eqb_refl in Hne.
Qed.

Lemma popular_codes (currencies : list Currency) (codes : list string) :
  map code (omap (findByCode currencies) codes)
  = filter (fun code' => code' ∈ map code currencies) codes.
Proof.
  induction codes as [| code' codes IH]; [reflexivity |].
  cbn [omap list_omap]. rewrite filter_cons.
  destruct (findByCode currencies code') as [c |] eqn:Hfind.
  - apply findByCode_Some in Hfind as [Hin <-].
    rewrite decide_True by (apply list_elem_of_fmap; eauto).
    cbn [map]. now f_equal.
  - apply findByCode_None in Hfind. now rewrite decide_False.
Qed.

Lemma showPopularCurrencies_children {num : Type} (s : State num) (listEl : ListEl) :
  let popularCurrencies :=
    omap (findByCode (allCurrencies s)) (popularCurrencyCodes s) in
  children (showPopularCurrencies s listEl)
  = groupSection popularHeader popularCurrencies
  /\ show (showPopularCurrencies s listEl)
     = match popularCurrencies with [] => false | _ :: _ => true end.
Proof.
  intros popularCurrencies. unfold showPopularCurrencies. fold popularCurrencies.
  destruct (length (allCurrencies s) =? 0)%nat eqn:Hnone.
  - apply Nat.eqb_eq, nil_length_inv in Hnone.
    assert (Hempty : popularCurrencies = []).
    { unfold popularCurrencies. rewrite Hnone.
      induction (popularCurrencyCodes s) as [| code' codes IH]; [reflexivity |].
      cbn [omap list_omap findByCode find]. exact IH. }
    rewrite Hempty. split; reflexivity.
  - destruct popularCurrencies as [| c rest]; split; reflexivity.
Qed.

(** X7: the list of popular currencies shows, under its header, one item per
    popular code that is the code of some entry of the catalogue, in the
    order of the popular codes; the item is the one of the first entry of the
    catalogue with that code.  Codes that are not in the catalogue are
    skipped, there is no limit on the number of items, and the list is shown
    exactly when it has an item; what it held before is discarded. *)
Theorem popular_currencies :
  forall (num : Type) (s : State num) (listEl : ListEl),
    let listEl' := showPopularCurrencies s listEl in
    let items := itemsOf (children listEl') in
    map item_code items
    = filter (fun code' => code' ∈ map code (allCurrencies s)) (popularCurrencyCodes s)
    /\ Forall (fun item =>
                 exists c, findByCode (allCurrencies s) (item_code item) = Some c
                           /\ c ∈ allCurrencies s
                           /\ item = itemOf c) items
    /\ children listEl'
       = match items with
         | [] => []
         | _ :: _ => GroupHeader popularHeader :: map AutocompleteItem items
         end
    /\ show listEl' = match items with [] => false | _ :: _ => true end.
Proof.
  intros num s listEl listEl' items.
  destruct (showPopularCurrencies_children s listEl) as [Hchildren Hshow].
  set (popularCurrencies := omap (findByCode (allCurrencies s))
                                 (popularCurrencyCodes s)) in *.
  assert (Hitems : items = map itemOf popularCurrencies).
  { unfold items, listEl'. rewrite Hchildren. apply itemsOf_section. }
  split; [| split; [| split]].
  - rewrite Hitems, map_map. cbn [item_code itemOf].
    apply (popular_codes (allCurrencies s) (popularCurrencyCodes s)).
  - rewrite Hitems. apply List.Forall_forall. intros item Hitem.
    apply in_map_iff in Hitem as (c & <- & Hc).
    apply list_elem_of_In in Hc. unfold popularCurrencies in Hc.
    apply list_elem_of_omap in Hc as (code' & _ & Hfind).
    destruct (findByCode_Some _ _ _ Hfind) as [Hin Hcode].
    exists c. cbn [item_code itemOf]. rewrite Hcode. auto.
  - unfold listEl'. rewrite Hchildren, Hitems.
    destruct popularCurrencies as [| c rest]; [reflexivity |].
    unfold groupSection. f_equal. now rewrite map_map.
  - unfold listEl'. rewrite Hshow, Hitems. now destruct popularCurrencies.
Qed.

(** *** Loading the catalogue *)

Section Loading.
Context {num : Type} `{Number num}.
Variable host : Host num.

Lemma loadFiatCurrencies_run (s : State num) :
  loadFiatCurrencies host s
  = (Returned (fiatLoaded host s),
     set_requests (requests s ++ [exchangeRateAPI +:+ "USD"]) s).
Proof.
  unfold fiatLoaded. destruct (rateTable host "USD") as [table |] eqn:Htable.
  - now apply loadFiatCurrencies_live.
  - now apply loadFiatCurrencies_fallback.
Qed.

Lemma loadCryptoCurrencies_run (s : State num) :
  loadCryptoCurrencies host s
  = (Returned (cryptoLoaded host s),
     set_cryptoIdMap (indexLoaded host s) (set_requests (requests s ++ [marketsURL]) s)).
Proof.
  unfold cryptoLoaded, indexLoaded. destruct (liveCoins host) as [coins |] eqn:Hcoins.
  - now apply loadCryptoCurrencies_live.
  - now apply loadCryptoCurrencies_fallback.
Qed.

Lemma loadCurrencies_loaded (s : State num) :
  loadCurrencies host s = (Returned tt, loaded host s).
Proof.
  unfold loadCurrencies, try_catch. unfold bind at 1.
  change (showCurrencyLoading s) with (Returned tt, (showCurrencyLoading s).2).
  unfold bind at 1. rewrite loadFiatCurrencies_run.
  unfold bind at 1. rewrite loadCryptoCurrencies_run.
  unfold loaded, bind, modify, get, populateSelects, Swal_fire, ret, loadedToast,
    searchPlaceholder.
  cbn. rewrite <- app_assoc. cbn [app].
  destruct (hasSwal host); reflexivity.
Qed.

End Loading.

(** X8: [loadCurrencies] always completes: whatever the two providers answer
    it sends exactly the request for the table quoted against USD and then
    the request for the ranking, returns without showing its error message,
    and leaves both inputs enabled with the search placeholder, their text
    and selection untouched.  The catalogue it builds always holds a fiat
    entry of code USD, and with SweetAlert2 the toast announces the number of
    entries of the catalogue. *)
Theorem loadCurrencies_completes :
  forall (num : Type) (N : Number num) (host : Host num) (s : State num),
  exists s',
    loadCurrencies host s = (Returned tt, s')
    /\ requests s' = requests s ++ [exchangeRateAPI +:+ "USD"; marketsURL]
    /\ from_currency s' = set_placeholder searchPlaceholder false (from_currency s)
    /\ to_currency s' = set_placeholder searchPlaceholder false (to_currency s)
    /\ swal s' = (if hasSwal host
                  then Some (loadedToast (length (allCurrencies s')))
                  else swal s)
    /\ result s' = result s
    /\ convert_btn_disabled s' = convert_btn_disabled s
    /\ amount s' = amount s
    /\ (exists c, c ∈ allCurrencies s' /\ code c = "USD" /\ type c = "fiat").
Proof.
  intros num N host s. exists (loaded host s).
  split; [apply loadCurrencies_loaded |].
  assert (Hall : allCurrencies (loaded host s) = fiatLoaded host s ++ cryptoLoaded host s).
  { unfold loaded. destruct (hasSwal host); reflexivity. }
  repeat match goal with |- _ /\ _ => split end;
    try (unfold loaded; destruct (hasSwal host); reflexivity).
  rewrite Hall. unfold fiatLoaded.
  destruct (rateTable host "USD") as [table |].
  - exists (entryOfUSD s). split; [| split; reflexivity].
    apply elem_of_app. left. rewrite merge_sort_Permutation. apply elem_of_cons. now left.
  - exists {| code := "USD"; name := "Dólar Estadounidense"; type := "fiat"; cid := None |}.
    split; [| split; reflexivity].
    apply elem_of_app. left. apply elem_of_cons. now left.
Qed.

(** X9: when the provider of fiat rates answers, the fiat entries are USD and
    one entry per key of its table, sorted by [localeCompare] of their codes
    (for a comparison that is total and transitive); every entry is of type
    fiat without an id, and is named by the table of names, or by its own
    code when that table has no name for it. *)
Theorem fiat_entries_sorted :
  forall (num : Type) (N : Number num) (host : Host num) (s : State num)
         (table : gmap string num),
    rateTable host "USD" = Some table ->
    (forall a b, (localeCompare host a b <= 0 \/ localeCompare host b a <= 0)%Z) ->
    (forall a b c, (localeCompare host a b <= 0)%Z -> (localeCompare host b c <= 0)%Z ->
                   (localeCompare host a c <= 0)%Z) ->
    exists fiat s',
      loadFiatCurrencies host s = (Returned fiat, s')
      /\ StronglySorted (byCode host) fiat
      /\ fiat ≡ₚ entryOfUSD s :: map (entryOfKey s) (map fst (map_to_list table))
      /\ length fiat = S (size table)
      /\ Forall (fun c =>
                   type c = "fiat" /\ cid c = None
                   /\ (c = entryOfUSD s
                       \/ name c = match currencyNames s !! code c with
                                   | Some name' => if String.eqb name' "" then code c
                                                   else name'
                                   | None => code c
                                   end)) fiat
      /\ requests s' = requests s ++ [exchangeRateAPI +:+ "USD"].
Proof.
  intros num N host s table Htable Htotal Htrans.
  eexists _, _. split; [apply (loadFiatCurrencies_live host s table Htable) |].
  assert (Total (byCode host)) by (intros a b; apply Htotal).
  assert (Transitive (byCode host)) by (intros a b c; apply Htrans).
  split; [apply StronglySorted_merge_sort; assumption |].
  split; [apply merge_sort_Permutation |].
  split; [| split; [| reflexivity]].
  - rewrite merge_sort_Permutation. cbn [length].
    now rewrite !length_map, length_map_to_list.
  - rewrite merge_sort_Permutation. constructor; [auto |].
    apply List.Forall_forall. intros c Hc.
    apply in_map_iff in Hc as (key & <- & _).
    split; [reflexivity |]. split; [reflexivity |]. right.
    cbn [code name entryOfKey]. unfold or_else, truthy.
    destruct (currencyNames s !! key) as [name' |]; [| now destruct (String.eqb key "")].
    destruct (String.eqb name' ""); [| reflexivity].
    now destruct (String.eqb key "").
Qed.

(** The comparison of the example hosts, by code points, is total and
    transitive. *)
Lemma ex_localeCompare_le (answers : string -> FetchOutcome float) (draw : float)
    (a b : string) :
  (localeCompare (ex_host answers draw) a b <= 0)%Z <-> String.compare a b <> Gt.
Proof.
  cbn [localeCompare ex_host]. destruct (String.compare a b); split; intros; (lia || congruence).
Qed.

Lemma compare_not_Gt (a b : string) :
  String.compare a b <> Gt <-> a = b \/ OrderedTypeEx.String_as_OT.lt a b.
Proof.
  split.
  - intros Hne. destruct (String.compare a b) eqn:Hcompare; [left | right | congruence].
    + now apply OrderedTypeEx.String_as_OT.cmp_eq.
    + now apply OrderedTypeEx.String_as_OT.cmp_lt.
  - intros [Heq | Hlt] Hgt.
    + apply OrderedTypeEx.String_as_OT.cmp_eq in Heq.
      unfold OrderedTypeEx.String_as_OT.cmp in Heq. congruence.
    + apply OrderedTypeEx.String_as_OT.cmp_lt in Hlt.
      unfold OrderedTypeEx.String_as_OT.cmp in Hlt. congruence.
Qed.

Lemma ex_localeCompare_total (answers : string -> FetchOutcome float) (draw : float)
    (a b : string) :
  (localeCompare (ex_host answers draw) a b <= 0
   \/ localeCompare (ex_host answers draw) b a <= 0)%Z.
Proof.
  rewrite !ex_localeCompare_le, (String.compare_antisym a b).
  destruct (String.compare b a); cbn; [left | right | left]; congruence.
Qed.

Lemma ex_localeCompare_trans (answers : string -> FetchOutcome float) (draw : float)
    (a b c : string) :
  (localeCompare (ex_host answers draw) a b <= 0)%Z ->
  (localeCompare (ex_host answers draw) b c <= 0)%Z ->
  (localeCompare (ex_host answers draw) a c <= 0)%Z.
Proof.
  rewrite !ex_localeCompare_le, !compare_not_Gt.
  intros [-> | Hab] [-> | Hbc]; auto.
  right. eapply OrderedTypeEx.String_as_OT.lt_trans; eassumption.
Qed.

(** The providers of [ex_live] give the entries EUR, GBP and USD, in this
    order. *)
Lemma fiat_entries_sorted_witness :
  exists fiat s',
    loadFiatCurrencies (ex_host ex_live (lit 0.5)) ex_blank = (Returned fiat, s')
    /\ StronglySorted (byCode (ex_host ex_live (lit 0.5))) fiat
    /\ fiat ≡ₚ entryOfUSD ex_blank
               :: map (entryOfKey ex_blank)
                      (map fst (map_to_list
                                  ({[ "EUR" := lit 0.9; "GBP" := lit 0.8 ]}
                                   : gmap string float)))
    /\ length fiat = S (size ({[ "EUR" := lit 0.9; "GBP" := lit 0.8 ]}
                              : gmap string float))
    /\ Forall (fun c =>
                 type c = "fiat" /\ cid c = None
                 /\ (c = entryOfUSD ex_blank
                     \/ name c = match currencyNames ex_blank !! code c with
                                 | Some name' => if String.eqb name' "" then code c
                                                 else name'
                                 | None => code c
                                 end)) fiat
    /\ requests s' = requests ex_blank ++ [exchangeRateAPI +:+ "USD"].
Proof.
  apply (fiat_entries_sorted float _ (ex_host ex_live (lit 0.5)) ex_blank
           {[ "EUR" := lit 0.9; "GBP" := lit 0.8 ]}).
  - reflexivity.
  - apply ex_localeCompare_total.
  - apply ex_localeCompare_trans.
Defined.

(** *** The index of asset ids *)

Lemma findLast_snoc {A : Type} (p : A -> bool) (elements : list A) (x : A) :
  findLast p (elements ++ [x]) = if p x then Some x else findLast p elements.
Proof. unfold findLast. rewrite rev_unit. reflexivity. Qed.

Lemma indexed_snoc {A : Type} (key id : A -> string) (elements : list A) (x : A)
    (index : gmap string string) :
  indexed key id (elements ++ [x]) index
  = <[key x := id x]> (indexed key id elements index).
Proof. unfold indexed. now rewrite foldl_app. Qed.

(** The entry of a key is the one set last. *)
Lemma indexed_last {A : Type} (key id : A -> string) (elements : list A)
    (index : gmap string string) (k : string) :
  indexed key id elements index !! k
  = match findLast (fun x => String.eqb (key x) k) elements with
    | Some x => Some (id x)
    | None => index !! k
    end.
Proof.
  induction elements as [| x elements IH] using rev_ind; [reflexivity |].
  rewrite indexed_snoc, findLast_snoc.
  destruct (String.eqb_spec (key x) k) as [<- | Hne].
  - now rewrite lookup_insert_eq.
  - now rewrite lookup_insert_ne.
Qed.

(** X10: after the crypto entries were loaded, [getCryptoId] gives for a code
    the id of the last element of the ranking whose upper-cased symbol is the
    upper-cased code, so of two assets with the same symbol the second wins;
    on the fallback path it gives the id of the last bundled entry whose
    code, taken as it is, equals the upper-cased code.  For a code that no
    element carries the index answers as it did before the load: entries are
    added or replaced, never removed. *)
Theorem index_after_loading :
  forall (num : Type) (N : Number num) (host : Host num) (s : State num)
         (currencyCode : string),
  exists crypto s',
    loadCryptoCurrencies host s = (Returned crypto, s')
    /\ getCryptoId currencyCode s'
       = (Returned
            match liveCoins host with
            | Some coins =>
                match findLast (fun coin => String.eqb (toUpperCase (symbol coin))
                                                       (toUpperCase currencyCode))
                               coins with
                | Some coin => Some (coin_id coin)
                | None => cryptoIdMap s !! toUpperCase currencyCode
                end
            | None =>
                match findLast (fun cryptoCurrency =>
                                  String.eqb (fb_code cryptoCurrency)
                                             (toUpperCase currencyCode))
                               (fallbackCryptoCurrencies s) with
                | Some cryptoCurrency => Some (fb_id cryptoCurrency)
                | None => cryptoIdMap s !! toUpperCase currencyCode
                end
            end, s')
    /\ (is_Some (cryptoIdMap s !! toUpperCase currencyCode) ->
        is_Some (cryptoIdMap s' !! toUpperCase currencyCode)).
Proof.
  intros num N host s currencyCode.
  eexists _, _. split; [apply loadCryptoCurrencies_run |].
  rewrite getCryptoId_run. cbn [cryptoIdMap set_cryptoIdMap].
  unfold indexLoaded. split.
  - f_equal. f_equal. destruct (liveCoins host) as [coins |]; apply indexed_last.
  - intros Hbefore.
    destruct (liveCoins host) as [coins |]; apply indexed_lookup; now left.
Qed.

(** *** Starting without the bundled data and without the providers *)

(** X11: when the static data fell back to the bundled minimum and neither
    provider answers, the catalogue is the six fallback fiat currencies
    followed by Bitcoin and Ethereum, the index resolves BTC and ETH, and the
    list of popular currencies offers USD, EUR, GBP, ARS, BTC and ETH. *)
Theorem offline_start :
  forall (num : Type) (N : Number num) (host : Host num) (s : State num)
         (listEl : ListEl),
    rateTable host "USD" = None ->
    liveCoins host = None ->
    exists s1 s2,
      initializeFallbackData s = (Returned tt, s1)
      /\ loadCurrencies host s1 = (Returned tt, s2)
      /\ map code (allCurrencies s2)
         = ["USD"; "EUR"; "GBP"; "JPY"; "ARS"; "BRL"; "BTC"; "ETH"]
      /\ (forall c, c ∈ allCurrencies s2 ->
                    type c = (if bool_decide (code c ∈ ["BTC"; "ETH"])
                              then "crypto" else "fiat"))
      /\ getCryptoId "btc" s2
         = (Returned (Some "bitcoin"), s2)
      /\ getCryptoId "eth" s2 = (Returned (Some "ethereum"), s2)
      /\ map item_code (itemsOf (children (showPopularCurrencies s2 listEl)))
         = ["USD"; "EUR"; "GBP"; "ARS"; "BTC"; "ETH"]
      /\ show (showPopularCurrencies s2 listEl) = true.
Proof.
  intros num N host s listEl Htable Hcoins.
  set (s1 := (initializeFallbackData s).2).
  exists s1, (loaded host s1). split; [reflexivity |].
  split; [apply loadCurrencies_loaded |].
  assert (Hall : allCurrencies (loaded host s1)
                 = fallbackFiat
                   ++ [ {| code := "BTC"; name := "Bitcoin"; type := "crypto";
                           cid := Some "bitcoin" |};
                        {| code := "ETH"; name := "Ethereum"; type := "crypto";
                           cid := Some "ethereum" |} ]).
  { unfold loaded, fiatLoaded, cryptoLoaded. rewrite Htable, Hcoins.
    destruct (hasSwal host); reflexivity. }
  assert (Hindex : cryptoIdMap (loaded host s1)
                   = <["ETH" := "ethereum"]> (<["BTC" := "bitcoin"]> (cryptoIdMap s))).
  { unfold loaded, indexLoaded. rewrite Hcoins.
    destruct (hasSwal host); reflexivity. }
  assert (Hpopular : popularCurrencyCodes (loaded host s1)
                     = ["USD"; "EUR"; "GBP"; "ARS"; "BTC"; "ETH"]).
  { unfold loaded. destruct (hasSwal host); reflexivity. }
  split; [now rewrite Hall |]. split; [| split; [| split; [| split]]].
  - intros c Hc. rewrite Hall in Hc. unfold fallbackFiat in Hc.
    repeat (apply elem_of_cons in Hc as [-> | Hc]; [reflexivity |]).
    now apply elem_of_nil in Hc.
  - rewrite getCryptoId_run, Hindex. change (toUpperCase "btc") with "BTC".
    rewrite lookup_insert_ne by discriminate. now rewrite lookup_insert_eq.
  - rewrite getCryptoId_run, Hindex. change (toUpperCase "eth") with "ETH".
    now rewrite lookup_insert_eq.
  - unfold showPopularCurrencies. rewrite Hall, Hpopular. reflexivity.
  - unfold showPopularCurrencies. rewrite Hall, Hpopular. reflexivity.
Qed.

(** With the network down, on a blank page. *)
Lemma offline_start_witness :
  exists s1 s2,
    initializeFallbackData ex_blank = (Returned tt, s1)
    /\ loadCurrencies (ex_host ex_offline (lit 0.5)) s1 = (Returned tt, s2)
    /\ map code (allCurrencies s2)
       = ["USD"; "EUR"; "GBP"; "JPY"; "ARS"; "BRL"; "BTC"; "ETH"]
    /\ (forall c, c ∈ allCurrencies s2 ->
                  type c = (if bool_decide (code c ∈ ["BTC"; "ETH"])
                            then "crypto" else "fiat"))
    /\ getCryptoId "btc" s2 = (Returned (Some "bitcoin"), s2)
    /\ getCryptoId "eth" s2 = (Returned (Some "ethereum"), s2)
    /\ map item_code (itemsOf (children (showPopularCurrencies s2 ex_emptyList)))
       = ["USD"; "EUR"; "GBP"; "ARS"; "BTC"; "ETH"]
    /\ show (showPopularCurrencies s2 ex_emptyList) = true.
Proof.
  exact (offline_start float _ (ex_host ex_offline (lit 0.5)) ex_blank ex_emptyList
           eq_refl eq_refl).
Defined.

(** *** The chart region *)

Section Region.
Context {num : Type} `{Number num}.
Variable host : Host num.

(** The chart region after a series was built in the state [s2], and after
    building it failed there. *)
Lemma displayPriceChart_run fromCurrency toCurrency (s : State num) :
  match buildSeries host (kindOf (from_currency s)) (kindOf (to_currency s))
          fromCurrency toCurrency (charting s) with
  | (Returned series, s2) =>
      displayPriceChart host fromCurrency toCurrency s
      = (Returned tt,
         set_priceChart (Some series)
           (set_chart_container
              {| container_shown := true;
                 heading := chartHeading fromCurrency toCurrency;
                 canvas_shown := true; chart_loading := Some false;
                 chart_error := chart_error (chart_container s) |} s2))
  | (Thrown _, s2) =>
      displayPriceChart host fromCurrency toCurrency s
      = (Returned tt,
         set_chart_container
           {| container_shown := true; heading := heading (chart_container s);
              canvas_shown := false; chart_loading := Some false;
              chart_error := Some (chartErrorMessage, true) |} s2)
  end.
Proof.
  pose proof (buildSeries_keeps host (kindOf (from_currency s)) (kindOf (to_currency s))
                fromCurrency toCurrency (charting s)) as Hkeep.
  destruct (buildSeries host (kindOf (from_currency s)) (kindOf (to_currency s))
              fromCurrency toCurrency (charting s)) as [[series | e] s2] eqn:Hbuild;
    destruct Hkeep as (_ & _ & Hregion & _); cbn [snd] in Hregion;
    unfold displayPriceChart, try_catch, showChartLoadingIndicator;
    unfold bind at 1 2 3 4; unfold modify at 1 2, get at 1;
    cbn [from_currency to_currency set_chart_container chart_container
         container_shown heading canvas_shown chart_loading chart_error];
    change (buildSeries host ?f ?t fromCurrency toCurrency _)
      with (buildSeries host (kindOf (from_currency s)) (kindOf (to_currency s))
              fromCurrency toCurrency (charting s));
    rewrite Hbuild;
    unfold hideChartLoadingIndicator, showChartError, createPriceChart, bind, modify;
    cbn [from_currency to_currency set_chart_container chart_container
         container_shown heading canvas_shown chart_loading chart_error];
    rewrite Hregion; reflexivity.
Qed.

End Region.

(** X12: [displayPriceChart] never throws.  It leaves the chart region shown
    with its loading marker hidden, and then either the series was built: the
    chart holds it, the canvas is shown, the heading names the pair, and the
    error marker is as it was before, so a marker shown by an earlier failure
    stays shown beside the new chart; or building the series failed: the
    error marker is shown, the canvas is hidden, and the chart and the
    heading of the previous pair are kept. *)
Theorem chart_region :
  forall (num : Type) (N : Number num) (host : Host num)
         (fromCurrency toCurrency : string) (s : State num),
  exists s',
    displayPriceChart host fromCurrency toCurrency s = (Returned tt, s')
    /\ container_shown (chart_container s') = true
    /\ chart_loading (chart_container s') = Some false
    /\ match (buildSeries host (kindOf (from_currency s)) (kindOf (to_currency s))
                fromCurrency toCurrency (charting s)).1 with
       | Returned series =>
           priceChart s' = Some series
           /\ canvas_shown (chart_container s') = true
           /\ heading (chart_container s') = chartHeading fromCurrency toCurrency
           /\ chart_error (chart_container s') = chart_error (chart_container s)
       | Thrown _ =>
           priceChart s' = priceChart s
           /\ canvas_shown (chart_container s') = false
           /\ heading (chart_container s') = heading (chart_container s)
           /\ chart_error (chart_container s') = Some (chartErrorMessage, true)
       end
    /\ (forall message, chart_error (chart_container s) = Some (message, true) ->
          exists message', chart_error (chart_container s') = Some (message', true)).
Proof.
  intros num N host fromCurrency toCurrency s.
  pose proof (displayPriceChart_run host fromCurrency toCurrency s) as Hrun.
  pose proof (buildSeries_keeps host (kindOf (from_currency s)) (kindOf (to_currency s))
                fromCurrency toCurrency (charting s)) as Hkeep.
  destruct (buildSeries host (kindOf (from_currency s)) (kindOf (to_currency s))
              fromCurrency toCurrency (charting s)) as [[series | e] s2];
    destruct Hkeep as (_ & Hchart & _); cbn [snd] in Hchart;
    eexists; (split; [exact Hrun |]); cbn; repeat split; eauto.
Qed.

(** *** The simulated series *)

Lemma simulatedValue_within (rate r : Q) :
  (0 <= rate)%Q -> (0 <= r)%Q -> (r < 1)%Q ->
  exists q, simulatedValue (EFin rate) (EFin r) = EFin q
            /\ ((98 # 100) * rate <= q)%Q /\ (q <= (102 # 100) * rate)%Q.
Proof.
  intros Hrate H0 H1. eexists. split; [reflexivity |]. split; nra.
Qed.

(** X13: when both currencies are fiat and the provider gives a rate for the
    pair, the series of the chart is simulated: 30 points labelled with the
    thirty days ending today, each the rate times one plus a variation drawn
    for it; in exact arithmetic, for a rate that is not negative and random
    numbers in [0, 1), every point lies within 2% of the rate.  One request
    is sent, for the table of the source currency, and 30 random numbers are
    drawn. *)
Theorem simulated_series :
  forall (host : Host exact) (s : State exact) (fromCurrency toCurrency : string)
         (table : gmap string exact) (rate : Q),
    rateTable host fromCurrency = Some table ->
    table !! toCurrency = Some (EFin rate) ->
    (0 <= rate)%Q ->
    (forall n, exists r, random host n = EFin r /\ (0 <= r)%Q /\ (r < 1)%Q) ->
    exists series s',
      getFiatCurrencyHistoricalData host fromCurrency toCurrency s
      = (Returned series, s')
      /\ labels series = thirtyDays host
      /\ length (data series) = 30
      /\ Forall (fun v => exists q, v = EFin q
                                    /\ ((98 # 100) * rate <= q)%Q
                                    /\ (q <= (102 # 100) * rate)%Q)
                (data series)
      /\ draws s' = draws s + 30
      /\ requests s' = requests s ++ [exchangeRateAPI +:+ fromCurrency].
Proof.
  intros host s fromCurrency toCurrency table rate Htable Hrate Hpositive Hrandom.
  eexists _, _.
  split; [apply (getFiatCurrencyHistoricalData_simulated host _ _ _ table Htable) |].
  cbn [labels data draws requests set_draws set_requests].
  split; [reflexivity |]. split; [| split; [| split; reflexivity]].
  - unfold nextDraws. now rewrite !length_map, length_seq.
  - unfold entry. rewrite Hrate. cbn [toNumber].
    apply List.Forall_forall. intros v Hv.
    apply in_map_iff in Hv as (x & <- & Hx). unfold nextDraws in Hx.
    apply in_map_iff in Hx as (i & <- & _).
    destruct (Hrandom (draws s + i)) as (r & -> & H0 & H1).
    now apply simulatedValue_within.
Qed.

(** A provider quoting EUR at 0.9 against USD, and draws of 0.25. *)
Lemma simulated_series_witness :
  exists series s',
    getFiatCurrencyHistoricalData (ex_host (ex_tables (EFin 0.9) (EFin 1.1)) (EFin 0.25))
      "USD" "EUR" (ex_pair_exact ex_USD ex_EUR) = (Returned series, s')
    /\ labels series = thirtyDays (ex_host (ex_tables (EFin 0.9) (EFin 1.1)) (EFin 0.25))
    /\ length (data series) = 30
    /\ Forall (fun v => exists q, v = EFin q
                                  /\ ((98 # 100) * 0.9 <= q)%Q
                                  /\ (q <= (102 # 100) * 0.9)%Q)
              (data series)
    /\ draws s' = draws (ex_pair_exact ex_USD ex_EUR) + 30
    /\ requests s' = requests (ex_pair_exact ex_USD ex_EUR) ++ [exchangeRateAPI +:+ "USD"].
Proof.
  apply (simulated_series (ex_host (ex_tables (EFin 0.9) (EFin 1.1)) (EFin 0.25))
           (ex_pair_exact ex_USD ex_EUR) "USD" "EUR" {[ "EUR" := EFin 0.9 ]} 0.9%Q).
  - reflexivity.
  - reflexivity.
  - discriminate.
  - intros n. exists 0.25%Q. split; [reflexivity |]. split; [discriminate | reflexivity].
Defined.

Lemma float_mul_nan (x : float) : PrimFloat.mul PrimFloat.nan x = PrimFloat.nan.
Proof.
  apply Prim2SF_inj. rewrite mul_spec. reflexivity.
Qed.

(** X14: when both currencies are fiat and the table of the source currency
    has no entry for the target code, the series is not the fallback: its 30
    values are all NaN (in any arithmetic in which NaN times a number is
    NaN, as in binary64), under the labels of the thirty days ending today. *)
Theorem undefined_rate_series :
  forall (num : Type) (N : Number num) (host : Host num) (s : State num)
         (fromCurrency toCurrency : string) (table : gmap string num),
    (forall x : num, (NaN * x)%num = NaN) ->
    rateTable host fromCurrency = Some table ->
    table !! toCurrency = None ->
    exists s',
      getFiatCurrencyHistoricalData host fromCurrency toCurrency s
      = (Returned {| labels := thirtyDays host; data := repeat NaN 30 |}, s')
      /\ requests s' = requests s ++ [exchangeRateAPI +:+ fromCurrency].
Proof.
  intros num N host s fromCurrency toCurrency table Hnan Htable Hmissing.
  exists (set_draws (draws s + 30)
            (set_requests (requests s ++ [exchangeRateAPI +:+ fromCurrency]) s)).
  rewrite (getFiatCurrencyHistoricalData_simulated host _ _ _ table Htable).
  split; [| reflexivity].
  unfold entry. rewrite Hmissing. cbn [toNumber]. unfold nextDraws. rewrite map_map.
  change (repeat NaN 30) with (map (fun _ : nat => (NaN : num)) (seq 0 30)).
  do 3 f_equal. apply map_ext. intros i. unfold simulatedValue. apply Hnan.
Qed.

(** USD to GBP against the table [{ EUR: 0.9 }], in binary64. *)
Lemma undefined_rate_series_witness :
  exists s',
    getFiatCurrencyHistoricalData (ex_host ex_usdTable (lit 0.5)) "USD" "GBP"
      (ex_pair ex_USD ex_GBP)
    = (Returned {| labels := thirtyDays (ex_host ex_usdTable (lit 0.5));
                   data := repeat NaN 30 |}, s')
    /\ requests s' = requests (ex_pair ex_USD ex_GBP) ++ [exchangeRateAPI +:+ "USD"].
Proof.
  apply (undefined_rate_series float _ (ex_host ex_usdTable (lit 0.5))
           (ex_pair ex_USD ex_GBP) "USD" "GBP" {[ "EUR" := lit 0.9 ]}).
  - exact float_mul_nan.
  - reflexivity.
  - reflexivity.
Defined.

(** *** The course of a conversion *)

Section Course.
Context {num : Type} `{Number num}.
Variable host : Host num.

Lemma getDataSourcesDescription_run fromCurrency toCurrency (s : State num) :
  getDataSourcesDescription fromCurrency toCurrency s
  = (Returned (credits (kindOf (from_currency s)) (kindOf (to_currency s))), s).
Proof.
  unfold getDataSourcesDescription, credits, kindOf, bind, get, ret.
  destruct (str_is (or_else (selectedType (from_currency s)) (Some "fiat")) "crypto"),
    (str_is (or_else (selectedType (to_currency s)) (Some "fiat")) "crypto"),
    (str_is (or_else (selectedType (from_currency s)) (Some "fiat")) "fiat"),
    (str_is (or_else (selectedType (to_currency s)) (Some "fiat")) "fiat");
    reflexivity.
Qed.

Lemma displayConversionResult_run originalAmount fromCurrency toCurrency exchangeRate
    (s : State num) :
  displayConversionResult host originalAmount fromCurrency
    (originalAmount * toNumber exchangeRate)%num toCurrency exchangeRate s
  = displayPriceChart host fromCurrency toCurrency
      (panelShown host originalAmount fromCurrency toCurrency exchangeRate s).
Proof.
  unfold displayConversionResult. unfold bind at 1.
  assert (Hclose : (if hasSwal host then Swal_close else ret tt) s
                   = (Returned tt, if hasSwal host then set_swal None s else s))
    by (destruct (hasSwal host); reflexivity).
  rewrite Hclose. unfold bind at 1. rewrite getDataSourcesDescription_run.
  unfold bind at 1 2 3. unfold modify at 1 2.
  unfold panelShown, conversionPanel, successToast, Swal_fire, modify, ret.
  destruct (hasSwal host); reflexivity.
Qed.

Lemma convertCurrency_invalid (s : State num) :
  truthy (selectedCode (from_currency s)) = true ->
  truthy (selectedCode (to_currency s)) = true ->
  falsy (parseFloat (amount s) : num)
  || ((parseFloat (amount s) : num) <=? lit 0)%num = true ->
  convertCurrency host s = showError host invalidAmountMessage s.
Proof.
  intros Hfrom Hto Hinvalid. unfold convertCurrency, bind at 1, get.
  rewrite Hfrom, Hto, Hinvalid. reflexivity.
Qed.

(** The run of an accepted request, by the outcome of the resolution of the
    rate. *)
Lemma convertCurrency_accepted (s : State num) :
  accepted s ->
  convertCurrency host s
  = match resolve host (selectedType (from_currency s)) (selectedType (to_currency s))
            (toString (selectedCode (from_currency s)))
            (toString (selectedCode (to_currency s))) (loading host s) with
    | (Returned exchangeRate, s2) =>
        displayPriceChart host (toString (selectedCode (from_currency s)))
          (toString (selectedCode (to_currency s)))
          (panelShown host (parseFloat (amount s))
             (toString (selectedCode (from_currency s)))
             (toString (selectedCode (to_currency s))) exchangeRate s2)
    | (Thrown _, s2) =>
        showError host quotationMessage (if hasSwal host then set_swal None s2 else s2)
    end.
Proof.
  intros (Hfrom & Hto & Hfalsy & Hle & Hne).
  unfold convertCurrency. unfold bind at 1. unfold get at 1.
  rewrite Hfrom, Hto, Hfalsy, Hle, Hne. cbn [negb orb].
  unfold try_catch, bind at 1. rewrite showLoadingIndicator_run.
  unfold bind at 1.
  destruct (resolve host (selectedType (from_currency s)) (selectedType (to_currency s))
              (toString (selectedCode (from_currency s)))
              (toString (selectedCode (to_currency s))) (loading host s))
    as [[exchangeRate | e] s2].
  - rewrite displayConversionResult_run.
    pose proof (displayPriceChart_returns host
                  (toString (selectedCode (from_currency s)))
                  (toString (selectedCode (to_currency s)))
                  (panelShown host (parseFloat (amount s))
                     (toString (selectedCode (from_currency s)))
                     (toString (selectedCode (to_currency s))) exchangeRate s2))
      as Hreturns.
    destruct (displayPriceChart host _ _ _) as [[[] | e] s'];
      [reflexivity | discriminate].
  - unfold bind at 1. destruct (hasSwal host); reflexivity.
Qed.

(** The requests of the builders of series. *)
Lemma getCryptocurrencyHistoricalData_requests cryptoCurrency targetCurrency isInverse
    (s : State num) :
  requests (getCryptocurrencyHistoricalData host cryptoCurrency targetCurrency
              isInverse s).2
  = requests s
    ++ match cryptoIdMap s !! toUpperCase cryptoCurrency with
       | Some id => if truthy (Some id) then [chartURL id] else []
       | None => []
       end.
Proof.
  unfold getCryptocurrencyHistoricalData, try_catch. unfold bind at 1.
  rewrite getCryptoId_run.
  destruct (cryptoIdMap s !! toUpperCase cryptoCurrency) as [id |];
    [| cbn; now rewrite app_nil_r].
  destruct (truthy (Some id)); [| cbn; now rewrite app_nil_r].
  cbn [negb toString]. fold (chartURL id). unfold bind, fetch, response_json.
  destruct (respond host (chartURL id)) as [| r]; [reflexivity |].
  cbn. destruct (ok r); [| reflexivity].
  cbn. destruct (json r) as [[| | | [prices |]] |]; reflexivity.
Qed.

Lemma getFiatCurrencyHistoricalData_requests fromCurrency toCurrency (s : State num) :
  requests (getFiatCurrencyHistoricalData host fromCurrency toCurrency s).2
  = requests s ++ [exchangeRateAPI +:+ fromCurrency].
Proof.
  destruct (rateTable host fromCurrency) as [table |] eqn:Htable.
  - now rewrite (getFiatCurrencyHistoricalData_simulated host _ _ _ table Htable).
  - now rewrite (getFiatCurrencyHistoricalData_fallback host _ _ _ Htable).
Qed.

Lemma buildSeries_requests fromType toType fromCurrency toCurrency (s : State num) :
  exists urls,
    requests (buildSeries host fromType toType fromCurrency toCurrency s).2
    = requests s ++ urls
    /\ length urls <= 1.
Proof.
  unfold buildSeries.
  destruct (str_is fromType "crypto"); [| destruct (str_is toType "crypto")];
    try (rewrite getCryptocurrencyHistoricalData_requests; eexists;
         split; [reflexivity |];
         match goal with |- context [cryptoIdMap s !! ?k] =>
           destruct (cryptoIdMap s !! k) as [id |]; [destruct (truthy (Some id)) |] end;
         cbn; lia).
  rewrite getFiatCurrencyHistoricalData_requests. eexists. split; [reflexivity |].
  cbn. lia.
Qed.

Lemma displayPriceChart_requests fromCurrency toCurrency (s : State num) :
  requests (displayPriceChart host fromCurrency toCurrency s).2
  = requests (buildSeries host (kindOf (from_currency s)) (kindOf (to_currency s))
                fromCurrency toCurrency (charting s)).2.
Proof.
  pose proof (displayPriceChart_run host fromCurrency toCurrency s) as Hrun.
  destruct (buildSeries host (kindOf (from_currency s)) (kindOf (to_currency s))
              fromCurrency toCurrency (charting s)) as [[series | e] s2];
    rewrite Hrun; reflexivity.
Qed.

End Course.

Section Completion.
Context {num : Type} `{Number num}.
Variable host : Host num.

Lemma showError_keeps_static (message : string) (s : State num) :
  currencyNames (showError host message s).2 = currencyNames s
  /\ popularCurrencyCodes (showError host message s).2 = popularCurrencyCodes s
  /\ fallbackCryptoCurrencies (showError host message s).2
     = fallbackCryptoCurrencies s.
Proof.
  unfold showError, Swal_fire, bind, modify. destruct (hasSwal host); cbn; auto.
Qed.

Lemma rejected_ran (message : string) (s : State num) :
  convertCurrency host s = showError host message s ->
  exists s', convertCurrency host s = (Returned tt, s') /\ conversionRan s s'.
Proof.
  intros Hrejected. destruct (showError_spec host message s) as (s' & Hrun & Hshown).
  exists s'. split; [now rewrite Hrejected |].
  destruct Hshown as (Hbtn & _ & Hrequests & _ & Hall & Hindex & _ & Hfrom & Hto
                      & Hamount & _).
  pose proof (showError_keeps_static message s) as Hstatic.
  rewrite Hrun in Hstatic. cbn [snd] in Hstatic.
  destruct Hstatic as (Hnames & Hpopular & Hfallback).
  unfold conversionRan. repeat (split; [assumption |]).
  exists []. rewrite app_nil_r. split; [assumption | cbn; lia].
Qed.

Lemma loading_frame (s : State num) :
  allCurrencies (loading host s) = allCurrencies s
  /\ currencyNames (loading host s) = currencyNames s
  /\ popularCurrencyCodes (loading host s) = popularCurrencyCodes s
  /\ fallbackCryptoCurrencies (loading host s) = fallbackCryptoCurrencies s
  /\ amount (loading host s) = amount s.
Proof.
  unfold loading, showLoadingIndicator, Swal_fire, bind, modify.
  destruct (hasSwal host); cbn; auto.
Qed.

Lemma panelShown_frame originalAmount fromCurrency toCurrency exchangeRate
    (s : State num) :
  let s' := panelShown host originalAmount fromCurrency toCurrency exchangeRate s in
  convert_btn_disabled s' = false
  /\ requests s' = requests s
  /\ draws s' = draws s
  /\ allCurrencies s' = allCurrencies s
  /\ cryptoIdMap s' = cryptoIdMap s
  /\ currencyNames s' = currencyNames s
  /\ popularCurrencyCodes s' = popularCurrencyCodes s
  /\ fallbackCryptoCurrencies s' = fallbackCryptoCurrencies s
  /\ from_currency s' = from_currency s
  /\ to_currency s' = to_currency s
  /\ amount s' = amount s
  /\ priceChart s' = priceChart s
  /\ chart_container s' = chart_container s
  /\ result s'
     = conversionPanel originalAmount fromCurrency toCurrency exchangeRate
         (credits (kindOf (from_currency s)) (kindOf (to_currency s))).
Proof.
  unfold panelShown. destruct (hasSwal host); cbn; repeat split.
Qed.

Lemma accepted_ran (s : State num) :
  accepted s ->
  exists s', convertCurrency host s = (Returned tt, s') /\ conversionRan s s'.
Proof.
  intros Haccepted. rewrite (convertCurrency_accepted host s Haccepted).
  pose proof (resolve_requests host (selectedType (from_currency s))
                (selectedType (to_currency s))
                (toString (selectedCode (from_currency s)))
                (toString (selectedCode (to_currency s))) (loading host s)) as Hurls.
  pose proof (resolve_keeps host (selectedType (from_currency s))
                (selectedType (to_currency s))
                (toString (selectedCode (from_currency s)))
                (toString (selectedCode (to_currency s))) (loading host s)) as Hkeep.
  destruct (loading_fields host s) as (Hlr & _ & Hli & Hlf & Hlt & _).
  destruct (loading_frame s) as (Hla & Hln & Hlp & Hlb & Hlm).
  destruct (resolve host (selectedType (from_currency s)) (selectedType (to_currency s))
              (toString (selectedCode (from_currency s)))
              (toString (selectedCode (to_currency s))) (loading host s))
    as [out s2].
  destruct (Hurls out s2 eq_refl) as (urls & Hrequests & Hlength & _).
  cbn [snd] in Hkeep.
  destruct Hkeep as (_ & _ & _ & _ & Hall & Hindex & Hnames & Hpopular & Hfallback
                     & Hfrom & Hto & Hamount & _).
  destruct out as [exchangeRate | e].
  - set (s3 := panelShown host (parseFloat (amount s))
                 (toString (selectedCode (from_currency s)))
                 (toString (selectedCode (to_currency s))) exchangeRate s2).
    destruct (panelShown_frame (parseFloat (amount s))
                (toString (selectedCode (from_currency s)))
                (toString (selectedCode (to_currency s))) exchangeRate s2)
      as (Hbtn3 & Hreq3 & _ & Hall3 & Hindex3 & Hnames3 & Hpopular3 & Hfallback3
          & Hfrom3 & Hto3 & Hamount3 & _).
    fold s3 in Hbtn3, Hreq3, Hall3, Hindex3, Hnames3, Hpopular3, Hfallback3, Hfrom3,
      Hto3, Hamount3.
    pose proof (displayPriceChart_returns host
                  (toString (selectedCode (from_currency s)))
                  (toString (selectedCode (to_currency s))) s3) as Hreturns.
    pose proof (displayPriceChart_keeps host
                  (toString (selectedCode (from_currency s)))
                  (toString (selectedCode (to_currency s))) s3) as Hchart.
    pose proof (displayPriceChart_requests host
                  (toString (selectedCode (from_currency s)))
                  (toString (selectedCode (to_currency s))) s3) as Hchartreq.
    destruct (buildSeries_requests host (kindOf (from_currency s3))
                (kindOf (to_currency s3))
                (toString (selectedCode (from_currency s)))
                (toString (selectedCode (to_currency s))) (charting s3))
      as (urls' & Hbuilt & Hlength').
    rewrite Hbuilt in Hchartreq. change (requests (charting s3)) with (requests s3) in Hchartreq.
    destruct (displayPriceChart host _ _ s3) as [out s'].
    cbn [fst snd] in Hreturns, Hchart, Hchartreq. subst out.
    destruct Hchart as (_ & Hall' & Hindex' & Hnames' & Hpopular' & Hfallback'
                        & Hfrom' & Hto' & Hamount' & Hbtn' & _).
    exists s'. split; [reflexivity |]. unfold conversionRan.
    split; [congruence |]. split; [congruence |]. split; [congruence |].
    split; [congruence |]. split; [congruence |]. split; [congruence |].
    split; [congruence |]. split; [congruence |]. split; [congruence |].
    exists (urls ++ urls'). split.
    + rewrite Hchartreq, Hreq3, Hrequests, Hlr. now rewrite app_assoc.
    + rewrite length_app. lia.
  - destruct (showError_spec host quotationMessage
                (if hasSwal host then set_swal None s2 else s2))
      as (s' & Hrun & Hshown).
    pose proof (showError_keeps_static quotationMessage
                  (if hasSwal host then set_swal None s2 else s2)) as Hstatic.
    rewrite Hrun in Hstatic. cbn [snd] in Hstatic.
    destruct Hstatic as (Hnames' & Hpopular' & Hfallback').
    destruct Hshown as (Hbtn' & _ & Hrequests' & _ & Hall' & Hindex' & _ & Hfrom'
                        & Hto' & Hamount' & _).
    exists s'. split; [exact Hrun |]. unfold conversionRan.
    assert (Hclosed : forall (A : Type) (field : State num -> A),
              (forall v s0, field (set_swal v s0) = field s0) ->
              field (if hasSwal host then set_swal None s2 else s2) = field s2)
      by (intros A field Hfield; destruct (hasSwal host); auto).
    rewrite (Hclosed _ requests) in Hrequests' by reflexivity.
    rewrite (Hclosed _ allCurrencies) in Hall' by reflexivity.
    rewrite (Hclosed _ cryptoIdMap) in Hindex' by reflexivity.
    rewrite (Hclosed _ currencyNames) in Hnames' by reflexivity.
    rewrite (Hclosed _ popularCurrencyCodes) in Hpopular' by reflexivity.
    rewrite (Hclosed _ fallbackCryptoCurrencies) in Hfallback' by reflexivity.
    rewrite (Hclosed _ from_currency) in Hfrom' by reflexivity.
    rewrite (Hclosed _ to_currency) in Hto' by reflexivity.
    rewrite (Hclosed _ amount) in Hamount' by reflexivity.
    split; [congruence |]. split; [congruence |]. split; [congruence |].
    split; [congruence |]. split; [congruence |]. split; [congruence |].
    split; [congruence |]. split; [congruence |]. split; [congruence |].
    exists urls. split; [congruence | lia].
Qed.

End Completion.

(** X15: [convertCurrency] always completes: whatever the page holds and
    whatever the providers answer it returns without throwing and leaves the
    submit control enabled; it sends at most three requests (at most two for
    the rate and at most one for the chart), and it never changes the
    catalogue, the index of asset ids, the static data, the text and the
    selection of the two inputs, or the amount field. *)
Theorem convertCurrency_completes :
  forall (num : Type) (N : Number num) (host : Host num) (s : State num),
  exists s',
    convertCurrency host s = (Returned tt, s') /\ conversionRan s s'.
Proof.
  intros num N host s.
  destruct (negb (truthy (selectedCode (from_currency s)))
            || negb (truthy (selectedCode (to_currency s)))) eqn:Hselected.
  { apply (rejected_ran host selectBothMessage), convertCurrency_unselected, Hselected. }
  apply orb_false_elim in Hselected as [Hfrom Hto].
  apply negb_false_iff in Hfrom, Hto.
  destruct (falsy (parseFloat (amount s) : num)
            || ((parseFloat (amount s) : num) <=? lit 0)%num) eqn:Hamount.
  { apply (rejected_ran host invalidAmountMessage).
    now apply convertCurrency_invalid. }
  apply orb_false_elim in Hamount as [Hfalsy Hpositive].
  destruct (String.eqb (toString (selectedCode (from_currency s)))
                       (toString (selectedCode (to_currency s)))) eqn:Hsame.
  { apply (rejected_ran host sameCurrencyMessage).
    now apply convertCurrency_same. }
  apply accepted_ran. unfold accepted. auto.
Qed.

(** X16: the whole run of a conversion between two fiat currencies whose
    table the provider gives: the table of the source currency is requested
    twice, once for the rate and once more for the chart; the panel shows the
    amount times the entry of the target code and credits ExchangeRate-API
    alone; and the chart, headed by the pair, holds the series simulated
    around that same entry from the next 30 random numbers. *)
Theorem fiat_conversion_run :
  forall (num : Type) (N : Number num) (host : Host num) (s : State num)
         (fromCode toCode : string) (table : gmap string num),
    accepted s ->
    selectedCode (from_currency s) = Some fromCode ->
    selectedCode (to_currency s) = Some toCode ->
    selectedType (from_currency s) = Some "fiat" ->
    selectedType (to_currency s) = Some "fiat" ->
    rateTable host fromCode = Some table ->
    exists s',
      convertCurrency host s = (Returned tt, s')
      /\ requests s'
         = requests s ++ [exchangeRateAPI +:+ fromCode; exchangeRateAPI +:+ fromCode]
      /\ draws s' = draws s + 30
      /\ result s'
         = conversionPanel (parseFloat (amount s)) fromCode toCode
             (entry table toCode) creditExchangeRate
      /\ priceChart s'
         = Some {| labels := thirtyDays host;
                   data := map (simulatedValue (toNumber (entry table toCode)))
                               (nextDraws host s 30) |}
      /\ heading (chart_container s') = chartHeading fromCode toCode
      /\ canvas_shown (chart_container s') = true.
Proof.
  intros num N host s fromCode toCode table Haccepted Hfrom Hto Hfromtype Htotype Htable.
  rewrite (convertCurrency_accepted host s Haccepted).
  rewrite Hfrom, Hto, Hfromtype, Htotype. cbn [toString].
  change (resolve host (Some "fiat") (Some "fiat") fromCode toCode)
    with (getFiatToFiatExchangeRate host fromCode toCode).
  rewrite (getFiatToFiatExchangeRate_table host _ _ _ table Htable).
  set (s2 := set_requests (requests (loading host s) ++ [exchangeRateAPI +:+ fromCode])
               (loading host s)).
  set (s3 := panelShown host (parseFloat (amount s)) fromCode toCode
               (entry table toCode) s2).
  assert (Hfrom3 : from_currency s3 = from_currency s).
  { unfold s3, s2, panelShown, loading, showLoadingIndicator, Swal_fire, bind, modify.
    destruct (hasSwal host); reflexivity. }
  assert (Hto3 : to_currency s3 = to_currency s).
  { unfold s3, s2, panelShown, loading, showLoadingIndicator, Swal_fire, bind, modify.
    destruct (hasSwal host); reflexivity. }
  pose proof (displayPriceChart_run host fromCode toCode s3) as Hrun.
  unfold kindOf in Hrun. rewrite Hfrom3, Hto3, Hfromtype, Htotype in Hrun.
  change (buildSeries host (or_else (Some "fiat") (Some "fiat"))
            (or_else (Some "fiat") (Some "fiat")) fromCode toCode)
    with (getFiatCurrencyHistoricalData host fromCode toCode) in Hrun.
  rewrite (getFiatCurrencyHistoricalData_simulated host _ _ _ table Htable) in Hrun.
  eexists. split; [exact Hrun |].
  unfold s3, s2, panelShown, loading, showLoadingIndicator, Swal_fire, bind, modify,
    kindOf, nextDraws.
  destruct (hasSwal host); cbn; rewrite Hfromtype, Htotype, <- app_assoc;
    repeat split.
Qed.

(** 100 USD to EUR against the table [{ EUR: 0.9 }]. *)
Lemma fiat_conversion_run_witness :
  exists s',
    convertCurrency (ex_host ex_usdTable (lit 0.5)) ex_usd_eur_100 = (Returned tt, s')
    /\ requests s'
       = requests ex_usd_eur_100
         ++ [exchangeRateAPI +:+ "USD"; exchangeRateAPI +:+ "USD"]
    /\ draws s' = draws ex_usd_eur_100 + 30
    /\ result s'
       = conversionPanel (parseFloat (amount ex_usd_eur_100)) "USD" "EUR"
           (entry {[ "EUR" := lit 0.9 ]} "EUR") creditExchangeRate
    /\ priceChart s'
       = Some {| labels := thirtyDays (ex_host ex_usdTable (lit 0.5));
                 data := map (simulatedValue
                                (toNumber (entry ({[ "EUR" := lit 0.9 ]}
                                                  : gmap string float) "EUR")))
                             (nextDraws (ex_host ex_usdTable (lit 0.5))
                                ex_usd_eur_100 30) |}
    /\ heading (chart_container s') = chartHeading "USD" "EUR"
    /\ canvas_shown (chart_container s') = true.
Proof.
  apply (fiat_conversion_run float _ (ex_host ex_usdTable (lit 0.5)) ex_usd_eur_100
           "USD" "EUR" {[ "EUR" := lit 0.9 ]});
    try reflexivity.
  unfold accepted. repeat split.
Defined.

(** X17: in a conversion from a cryptocurrency to USD the price is requested
    for the asset id stored with the selection, while the chart is requested
    for the id the index gives for the code, whether or not the two agree;
    when the index has no id for the code no chart is requested and the
    error marker of the chart is shown beside the result of the conversion.
    The panel shows the amount times the price and credits both providers,
    although only CoinGecko is asked. *)
Theorem crypto_conversion_ids :
  forall (num : Type) (N : Number num) (host : Host num) (s : State num)
         (fromCode id : string) (r : Response num)
         (entries : gmap string (option num)) (price : num),
    accepted s ->
    selectedCode (from_currency s) = Some fromCode ->
    selectedCode (to_currency s) = Some "USD" ->
    selectedType (from_currency s) = Some "crypto" ->
    selectedType (to_currency s) = Some "fiat" ->
    selectedId (from_currency s) = Some id ->
    id <> "" ->
    respond host (priceURL id) = Responded r ->
    json r = Some (PricesBody entries) ->
    entries !! id = Some (Some price) ->
    exists s',
      convertCurrency host s = (Returned tt, s')
      /\ result s'
         = conversionPanel (parseFloat (amount s)) fromCode "USD" (VNumber price)
             creditBoth
      /\ requests s'
         = requests s
           ++ priceURL id
              :: match cryptoIdMap s !! toUpperCase fromCode with
                 | Some id' => if truthy (Some id') then [chartURL id'] else []
                 | None => []
                 end
      /\ (cryptoIdMap s !! toUpperCase fromCode = None ->
          chart_error (chart_container s') = Some (chartErrorMessage, true)
          /\ canvas_shown (chart_container s') = false
          /\ priceChart s' = priceChart s).
Proof.
  intros num N host s fromCode id r entries price Haccepted Hfrom Hto Hfromtype
    Htotype Hid Hne Hrespond Hjson Hprice.
  rewrite (convertCurrency_accepted host s Haccepted).
  rewrite Hfrom, Hto, Hfromtype, Htotype. cbn [toString].
  change (resolve host (Some "crypto") (Some "fiat") fromCode "USD")
    with (getCryptoToFiatExchangeRate host fromCode "USD").
  destruct (loading_fields host s) as (Hlr & Hld & Hli & Hlf & Hlt & Hlc).
  assert (Hresolved : resolvedId (loading host s) (from_currency (loading host s))
                        fromCode = id).
  { unfold resolvedId, or_else. now rewrite Hlf, Hid, (truthy_Some id Hne). }
  rewrite (getCryptoToFiatExchangeRate_usd host fromCode (loading host s) r entries
             price)
    by (rewrite ?Hresolved; assumption).
  rewrite Hresolved.
  set (s2 := set_requests (requests (loading host s) ++ [priceURL id]) (loading host s)).
  set (s3 := panelShown host (parseFloat (amount s)) fromCode "USD" (VNumber price) s2).
  destruct (panelShown_frame host (parseFloat (amount s)) fromCode "USD"
              (VNumber price) s2)
    as (_ & Hreq3 & _ & _ & Hindex3 & _ & _ & _ & Hfrom3 & Hto3 & _ & Hchart3
        & Hregion3 & Hresult3).
  fold s3 in Hreq3, Hindex3, Hfrom3, Hto3, Hchart3, Hregion3, Hresult3.
  change (from_currency s2) with (from_currency (loading host s)) in Hfrom3, Hresult3.
  change (to_currency s2) with (to_currency (loading host s)) in Hto3, Hresult3.
  change (cryptoIdMap s2) with (cryptoIdMap (loading host s)) in Hindex3.
  change (priceChart s2) with (priceChart (loading host s)) in Hchart3.
  rewrite Hlf, Hlt in Hresult3. rewrite Hlf in Hfrom3. rewrite Hlt in Hto3.
  rewrite Hli in Hindex3. rewrite Hlc in Hchart3.
  unfold kindOf in Hresult3. rewrite Hfromtype, Htotype in Hresult3.
  change (credits (or_else (Some "crypto") (Some "fiat"))
            (or_else (Some "fiat") (Some "fiat"))) with creditBoth in Hresult3.
  pose proof (displayPriceChart_returns host fromCode "USD" s3) as Hreturns.
  pose proof (displayPriceChart_keeps host fromCode "USD" s3) as Hkeep.
  pose proof (displayPriceChart_requests host fromCode "USD" s3) as Hrequests.
  pose proof (displayPriceChart_run host fromCode "USD" s3) as Hrun.
  unfold kindOf in Hrequests, Hrun. rewrite Hfrom3, Hto3, Hfromtype, Htotype in Hrequests, Hrun.
  change (buildSeries host (or_else (Some "crypto") (Some "fiat"))
            (or_else (Some "fiat") (Some "fiat")) fromCode "USD")
    with (getCryptocurrencyHistoricalData host fromCode "USD" false) in Hrequests, Hrun.
  rewrite getCryptocurrencyHistoricalData_requests in Hrequests.
  change (cryptoIdMap (charting s3)) with (cryptoIdMap s3) in Hrequests.
  change (requests (charting s3)) with (requests s3) in Hrequests.
  rewrite Hindex3, Hreq3 in Hrequests.
  change (requests s2) with (requests (loading host s) ++ [priceURL id]) in Hrequests.
  rewrite Hlr, <- app_assoc in Hrequests. cbn [app] in Hrequests.
  destruct (displayPriceChart host fromCode "USD" s3) as [out s'] eqn:Hchart.
  cbn [fst snd] in Hreturns, Hkeep, Hrequests. subst out.
  destruct Hkeep as (_ & _ & _ & _ & _ & _ & _ & _ & _ & _ & Hresult' & _).
  exists s'. split; [reflexivity |].
  split; [now rewrite Hresult', Hresult3 |]. split; [exact Hrequests |].
  intros Hmissing.
  assert (Hthrown : exists e s4,
            getCryptocurrencyHistoricalData host fromCode "USD" false (charting s3)
            = (Thrown e, s4) /\ priceChart s4 = priceChart s3).
  { unfold getCryptocurrencyHistoricalData, try_catch. unfold bind at 1.
    rewrite getCryptoId_run.
    change (cryptoIdMap (charting s3)) with (cryptoIdMap s3).
    rewrite Hindex3, Hmissing. cbn. eauto. }
  destruct Hthrown as (e & s4 & Hthrown & Hchart4).
  rewrite Hthrown in Hrun. injection Hrun as ->. cbn.
  repeat split. now rewrite Hchart4.
Qed.

(** Tether selected with the id [tether], the index giving [bridged-usdt]
    for USDT: the price of the first and the history of the second are
    requested. *)
Lemma crypto_conversion_ids_witness :
  exists s',
    convertCurrency (ex_host ex_tether_price (lit 0.5)) ex_tether = (Returned tt, s')
    /\ result s'
       = conversionPanel (parseFloat (amount ex_tether)) "USDT" "USD"
           (VNumber (lit 1)) creditBoth
    /\ requests s' = [priceURL "tether"; chartURL "bridged-usdt"]
    /\ (cryptoIdMap ex_tether !! toUpperCase "USDT" = None ->
        chart_error (chart_container s') = Some (chartErrorMessage, true)
        /\ canvas_shown (chart_container s') = false
        /\ priceChart s' = priceChart ex_tether).
Proof.
  refine (crypto_conversion_ids float _ (ex_host ex_tether_price (lit 0.5)) ex_tether
            "USDT" "tether" {| status := 200;
                               json := Some (PricesBody {[ "tether" := Some (lit 1) ]}) |}
            {[ "tether" := Some (lit 1) ]} (lit 1) _ eq_refl eq_refl eq_refl eq_refl
            eq_refl _ eq_refl eq_refl eq_refl).
  - unfold accepted. repeat split.
  - discriminate.
Defined.

(** After a chart that failed, the history of bitcoin arrives: the canvas is
    shown and the error marker is still shown. *)
Lemma chart_region_witness :
  exists s',
    displayPriceChart (ex_host ex_history (lit 0.5)) "BTC" "USD" ex_after_chart_error
    = (Returned tt, s')
    /\ canvas_shown (chart_container s') = true
    /\ exists message', chart_error (chart_container s') = Some (message', true).
Proof.
  destruct (chart_region float _ (ex_host ex_history (lit 0.5)) "BTC" "USD"
              ex_after_chart_error)
    as (s' & Hrun & _ & _ & Hbuilt & Hmarker).
  exists s'. split; [exact Hrun |]. split.
  - exact (proj1 (proj2 Hbuilt)).
  - exact (Hmarker chartErrorMessage eq_refl).
Defined.

(** The ranking of [ex_ranking] on a page whose index already resolves XYZ:
    USDT resolves to the second of the two assets of that symbol, and XYZ
    still resolves. *)
Lemma index_after_loading_witness :
  let s : State float :=
    ex_state [] {[ "XYZ" := "xyz-coin" ]} ex_emptyInput ex_emptyInput "" in
  exists crypto s',
    loadCryptoCurrencies (ex_host ex_ranking (lit 0.5)) s = (Returned crypto, s')
    /\ getCryptoId "usdt" s' = (Returned (Some "bridged-usdt"), s')
    /\ is_Some (cryptoIdMap s' !! "XYZ").
Proof.
  intros s.
  destruct (index_after_loading float _ (ex_host ex_ranking (lit 0.5)) s "usdt")
    as (crypto & s' & Hrun & Hid & _).
  destruct (index_after_loading float _ (ex_host ex_ranking (lit 0.5)) s "xyz")
    as (crypto' & s'' & Hrun' & _ & Hkept).
  rewrite Hrun in Hrun'. injection Hrun' as _ <-.
  exists crypto, s'. split; [exact Hrun |]. split; [exact Hid |].
  apply Hkept. now exists "xyz-coin".
Defined.

(** *** A price of zero *)

(** X18: a price of zero is not turned down.  In binary64, converting USD to
    a cryptocurrency quoted at 0 USD gives the rate Infinity, and converting
    between two cryptocurrencies both quoted at 0 USD gives the rate NaN;
    neither throws. *)
Theorem zero_price_rate :
  forall (host : Host float) (s : State float) (fromCrypto toCrypto : string)
         (r : Response float) (entries : gmap string (option float)),
    (respond host (priceURL (resolvedId s (to_currency s) toCrypto)) = Responded r ->
     json r = Some (PricesBody entries) ->
     entries !! resolvedId s (to_currency s) toCrypto = Some (Some (lit 0)) ->
     (getFiatToCryptoExchangeRate host "USD" toCrypto s).1
     = Returned (VNumber Infinity))
    /\ (respond host (pairPriceURL (resolvedId s (from_currency s) fromCrypto)
                                   (resolvedId s (to_currency s) toCrypto))
        = Responded r ->
        ok r = true ->
        json r = Some (PricesBody entries) ->
        entries !! resolvedId s (from_currency s) fromCrypto = Some (Some (lit 0)) ->
        entries !! resolvedId s (to_currency s) toCrypto = Some (Some (lit 0)) ->
        exists x, (getCryptoToCryptoExchangeRate host fromCrypto toCrypto s).1
                  = Returned (VNumber x)
                  /\ n_isNaN x = true).
Proof.
  intros host s fromCrypto toCrypto r entries. split.
  - intros Hrespond Hjson Hprice.
    now rewrite (getFiatToCryptoExchangeRate_usd host toCrypto s r entries (lit 0)).
  - intros Hrespond Hok Hjson Hfrom Hto.
    rewrite (getCryptoToCryptoExchangeRate_returned host fromCrypto toCrypto s r
               entries (lit 0) (lit 0)) by assumption.
    eexists. split; reflexivity.
Qed.

(** USD to bitcoin, with bitcoin quoted at 0 USD. *)
Lemma zero_price_rate_witness :
  (getFiatToCryptoExchangeRate (ex_host ex_worthless (lit 0.5)) "USD" "BTC"
     (ex_pair ex_USD ex_BTC)).1
  = Returned (VNumber Infinity).
Proof.
  exact (proj1 (zero_price_rate (ex_host ex_worthless (lit 0.5)) (ex_pair ex_USD ex_BTC)
                  "BTC" "BTC"
                  {| status := 200;
                     json := Some (PricesBody {[ "bitcoin" := Some (lit 0) ]}) |}
                  {[ "bitcoin" := Some (lit 0) ]})
           eq_refl eq_refl eq_refl).
Defined.

(** *** Picking an item *)

Lemma prefix_append (a b : string) : String.prefix a (a +:+ b) = true.
Proof.
  induction a as [| c a IH]; [now destruct b |].
  change (String.prefix (String c a) (String c (a +:+ b)) = true).
  unfold String.prefix; fold String.prefix.
  destruct (ascii_dec c c); [exact IH | congruence].
Qed.

Lemma prefix_append_append (a b c : string) :
  String.prefix (a +:+ b) (a +:+ b +:+ c) = true.
Proof.
  induction a as [| ch a IH]; [exact (prefix_append b c) |].
  change (String.prefix (String ch (a +:+ b)) (String ch (a +:+ b +:+ c)) = true).
  unfold String.prefix; fold String.prefix.
  destruct (ascii_dec ch ch); [exact IH | congruence].
Qed.

(** X19: a click on the item of a catalogue entry writes [code - name] in the
    input, stores the code and the type of the entry in the dataset, and
    hides the list.  The id of the entry is stored when it has one, and then
    it is the id rate resolution uses for that input, whatever the index
    holds; when the entry has no id, the id stored by an earlier selection is
    left in the dataset.  An [input] event that finds the text as the click
    left it keeps the selection. *)
Theorem click_selects :
  forall (num : Type) (s : State num) (c : Currency) (w : Autocomplete),
    let w' := clickListener (itemOf c) w in
    value (ac_input w') = code c +:+ " - " +:+ name c
    /\ selectedCode (ac_input w') = Some (code c)
    /\ selectedType (ac_input w') = Some (type c)
    /\ selectedId (ac_input w')
       = (if truthy (cid c) then cid c else selectedId (ac_input w))
    /\ show (ac_list w') = false
    /\ children (ac_list w') = children (ac_list w)
    /\ (forall id, cid c = Some id -> id <> "" ->
                   resolvedId s (ac_input w') (code c) = id)
    /\ ac_input (inputListener s w') = ac_input w'.
Proof.
  intros num s c w w'.
  assert (Hinput : ac_input w'
                   = {| value := code c +:+ " - " +:+ name c;
                        placeholder := placeholder (ac_input w);
                        disabled := disabled (ac_input w);
                        selectedCode := Some (code c);
                        selectedType := Some (type c);
                        selectedId := if truthy (cid c) then cid c
                                      else selectedId (ac_input w) |}).
  { unfold w', clickListener, selectCurrency, itemOf.
    cbn [ac_input item_code item_name item_type item_id].
    destruct (truthy (cid c)) eqn:Hcid; [rewrite Hcid |]; reflexivity. }
  rewrite Hinput. cbn [value selectedCode selectedType selectedId].
  repeat match goal with |- _ /\ _ => split end; try reflexivity.
  - intros id Hid Hne. unfold resolvedId. cbn [selectedId].
    rewrite Hid, (truthy_Some id Hne). unfold or_else.
    now rewrite (truthy_Some id Hne).
  - unfold inputListener, rendered. cbn [ac_input]. rewrite Hinput.
    cbn [value selectedCode toString].
    destruct (truthy (Some (code c))); [| reflexivity].
    rewrite prefix_substring.
    now rewrite prefix_append_append, orb_true_r.
Qed.

(** Bitcoin picked on a page whose index is empty: its id is the one stored
    with the selection. *)
Lemma click_selects_witness :
  let s : State float := ex_state [ex_BTC] ∅ ex_emptyInput ex_emptyInput "" in
  let w' := clickListener (itemOf ex_BTC) (ex_autocomplete ex_emptyInput "bit") in
  value (ac_input w') = "BTC - Bitcoin"
  /\ resolvedId s (ac_input w') "BTC" = "bitcoin"
  /\ ac_input (inputListener s w') = ac_input w'.
Proof.
  intros s w'.
  destruct (click_selects float s ex_BTC (ex_autocomplete ex_emptyInput "bit"))
    as (Hvalue & _ & _ & _ & _ & _ & Hid & Hkept).
  split; [exact Hvalue |]. split; [| exact Hkept].
  apply Hid; [reflexivity | discriminate].
Defined.

(** *** Searching *)

Lemma lowerChar_upperChar (c : ascii) : lowerChar (upperChar c) = lowerChar c.
Proof. destruct c as [[] [] [] [] [] [] [] []]; reflexivity. Qed.

Lemma toLowerCase_toUpperCase (text : string) :
  toLowerCase (toUpperCase text) = toLowerCase text.
Proof.
  induction text as [| c text IH]; cbn; [reflexivity |].
  now rewrite lowerChar_upperChar, IH.
Qed.

Lemma length_toUpperCase (text : string) :
  String.length (toUpperCase text) = String.length text.
Proof. induction text as [| c text IH]; cbn; congruence. Qed.

Lemma string_prefix_refl (text : string) : String.prefix text text = true.
Proof.
  induction text as [| c text IH]; [reflexivity |].
  unfold String.prefix; fold String.prefix.
  destruct (ascii_dec c c); [exact IH | congruence].
Qed.

Lemma includes_refl (text : string) : includes text text = true.
Proof. destruct text; cbn [includes]; now rewrite string_prefix_refl. Qed.

Lemma matchesQuery_toUpperCase (query : string) (currency : Currency) :
  matchesQuery (toUpperCase query) currency = matchesQuery query currency.
Proof. unfold matchesQuery. now rewrite toLowerCase_toUpperCase. Qed.

(** X20: the search does not depend on the case of the query: the query in
    upper case has the same matches, gives the same items and shows or hides
    the list alike.  An entry whose code is the query, up to case, always
    matches, so the list is shown, and with at least one item when the entry
    is of type fiat or crypto. *)
Theorem search_ignores_case :
  forall (num : Type) (s : State num) (query : string) (listEl : ListEl),
    matchesOf (allCurrencies s) (toUpperCase query) = matchesOf (allCurrencies s) query
    /\ itemsOf (children (showAutocompleteResults s (toUpperCase query) listEl))
       = itemsOf (children (showAutocompleteResults s query listEl))
    /\ show (showAutocompleteResults s (toUpperCase query) listEl)
       = show (showAutocompleteResults s query listEl)
    /\ (forall c, c ∈ allCurrencies s ->
                  toLowerCase (code c) = toLowerCase query ->
                  query <> "" ->
                  c ∈ matchesOf (allCurrencies s) query
                  /\ show (showAutocompleteResults s query listEl) = true
                  /\ (type c = "fiat" \/ type c = "crypto" ->
                      itemsOf (children (showAutocompleteResults s query listEl))
                      <> [])).
Proof.
  intros num s query listEl.
  assert (Hmatches : matchesOf (allCurrencies s) (toUpperCase query)
                     = matchesOf (allCurrencies s) query).
  { unfold matchesOf. apply list_filter_iff. intros c.
    now rewrite matchesQuery_toUpperCase. }
  split; [exact Hmatches |].
  assert (Hrun : forall q,
            showAutocompleteResults s q listEl
            = if (String.length q =? 0)%nat then {| children := []; show := false |}
              else if (length (allCurrencies s) =? 0)%nat
              then {| children := []; show := false |}
              else if (0 <? length (matchesOf (allCurrencies s) q))%nat
              then set_show true
                     (renderCurrencyGroups {| children := []; show := show listEl |}
                        (matchesOf (allCurrencies s) q))
              else if (2 <=? String.length q)%nat
              then {| children := [NoResults q]; show := true |}
              else {| children := []; show := false |}).
  { intros q. unfold showAutocompleteResults, matchesOf.
    destruct (String.length q) as [| n]; [reflexivity |]. cbn [Nat.eqb Nat.leb].
    destruct (length (allCurrencies s) =? 0)%nat; [reflexivity |].
    destruct (0 <? _)%nat; [reflexivity |]. destruct n; reflexivity. }
  split; [| split].
  - rewrite !Hrun, length_toUpperCase, Hmatches.
    repeat match goal with |- context [if ?b then _ else _] => destruct b end;
      reflexivity.
  - rewrite !Hrun, length_toUpperCase, Hmatches.
    repeat match goal with |- context [if ?b then _ else _] => destruct b end;
      reflexivity.
  - intros c Hc Hcode Hquery.
    assert (Hin : c ∈ matchesOf (allCurrencies s) query).
    { unfold matchesOf. apply list_elem_of_filter. split; [| exact Hc].
      unfold matchesQuery. rewrite Hcode, includes_refl. reflexivity. }
    split; [exact Hin |].
    rewrite Hrun.
    destruct query as [| ch query]; [congruence |]. cbn [String.length Nat.eqb].
    destruct (length (allCurrencies s) =? 0)%nat eqn:Hnone.
    { apply Nat.eqb_eq, nil_length_inv in Hnone. rewrite Hnone in Hc.
      now apply elem_of_nil in Hc. }
    destruct (matchesOf (allCurrencies s) (String ch query)) as [| m matches] eqn:Hm;
      [now apply elem_of_nil in Hin |].
    cbn [length Nat.ltb Nat.leb]. split; [reflexivity |].
    intros Hkind.
    cbn [set_show children]. rewrite renderCurrencyGroups_children.
    cbn [children app]. rewrite itemsOf_app, !itemsOf_section.
    intros Hnone'. apply app_eq_nil in Hnone' as [Hfiat Hcrypto].
    apply fmap_nil_inv in Hfiat, Hcrypto.
    assert (Hempty : forall kind, type c = kind -> ofKind kind (m :: matches) <> []).
    { intros kind Hkind' Hnil.
      assert (Hck : c ∈ ofKind kind (m :: matches))
        by (apply list_elem_of_filter; auto).
      rewrite Hnil in Hck. now apply elem_of_nil in Hck. }
    destruct (ofKind "fiat" (m :: matches)) as [| f fiat] eqn:Hf; [| discriminate].
    cbn [take length Nat.sub] in Hcrypto.
    destruct (ofKind "crypto" (m :: matches)) as [| k crypto] eqn:Hk; [| discriminate].
    destruct Hkind as [Hkind | Hkind].
    + now apply (Hempty "fiat").
    + now apply (Hempty "crypto").
Qed.

(** Typing [BTC] or [btc] on the page of five currencies finds Bitcoin. *)
Lemma search_ignores_case_witness :
  matchesOf (allCurrencies ex_loaded) "BTC" = matchesOf (allCurrencies ex_loaded) "btc"
  /\ ex_BTC ∈ matchesOf (allCurrencies ex_loaded) "btc"
  /\ show (showAutocompleteResults ex_loaded "btc" ex_emptyList) = true
  /\ itemsOf (children (showAutocompleteResults ex_loaded "btc" ex_emptyList)) <> [].
Proof.
  destruct (search_ignores_case float ex_loaded "btc" ex_emptyList)
    as (Hmatches & _ & _ & Hfound).
  split; [exact Hmatches |].
  assert (Hin : ex_BTC ∈ allCurrencies ex_loaded).
  { apply list_elem_of_lookup. now exists 3. }
  destruct (Hfound ex_BTC Hin eq_refl) as (Hmatch & Hshow & Hitems); [discriminate |].
  split; [exact Hmatch |]. split; [exact Hshow |].
  apply Hitems. now right.
Defined.

(** X21: what a search that finds nothing leaves in the list.  For an empty
    query or an empty catalogue the list is emptied and hidden.  For an ASCII
    query without a match in a loaded catalogue, the list holds the single
    note [No se encontraron monedas ...] quoting the query and is shown when
    the query has at least two characters, and is emptied and hidden when it
    has one.  In every case what the list held before is discarded. *)
Theorem search_without_match :
  forall (num : Type) (s : State num) (query : string) (listEl : ListEl),
    let listEl' := showAutocompleteResults s query listEl in
    (query = "" \/ allCurrencies s = [] ->
     children listEl' = [] /\ show listEl' = false)
    /\ (isAscii query = true ->
        query <> "" ->
        allCurrencies s <> [] ->
        matchesOf (allCurrencies s) query = [] ->
        children listEl'
        = (if (2 <=? String.length query)%nat then [NoResults query] else [])
        /\ show listEl' = (2 <=? String.length query)%nat).
Proof.
  intros num s query listEl listEl'. unfold listEl', showAutocompleteResults. split.
  - intros [-> | Hnone]; [split; reflexivity |].
    rewrite Hnone. destruct (String.length query =? 0)%nat; split; reflexivity.
  - intros _ Hquery Hsome Hmatches.
    destruct query as [| c query]; [congruence |]. cbn [String.length Nat.eqb Nat.leb].
    destruct (length (allCurrencies s) =? 0)%nat eqn:Hnone;
      [apply Nat.eqb_eq, nil_length_inv in Hnone; congruence |].
    fold (matchesOf (allCurrencies s) (String c query)). rewrite Hmatches.
    cbn [length Nat.ltb Nat.leb].
    destruct (String.length query); split; reflexivity.
Qed.

(** On the page of five currencies, [zz] gives the note and [z] nothing. *)
Lemma search_without_match_witness :
  (children (showAutocompleteResults ex_loaded "zz" ex_emptyList) = [NoResults "zz"]
   /\ show (showAutocompleteResults ex_loaded "zz" ex_emptyList) = true)
  /\ (children (showAutocompleteResults ex_loaded "z" ex_emptyList) = []
      /\ show (showAutocompleteResults ex_loaded "z" ex_emptyList) = false)
  /\ (children (showAutocompleteResults ex_loaded "" ex_emptyList) = []
      /\ show (showAutocompleteResults ex_loaded "" ex_emptyList) = false).
Proof.
  split; [| split].
  - apply (proj2 (search_without_match float ex_loaded "zz" ex_emptyList));
      [reflexivity | discriminate | discriminate | reflexivity].
  - apply (proj2 (search_without_match float ex_loaded "z" ex_emptyList));
      [reflexivity | discriminate | discriminate | reflexivity].
  - apply (proj1 (search_without_match float ex_loaded "" ex_emptyList)). now left.
Defined.

(** *** USD in the table of rates *)

Lemma filter_code_keys {num : Type} (s : State num) (keys : list string) (k : string) :
  length (filter (fun c => code c = k) (map (entryOfKey s) keys))
  = length (filter (fun key => key = k) keys).
Proof.
  induction keys as [| key keys IH]; [reflexivity |].
  cbn [map]. rewrite !filter_cons. cbn [code entryOfKey].
  destruct (decide (key = k)); cbn [length]; now rewrite IH.
Qed.

Lemma filter_eq_none (keys : list string) (k : string) :
  k ∉ keys -> filter (fun key => key = k) keys = [].
Proof.
  induction keys as [| key keys IH]; intros Hnotin; [reflexivity |].
  rewrite filter_cons. apply not_elem_of_cons in Hnotin as [Hne Hnotin].
  rewrite decide_False by congruence. now apply IH.
Qed.

Lemma filter_eq_NoDup (keys : list string) (k : string) :
  NoDup keys -> k ∈ keys -> length (filter (fun key => key = k) keys) = 1.
Proof.
  induction 1 as [| key keys Hnotin Hnodup IH]; intros Hin.
  - now apply elem_of_nil in Hin.
  - rewrite filter_cons. destruct (decide (key = k)) as [-> | Hne].
    + cbn [length]. now rewrite filter_eq_none.
    + apply IH. apply elem_of_cons in Hin as [-> |]; [congruence | assumption].
Qed.

(** X22: USD is put in front of the entries made from the keys of the table
    without looking whether the table has the key USD.  When it has, the fiat
    entries hold exactly two entries of code USD, and otherwise exactly
    one. *)
Theorem usd_listed_twice :
  forall (num : Type) (N : Number num) (host : Host num) (s : State num)
         (table : gmap string num),
    rateTable host "USD" = Some table ->
    exists fiat s',
      loadFiatCurrencies host s = (Returned fiat, s')
      /\ length (filter (fun c => code c = "USD") fiat)
         = (if decide (is_Some (table !! "USD")) then 2 else 1)
      /\ length fiat = S (size table).
Proof.
  intros num N host s table Htable.
  eexists _, _. split; [apply (loadFiatCurrencies_live host s table Htable) |].
  split.
  - rewrite merge_sort_Permutation. rewrite filter_cons.
    rewrite decide_True by reflexivity.
    cbn [length]. rewrite filter_code_keys.
    destruct (decide (is_Some (table !! "USD"))) as [[x Hx] | Hnone].
    + f_equal. apply filter_eq_NoDup; [apply NoDup_fst_map_to_list |].
      apply list_elem_of_fmap. exists ("USD", x). split; [reflexivity |].
      now apply elem_of_map_to_list.
    + rewrite filter_eq_none; [reflexivity |].
      intros Hkey. apply Hnone.
      apply list_elem_of_fmap in Hkey as ([key x] & Hfst & Hin). cbn in Hfst.
      subst key. apply elem_of_map_to_list in Hin. eauto.
  - rewrite merge_sort_Permutation. cbn [length].
    now rewrite !length_map, length_map_to_list.
Qed.

(** The table [{ USD: 1, EUR: 0.9 }] gives three fiat entries, two of them
    of code USD. *)
Lemma usd_listed_twice_witness :
  exists fiat s',
    loadFiatCurrencies (ex_host ex_usd_in_table (lit 0.5)) ex_blank = (Returned fiat, s')
    /\ length (filter (fun c => code c = "USD") fiat) = 2
    /\ length fiat = 3.
Proof.
  exact (usd_listed_twice float _ (ex_host ex_usd_in_table (lit 0.5)) ex_blank
           {[ "USD" := lit 1; "EUR" := lit 0.9 ]} eq_refl).
Defined.

(** *** What the chart of a cryptocurrency is drawn from *)

(** X23: the series of a pair with a cryptocurrency depends on the
    cryptocurrency alone.  With a crypto source the chart and the requests
    are the same whatever the target currency is, and with a fiat source and
    a crypto target they are the same whatever the source currency is: the
    history is always the one quoted in USD, and only the heading names the
    pair. *)
Theorem chart_ignores_other_currency :
  forall (num : Type) (N : Number num) (host : Host num) (s : State num)
         (fromCurrency toCurrency other : string),
    (str_is (kindOf (from_currency s)) "crypto" = true ->
     priceChart (displayPriceChart host fromCurrency toCurrency s).2
     = priceChart (displayPriceChart host fromCurrency other s).2
     /\ requests (displayPriceChart host fromCurrency toCurrency s).2
        = requests (displayPriceChart host fromCurrency other s).2
     /\ canvas_shown (chart_container (displayPriceChart host fromCurrency toCurrency s).2)
        = canvas_shown (chart_container (displayPriceChart host fromCurrency other s).2))
    /\ (str_is (kindOf (from_currency s)) "crypto" = false ->
        str_is (kindOf (to_currency s)) "crypto" = true ->
        priceChart (displayPriceChart host fromCurrency toCurrency s).2
        = priceChart (displayPriceChart host other toCurrency s).2
        /\ requests (displayPriceChart host fromCurrency toCurrency s).2
           = requests (displayPriceChart host other toCurrency s).2
        /\ canvas_shown (chart_container (displayPriceChart host fromCurrency toCurrency s).2)
           = canvas_shown (chart_container (displayPriceChart host other toCurrency s).2)).
Proof.
  intros num N host s fromCurrency toCurrency other. split.
  - intros Hfrom.
    pose proof (displayPriceChart_run host fromCurrency toCurrency s) as Hrun.
    pose proof (displayPriceChart_run host fromCurrency other s) as Hrun'.
    unfold buildSeries in Hrun, Hrun'. rewrite Hfrom in Hrun, Hrun'.
    change (getCryptocurrencyHistoricalData host fromCurrency other false)
      with (getCryptocurrencyHistoricalData host fromCurrency toCurrency false)
      in Hrun'.
    destruct (getCryptocurrencyHistoricalData host fromCurrency toCurrency false
                (charting s)) as [[series | e] s2];
      rewrite Hrun, Hrun'; repeat split.
  - intros Hfrom Hto.
    pose proof (displayPriceChart_run host fromCurrency toCurrency s) as Hrun.
    pose proof (displayPriceChart_run host other toCurrency s) as Hrun'.
    unfold buildSeries in Hrun, Hrun'. rewrite Hfrom, Hto in Hrun, Hrun'.
    change (getCryptocurrencyHistoricalData host toCurrency other true)
      with (getCryptocurrencyHistoricalData host toCurrency fromCurrency true)
      in Hrun'.
    destruct (getCryptocurrencyHistoricalData host toCurrency fromCurrency true
                (charting s)) as [[series | e] s2];
      rewrite Hrun, Hrun'; repeat split.
Qed.

(** The chart of bitcoin against USD and against EUR, with the history of
    [ex_history]. *)
Lemma chart_ignores_other_currency_witness :
  priceChart (displayPriceChart (ex_host ex_history (lit 0.5)) "BTC" "USD"
                (ex_pair ex_BTC ex_USD)).2
  = priceChart (displayPriceChart (ex_host ex_history (lit 0.5)) "BTC" "EUR"
                  (ex_pair ex_BTC ex_USD)).2
  /\ requests (displayPriceChart (ex_host ex_history (lit 0.5)) "BTC" "USD"
                 (ex_pair ex_BTC ex_USD)).2
     = requests (displayPriceChart (ex_host ex_history (lit 0.5)) "BTC" "EUR"
                   (ex_pair ex_BTC ex_USD)).2
  /\ canvas_shown (chart_container
                     (displayPriceChart (ex_host ex_history (lit 0.5)) "BTC" "USD"
                        (ex_pair ex_BTC ex_USD)).2)
     = canvas_shown (chart_container
                       (displayPriceChart (ex_host ex_history (lit 0.5)) "BTC" "EUR"
                          (ex_pair ex_BTC ex_USD)).2).
Proof.
  exact (proj1 (chart_ignores_other_currency float _ (ex_host ex_history (lit 0.5))
                  (ex_pair ex_BTC ex_USD) "BTC" "USD" "EUR") eq_refl).
Defined.
